(* ===== verification/_CoqProject ===== *)
-Q . S2P
Prelude.v
PyRuntime.v
PyFormat.v
PyInt.v
Config.v
Transport.v
SubClients.v
Classes.v
Client.v
ApiSpec.v
Json.v
JsonDump.v
Session.v
IoStep.v
Requests.v
Module.v
