(* ===== verification/Prelude.v ===== *)
(** * A verification development of the cAdvisor client
      (src/cadvisor_client.py, repository cadvisor-to-ceilometer)

    ** The program

    One Python module, a thin client for cAdvisor's REST API:
    - configuration (lines 11-21): two [oslo.config] string options,
      [cAdvisor_port] (["8080"]) and [cAdvisor_version] (["v1.3"]),
      registered on the process-wide [CONF] at import;
    - [CadvisorAPIFailedException] (24-25);
    - [_BaseClient] and three subclasses (28-69): each has a class attribute
      [base_url], a [%]-template with at most the placeholder
      [%(container_id)s]; [_BaseClient.request(container_id=None)] formats
      it unless the argument is [None] and calls [self.client.request];
    - the facade [CadvisorClient] (72-91): [__init__] formats
      [_endpoint = '%(endpoint_url)s:%(port)s/%(version)s' % {...}], whose
      [port] and [version] defaults were read from [CONF] when the module
      was imported, and builds the three sub-clients with a reference back
      to itself; [request(path)] GETs [_endpoint + path] through
      [_http_request], which tests [status_code // 100 != 2], raises on
      failure, and returns [resp.json()].

    ** The development (library root: this directory)

    - Prelude.v (this file): the [result] type of values or exceptions with
      its bind notation in [py_scope], string lemmas ([++] is [simpl never]
      under stdpp, so the development rewrites with [str_app_cons]), a
      generic division lemma, the hint databases [cadv] and [cadv_rw] and
      the tactic [res_simpl].
    - PyRuntime.v: the Python values the client handles ([None], [bool],
      [int], [str], [dict], exception instances), the exception classes it
      can raise, dictionary literals and [d[k]], [str()], [repr()] and
      [ascii()] of every such value ([py_str], [py_repr], [py_ascii]: an
      [int] is written by [int_repr] with CPython's 4300-digit limit, a
      [str] by [unicode_repr], a dict as [{k: v, ...}], an exception as
      [Class('msg')], [KeyError]'s and oslo.config's errors with their own
      [__str__]), [is not None], [str + x] and [raise].
    - PyFormat.v: the [%] operator, and [str % dict] as CPython's
      [PyUnicode_Format] loop, an automaton over the format's characters
      (keys with nested parentheses, flags, width, precision, the [s],
      [r] and [a] conversions; the numeric ones are [NotModelled]), with
      [getnextarg]'s rule for a mapping operand (one positional use of
      the mapping, then [TypeError]) and the index in the message of an
      unknown conversion character. Used by lines 41, 75-76 and 85-86. A reference, [substitute], gives the meaning of
      a template of literal text and [%(key)s] conversions.
    - PyInt.v: the decimal digits of an [int] read back ([digits_value],
      which the JSON scanner also uses), their shape and their number
      (at most 4300 exactly below [10 ^ 4300]).
    - Config.v: [OPTS], oslo.config's registry (modelled from its
      documented behaviour), and [load_module], which registers the options
      and evaluates [__init__]'s default parameters at import.
    - Transport.v: programs [io A] that return, raise or perform one GET
      and continue with its outcome; a [server] answers each GET; [io_run]
      and [io_trace] give the outcome and the URLs requested. [resp.json()]
      is a [JsonDecoder] instance (a decoder with the law that it fails
      only with decoding errors) the transport is parametric in.
      [_http_request] is lines 82-87.
    - SubClients.v: [SubKind] (the three classes), [base_url], [build_path]
      (lines 39-41), [base_request] (38-42, over the facade's [request] as a
      section parameter), and the public methods [Method].
    - Classes.v: the class bodies as namespaces, their method resolution
      order, [ABCMeta]'s [__abstractmethods__] and [object.__new__]'s
      abstract-class check ([instantiate]), which [__init__] performs for
      the facade and each sub-client.
    - Client.v: Python objects in a heap ([gmap] from locations to
      objects); [CadvisorClient_init] (73-80) allocates the facade and its
      sub-clients; [CadvisorClient_request] (89-91); [invoke] dispatches a
      method on the receiver's class; [call] is [client.<attr>.<method>()];
      [wf_heap] is the heap invariant and [reachable] the heaps a program
      builds.
    - ApiSpec.v: the contract of spec.md (URLs per call, outcome per
      response) as [spec_urls]/[spec_run], the implementation of each call
      as [impl].
    - Json.v: CPython's [json.loads] (the C scanner of Modules/_json.c,
      modelled from CPython since it is not code of this repository):
      [scan_string], [match_number] with the 4300-digit [int()] limit,
      [match_literal], and the mutually recursive [scan_once] /
      [parse_array] / [parse_elems] / [parse_object] / [parse_members] on
      fuel; [json_decode] is [JSONDecoder.decode]; [cpython_json] is the
      [JsonDecoder] instance. Every error carries CPython 3.12's message
      and the position where the scanner stopped ([jerr] holds the length
      of the rest of the text; [err_at] says where each message belongs,
      and the scanner's errors are shown to lie there, at a suffix of the
      text, by [scan_within_all]); [decode_errmsg] renders it as
      [msg: line L column C (char P)], and an [int] of more than 4300
      digits raises [ValueError] with its digit count.
    - JsonDump.v: CPython's [json.dumps] with its defaults ([int_repr],
      [escape_char] as [encode_basestring_ascii], [json_dumps]), the
      values [json_wf] accepts, a nested induction principle on [Json], and
      the scanning lemmas of printed values, including objects whose keys
      repeat ([PyDict_SetItem] keeps the first position and the last
      value).
    - Session.v: a caller of the module, as a sequence of statements
      [x = CadvisorClient(u, port, version)] and [x.<attr>.<method>()] on
      a session (the heap and the variables naming clients); [exec_stmt]
      runs one against a [server], [exec_script] runs them in order and
      stops at the first exception, as Python does.
    - IoStep.v: an operational reading of [io] programs on a [network]
      that may never answer a URL: configurations (program, URLs
      requested), a deterministic step per answered GET ([requests.get]
      has no [timeout], so an unanswered GET has no step), progress
      (final, blocked or steps), adequacy with [io_run]/[io_trace], and
      [eventually].
    - Requests.v: what [requests.get] does before the network
      ([prepare_url]'s early return and [get_adapter]'s [InvalidSchema]),
      as a transformer [requests_get] of the [server]; [str.lstrip],
      [str.lower] and [repr] of a [str] are in PyRuntime.v.
    - Module.v: the top level of the module (lines 1-95) run on the
      interpreter's state: the import system ([sys.modules], installed
      modules, [from ... import] errors), oslo_config's [CONF] created by
      its first import, oslo_log's logger cache ([LOG], line 9), the
      registration of [OPTS] keeping what was registered before an error
      ([register_opts_st]), the defaults of [__init__], and [import] of the
      module through [sys.modules]. A process that uses the module sets
      options with [set_override] and builds clients with [new_client],
      through the module object in [sys.modules]: the defaults a
      construction uses are those the import computed.

    ** What is proved (claim ids of the manifest)

    - Transport: a non-2xx response raises [TypeError] whatever its reason
      (C1), so [CadvisorAPIFailedException] is never raised; a 2xx
      response is decoded (C4) or raises the decoder's error (C9).
    - JSON: the scanner's fuel is enough and the decoder total (C16);
      decoding the printing of a well-formed value gives it back (C17); a
      body whose first non-blank character starts no value raises
      [JSONDecodeError('Expecting value: line L column C (char P)')] at
      that character through [_http_request] (C18), an integer of more
      than 4300 digits raises [ValueError] naming its digit count (C19);
      every decoding error of [resp.json()] is one of CPython's nine
      messages, at the position where CPython reports it (C12); a key
      repeated in an object keeps its first position and its last value
      (C24).
    - Requests through the facade: one GET of [_endpoint + path] with the
      outcome of [_http_request] (C2); paths [/spec/s], [/stats/s] with the
      identifier verbatim (C3), [/machine] whatever the argument (C5),
      [get_all_stats()] requests [/stats/%(container_id)s] (C8); a method
      of another class raises [AttributeError] with no GET (C13); an [int]
      container id is written as its canonical decimal text, and raises
      [ValueError] from [10 ^ 4300] on (C20).
    - Objects: every reachable heap is well formed (C6, by induction on
      [reachable]); construction from strings always succeeds with the
      expected [_endpoint] (C10) and changes no existing object (C14); an
      [int] port is written in decimal (C21); construction fails exactly
      when [str()] of an argument raises, the first in argument order
      (C22).
    - Configuration: the defaults are the [CONF] values at import, else
      [8080] and [v1.3] (C15); in a process, a [set_override] after the
      import does not reach a facade built with the defaults (C11).
    - Refinement: the code meets the contract for three of the four calls
      on every answer but a non-2xx response (C7).
    - Formatting: on templates of literal text and [%(key)s] conversions
      the automaton equals the reference substitution [substitute],
      errors included (C23).
    - Callers: every script of constructions and calls, interleaved in any
      order, keeps the heap well formed and every variable naming a
      client (C25, by induction on the script); building another client
      changes neither the outcome nor the URLs of a call on an existing
      one (C26).
    - Liveness and blocking: a call whose GET the network answers
      completes with the outcome and requests [io_run]/[io_trace] give; a
      call whose GET it never answers never moves nor ends (no timeout);
      no run takes more than one step (C27).
    - [requests]: an [endpoint_url] without a scheme makes every call raise
      [InvalidSchema] whatever the network (C28).
    - Import: the module imports exactly when its seven dependencies can be
      imported and [CONF] accepts [OPTS] (C29); end to end, importing,
      building [CadvisorClient(u)] with the defaults and calling the
      accessors requests [u:8080/v1.3/machine] and
      [u:8080/v1.3/stats/cid] (C30).

    ** Bounds and termination

    Only the JSON scanner uses fuel: it recurses through nested arrays and
    objects, and each of its five functions spends one unit per call.
    [json_fuel s = 3 * length s + 1] is enough (C16): by induction on the
    fuel, [scan_once] needs [3L+1], [parse_elems]/[parse_members] [3L+2]
    and [parse_array]/[parse_object] [3L+3] for a text of length [L],
    because every value read leaves a strictly shorter rest
    ([scan_fuel_enough]), and more fuel never changes a result
    ([scan_fuel_mono]). Everything else is structural: the format loop on
    the format string, [io] programs are finite trees (the client has no
    loops), [io_run]/[io_trace], and the printer ([z_dec_aux]'s fuel
    [1 + log2 n] bounds the number of decimal digits). Width and precision follow CPython
    on a 64-bit platform: [Py_ssize_t] width (max [2^63 - 1]) and C [int]
    precision (max [2^31 - 1]), with the same overflow tests. Status codes
    are unbounded integers: Python's [int] does not wrap, and [//] is
    [Z.div] (floor).

    ** Not modelled

    Past the choice of a connection adapter, the [requests] library is the
    [server] function, or the [network] in IoStep.v ([urllib3]'s URL
    parser, connection state and retries, none of which the client
    configures; it passes no timeout); in
    [json.loads], [\uXXXX] escapes above [U+00FF] and surrogate pairs
    ([NotModelled]), the value of floats (kept as their text), the
    recursion limit on nesting depth, the BOM check and the text decoding
    done by [requests]; the bodies of the library modules beyond their
    entry in [sys.modules] and [CONF]; [LOG] is created but never used.
    Strings are Stdlib strings of 8-bit
    characters (Python's are code points; width counts characters in both).
    An exception inside [__init__] leaves the half-built object
    unreachable, so the model returns the error without a heap.
    Python values the client never builds nor receives from [json]
    (lists, tuples, and floats, whose value would need CPython's
    decimal-to-binary64 conversion) are left out of [PyVal]: a decoded
    JSON array or float stays a [Json] value. The numeric [%] conversions
    ([d], [x], [f], ...) and [%c] need those values and are
    [NotModelled]; [repr()] of an [ImportError] (its keyword attributes)
    is [NotModelled], as are [\u] escapes above [U+00FF], which 8-bit
    strings cannot hold.
*)

From stdpp Require Import base strings list.
From Stdlib Require Import String Ascii ZArith Lia.

(** ** Results: the success-or-exception value every fallible operation returns *)

Inductive result (E A : Type) : Type :=
| Ok (a : A)
| Err (e : E).
Arguments Ok {E A} a.
Arguments Err {E A} e.

Definition res_bind {E A B} (m : result E A) (k : A -> result E B) : result E B :=
  match m with
  | Ok a => k a
  | Err e => Err e
  end.

Definition res_map {E A B} (f : A -> B) (m : result E A) : result E B :=
  match m with
  | Ok a => Ok (f a)
  | Err e => Err e
  end.

Declare Scope py_scope.
Delimit Scope py_scope with py.

Notation "x <- m ;; k" := (res_bind m (fun x => k))
  (at level 60, m at next level, right associativity) : py_scope.
Notation "f <$$> m" := (res_map f m) (at level 61, left associativity) : py_scope.

Open Scope py_scope.

Lemma res_bind_Ok {E A B} (a : A) (k : A -> result E B) : res_bind (Ok a) k = k a.
Proof. reflexivity. Qed.

Lemma res_bind_Err {E A B} (e : E) (k : A -> result E B) : res_bind (Err e) k = Err e.
Proof. reflexivity. Qed.

Lemma res_map_Ok {E A B} (f : A -> B) (a : A) : res_map (E:=E) f (Ok a) = Ok (f a).
Proof. reflexivity. Qed.

Lemma res_map_Err {E A B} (f : A -> B) (e : E) : res_map f (Err e) = Err e.
Proof. reflexivity. Qed.

Lemma res_bind_assoc {E A B C} (m : result E A) (k : A -> result E B) (h : B -> result E C) :
  res_bind (res_bind m k) h = res_bind m (fun a => res_bind (k a) h).
Proof. by destruct m. Qed.

Lemma res_bind_eq_Ok {E A B} (m : result E A) (k : A -> result E B) (b : B) :
  res_bind m k = Ok b <-> exists a, m = Ok a /\ k a = Ok b.
Proof. destruct m; simpl; split; [eauto| by intros (?&[= ->]&?) | done | by intros (?&?&?)]. Qed.

Lemma res_bind_eq_Err {E A B} (m : result E A) (k : A -> result E B) (e : E) :
  res_bind m k = Err e <-> m = Err e \/ exists a, m = Ok a /\ k a = Err e.
Proof.
  destruct m; simpl; split.
  - eauto.
  - by intros [?|(?&[= ->]&?)].
  - intros [= ->]; auto.
  - by intros [[= ->]|(?&?&?)].
Qed.

#[export] Instance result_eq_dec {E A} `{EqDecision E, EqDecision A} : EqDecision (result E A).
Proof. solve_decision. Defined.

(** ** Strings *)

Local Open Scope string_scope.

(** stdpp makes [String.append] [simpl never]; these two equations are
    how the development unfolds it. *)
Lemma str_app_nil_l (s : string) : "" ++ s = s.
Proof. reflexivity. Qed.

Lemma str_app_cons (c : ascii) (a b : string) : String c a ++ b = String c (a ++ b).
Proof. reflexivity. Qed.

Lemma str_app_nil_r (s : string) : s ++ "" = s.
Proof. induction s as [|c s IH]; rewrite ?str_app_nil_l, ?str_app_cons; congruence. Qed.

Lemma str_app_assoc (a b c : string) : (a ++ b) ++ c = a ++ (b ++ c).
Proof. induction a as [|x a IH]; rewrite ?str_app_nil_l, ?str_app_cons; congruence. Qed.

Lemma str_app_inj_l (a b c : string) : a ++ b = a ++ c -> b = c.
Proof. induction a as [|x a IH]; rewrite ?str_app_cons; [done | intros [= ?]; auto]. Qed.

Lemma str_length_app (a b : string) : String.length (a ++ b) = String.length a + String.length b.
Proof. induction a as [|x a IH]; rewrite ?str_app_cons; simpl; auto. Qed.

(** [strip_prefix p s] is [Some r] when [s = p ++ r]. *)
Fixpoint strip_prefix (p s : string) : option string :=
  match p, s with
  | EmptyString, _ => Some s
  | String c p', String d s' => if decide (c = d) then strip_prefix p' s' else None
  | String _ _, EmptyString => None
  end.

Lemma strip_prefix_app (p r : string) : strip_prefix p (p ++ r) = Some r.
Proof. induction p as [|c p IH]; rewrite ?str_app_cons; simpl; [done|]. by rewrite decide_True. Qed.

Lemma strip_prefix_Some (p s r : string) : strip_prefix p s = Some r -> s = p ++ r.
Proof.
  revert s; induction p as [|c p IH]; intros s; [by intros [= <-]|].
  destruct s as [|d s]; simpl; [done|].
  case_decide as Hcd; [subst d|done]. intros H. by rewrite (IH s H), str_app_cons.
Qed.

(** [contains_char c s] holds when the character [c] occurs in [s]. *)
Fixpoint contains_char (c : ascii) (s : string) : bool :=
  match s with
  | EmptyString => false
  | String d s' => bool_decide (c = d) || contains_char c s'
  end.

Lemma contains_char_app (c : ascii) (a b : string) :
  contains_char c (a ++ b) = contains_char c a || contains_char c b.
Proof.
  induction a as [|d a IH]; rewrite ?str_app_cons; simpl; [done|]. by rewrite IH, orb_assoc.
Qed.

(** [r] is a suffix of [s]: the text a scanner leaves is the end of the
    text it was given. *)
Definition str_suffix (r s : string) : Prop := exists p, s = p ++ r.

Lemma str_suffix_refl (s : string) : str_suffix s s.
Proof. by exists "". Qed.

Lemma str_suffix_app (p s : string) : str_suffix s (p ++ s).
Proof. by exists p. Qed.

Lemma str_suffix_cons (c : ascii) (r s : string) : str_suffix r s -> str_suffix r (String c s).
Proof. intros [p ->]. exists (String c p). by rewrite str_app_cons. Qed.

Lemma str_suffix_trans (r s t : string) : str_suffix r s -> str_suffix s t -> str_suffix r t.
Proof. intros [p ->] [p' ->]. exists (p' ++ p). by rewrite str_app_assoc. Qed.

Lemma strip_prefix_suffix (p s r : string) : strip_prefix p s = Some r -> str_suffix r s.
Proof. intros ->%strip_prefix_Some. apply str_suffix_app. Qed.

(** ** Integers *)

Lemma Z_div_eq_iff (a b q : Z) : (0 < b)%Z -> (a / b = q <-> b * q <= a < b * q + b)%Z.
Proof.
  intros Hb. pose proof (Z.div_mod a b ltac:(lia)). pose proof (Z.mod_pos_bound a b Hb).
  split; [intros <-; lia|]. intros Hq. symmetry. apply Z.div_unique_pos with (a - b * q)%Z; lia.
Qed.

(** ** Automation *)

Create HintDb cadv discriminated.
Create Rewrite HintDb cadv_rw.
#[export] Hint Rewrite @res_bind_Ok @res_bind_Err @res_map_Ok @res_map_Err : cadv_rw.
#[export] Hint Rewrite str_app_nil_l str_app_cons str_app_assoc str_app_nil_r contains_char_app
  strip_prefix_app : cadv_rw.
#[export] Hint Resolve strip_prefix_app str_app_nil_r : cadv.
#[export] Hint Resolve str_suffix_refl str_suffix_app str_suffix_cons strip_prefix_suffix : cadv.

(** [res_simpl] rewrites binds of known results and string associativity
    everywhere, then simplifies. *)
Ltac res_simpl := repeat (progress (autorewrite with cadv_rw in *; simpl in *)).

(** [destruct_res m]: case on a result and the equation that names it. *)
Ltac destruct_res m := let E := fresh "E" in destruct m eqn:E; simpl in *.
