(* ===== verification/PyRuntime.v ===== *)
(** * The fragment of the Python runtime that src/cadvisor_client.py uses

    Python values that flow through the client ([None], [str], [dict],
    exception instances), the exceptions the client can raise, dictionary
    literals and item lookup, [str()], the [is not None] test and the
    [raise] statement. *)

From stdpp Require Import base strings list.
From Stdlib Require Import String Ascii ZArith.
From S2P Require Import Prelude.

#[local] Set Warnings "-register-all".

Local Open Scope string_scope.

(** ** Exceptions

    [CadvisorAPIFailedException] is the class declared at
    src/cadvisor_client.py:24-25; [RequestException] stands for every
    exception that [requests.get] raises (connection refused, invalid URL,
    ...), [NoSuchOptError] and [DuplicateOptError] for oslo.config's,
    [NameError] for a name a script uses before binding it,
    [InvalidSchema] for the [RequestException] that [requests.get] raises
    before any network access when no connection adapter matches the URL,
    [ModuleNotFoundError] and [ImportError] for a failed [import],
    [JSONDecodeError] for what [resp.json()] raises on a body that is
    not JSON. [NotModelled] marks an evaluation that leaves the fragment of
    Python this development models (for example [str()] of a [dict]). *)
Inductive PyExc : Type :=
| KeyError (key : string)
| ValueError (msg : string)
| TypeError (msg : string)
| AttributeError (msg : string)
| CadvisorAPIFailedException (msg : string)
| JSONDecodeError (msg : string)
| RequestException (msg : string)
| NoSuchOptError (name : string)
| DuplicateOptError (name : string)
| NameError (msg : string)
| InvalidSchema (msg : string)
| ModuleNotFoundError (msg : string)
| ImportError (msg : string)
| NotModelled (what : string).

#[export] Instance PyExc_eq_dec : EqDecision PyExc.
Proof. solve_decision. Defined.

Definition exc_class_name (e : PyExc) : string :=
  match e with
  | KeyError _ => "KeyError"
  | ValueError _ => "ValueError"
  | TypeError _ => "TypeError"
  | AttributeError _ => "AttributeError"
  | CadvisorAPIFailedException _ => "CadvisorAPIFailedException"
  | JSONDecodeError _ => "JSONDecodeError"
  | RequestException _ => "RequestException"
  | NoSuchOptError _ => "NoSuchOptError"
  | DuplicateOptError _ => "DuplicateOptError"
  | NameError _ => "NameError"
  | InvalidSchema _ => "InvalidSchema"
  | ModuleNotFoundError _ => "ModuleNotFoundError"
  | ImportError _ => "ImportError"
  | NotModelled _ => "NotModelled"
  end.

(** [str(e)] of an exception built with one argument is that argument. *)
Definition exc_message (e : PyExc) : string :=
  match e with
  | KeyError m | ValueError m | TypeError m | AttributeError m
  | CadvisorAPIFailedException m | JSONDecodeError m | RequestException m
  | NoSuchOptError m | DuplicateOptError m | NameError m
  | InvalidSchema m | ModuleNotFoundError m | ImportError m | NotModelled m => m
  end.

(** ** Values *)

Inductive PyVal : Type :=
| VNone
| VBool (b : bool)
| VInt (z : Z)
| VStr (s : string)
| VDict (kvs : list (string * PyVal))
| VExc (e : PyExc).

(** Results of Python evaluation: a value or a raised exception. *)
Abbreviation PyRes := (result PyExc).

Definition type_name (v : PyVal) : string :=
  match v with
  | VNone => "NoneType"
  | VBool _ => "bool"
  | VInt _ => "int"
  | VStr _ => "str"
  | VDict _ => "dict"
  | VExc e => exc_class_name e
  end.

(** ** Dictionaries

    A [dict] is the list of its items in insertion order. A literal
    [{k1: v1, k2: v2}] inserts its items left to right, a repeated key
    keeping its first position and its last value. *)
Fixpoint dict_set (k : string) (v : PyVal) (d : list (string * PyVal)) : list (string * PyVal) :=
  match d with
  | [] => [(k, v)]
  | (k', v') :: d' => if decide (k = k') then (k, v) :: d' else (k', v') :: dict_set k v d'
  end.

Definition dict_lit (items : list (string * PyVal)) : list (string * PyVal) :=
  fold_left (fun d '(k, v) => dict_set k v d) items [].

Fixpoint dict_lookup (k : string) (d : list (string * PyVal)) : option PyVal :=
  match d with
  | [] => None
  | (k', v) :: d' => if decide (k = k') then Some v else dict_lookup k d'
  end.

(** [d[k]]: the value, or [KeyError(k)]. *)
Definition py_getitem (d : list (string * PyVal)) (k : string) : PyRes PyVal :=
  match dict_lookup k d with
  | Some v => Ok v
  | None => Err (KeyError k)
  end.

(** ** Builtins and statements *)

(** ** Integers ([int.__repr__], Objects/longobject.c) *)

Definition digit_char (d : Z) : ascii := ascii_of_nat (Z.to_nat d + 48).

(** The decimal digits of [n >= 0], most significant first, prepended to
    [acc]; [fuel] bounds the number of digits. *)
Fixpoint z_dec_aux (fuel : nat) (n : Z) (acc : string) : string :=
  match fuel with
  | O => acc
  | S f =>
      let acc' := String (digit_char (n mod 10)) acc in
      if (n <? 10)%Z then acc' else z_dec_aux f (n / 10) acc'
  end.

Definition dec_fuel (n : Z) : nat := S (Z.to_nat (Z.log2 n)).

Definition z_dec (n : Z) : string := z_dec_aux (dec_fuel n) n "".

Definition int_repr (z : Z) : string :=
  if (z <? 0)%Z then "-" ++ z_dec (- z) else z_dec z.

(** [sys.get_int_max_str_digits()], 4300 by default (CPython 3.11 on):
    [int.__str__] refuses to write more digits, sign excluded. *)
Definition INT_MAX_STR_DIGITS : nat := 4300.

(** The smallest integer [str()] refuses: [10 ^ INT_MAX_STR_DIGITS]. *)
Definition INT_MAX_STR_VALUE : Z := 10 ^ 4300.


(** [v is not None]. *)
Definition py_is_not_none (v : PyVal) : bool :=
  match v with VNone => false | _ => true end.

(** [a + b] where [a] is a [str]: concatenation, or [TypeError] when [b]
    is not a [str]. *)
Definition py_add_str (a : string) (b : PyVal) : PyRes string :=
  match b with
  | VStr b' => Ok (a ++ b')
  | _ => let q := String "034"%char EmptyString in
         Err (TypeError ("can only concatenate str (not " ++ q ++ type_name b ++ q ++ ") to str"))
  end.

(** [raise v]: the exception raised. Raising a value that is not an
    exception instance raises [TypeError]. *)
Definition py_raise (v : PyVal) : PyExc :=
  match v with
  | VExc e => e
  | _ => TypeError "exceptions must derive from BaseException"
  end.

(** ** [str] methods and [repr] (Objects/unicodeobject.c)

    A character of a Stdlib string is a code point in 0-255, so the
    Unicode tables below are their Latin-1 rows. *)

Definition hex_char (d : N) : ascii :=
  if (d <? 10)%N then ascii_of_N (48 + d) else ascii_of_N (87 + d).

(** [str.isspace]: [\t \n \v \f \r] (9-13), the separators 28-31, the
    space, NEL (133) and NO-BREAK SPACE (160). *)
Definition py_isspace (c : ascii) : bool :=
  let n := N_of_ascii c in
  ((9 <=? n) && (n <=? 13) || (28 <=? n) && (n <=? 32) || (n =? 133) || (n =? 160))%N.

(** [s.lstrip()] *)
Fixpoint py_lstrip (s : string) : string :=
  match s with
  | EmptyString => EmptyString
  | String c s' => if py_isspace c then py_lstrip s' else s
  end.

(** [str.lower]: [A-Z] and [À-Þ] but [×] (215) move up by 32. *)
Definition py_lower_char (c : ascii) : ascii :=
  let n := N_of_ascii c in
  if ((65 <=? n) && (n <=? 90) || (192 <=? n) && (n <=? 222) && negb (n =? 215))%N
  then ascii_of_N (n + 32) else c.

Fixpoint py_lower (s : string) : string :=
  match s with
  | EmptyString => EmptyString
  | String c s' => String (py_lower_char c) (py_lower s')
  end.

(** [Py_UNICODE_ISPRINTABLE] above ASCII: not the C1 controls (128-159),
    NO-BREAK SPACE (160) or SOFT HYPHEN (173). *)
Definition py_isprintable_hi (n : N) : bool := negb ((n <=? 160) || (n =? 173))%N.

(** One character of [repr(s)] between the quotes [q]: the quote and the
    backslash escaped, [\t \n \r], [\xhh] for the other controls, [DEL]
    and the unprintable Latin-1 characters. *)
Definition repr_char (q c : ascii) : string :=
  let n := N_of_ascii c in
  if bool_decide (c = q) || bool_decide (c = "\"%char) then String "\"%char (String c EmptyString)
  else if (n =? 9)%N then "\t"
  else if (n =? 10)%N then "\n"
  else if (n =? 13)%N then "\r"
  else if (n <? 32)%N || (n =? 127)%N || ((128 <=? n)%N && negb (py_isprintable_hi n)) then
    String "\"%char (String "x"%char (String (hex_char (n / 16)%N) (String (hex_char (n mod 16)%N) EmptyString)))
  else String c EmptyString.

Fixpoint repr_body (q : ascii) (s : string) : string :=
  match s with
  | EmptyString => EmptyString
  | String c s' => repr_char q c ++ repr_body q s'
  end.

(** [repr(s)] ([unicode_repr]): single quotes, unless [s] has a single
    quote and no double quote. *)
Definition py_repr_str (s : string) : string :=
  let q := if contains_char "'"%char s && negb (contains_char "034"%char s) then "034"%char else "'"%char in
  String q (repr_body q s ++ String q EmptyString).

(** ** [str()] and [repr()] of values *)

(** [int.__str__] and [int.__repr__] (Objects/longobject.c), with the
    4300-digit limit ([_MAX_STR_DIGITS_ERROR_FMT_TO_STR]). *)
Definition py_int_str (z : Z) : PyRes string :=
  if (INT_MAX_STR_DIGITS <? String.length (z_dec (Z.abs z)))%nat then
    Err (ValueError "Exceeds the limit (4300 digits) for integer string conversion; use sys.set_int_max_str_digits() to increase the limit")
  else Ok (int_repr z).

(** [str(e)] of an exception instance: [BaseException.__str__] gives
    its one argument; [KeyError.__str__] its [repr]; oslo.config's
    [NoSuchOptError] and [DuplicateOptError] define their own
    [__str__] (group [DEFAULT]). *)
Definition exc_str (e : PyExc) : PyRes string :=
  match e with
  | KeyError k => Ok (py_repr_str k)
  | NoSuchOptError n => Ok ("no such option " ++ n ++ " in group [DEFAULT]")
  | DuplicateOptError n => Ok ("duplicate option: " ++ n)
  | NotModelled w => Err (NotModelled w)
  | e => Ok (exc_message e)
  end.

(** [repr(e)]: [BaseException.__repr__] with one argument,
    [Name(repr(arg))]. [ImportError] and its subclass add [name=] and
    [path=] in CPython 3.12, which the model does not track. *)
Definition exc_repr (e : PyExc) : PyRes string :=
  match e with
  | ModuleNotFoundError _ | ImportError _ => Err (NotModelled "repr() of an ImportError")
  | NotModelled w => Err (NotModelled w)
  | e => Ok (exc_class_name e ++ "(" ++ py_repr_str (exc_message e) ++ ")")
  end.

(** [repr(v)]; a [dict] is written by [dict_repr] (Objects/dictobject.c):
    [{]k[: ]v[, ]...[}], each key's [repr] then its value's, the first
    error stopping the loop. *)
Fixpoint py_repr (v : PyVal) : PyRes string :=
  match v with
  | VNone => Ok "None"
  | VBool b => Ok (if b then "True" else "False")
  | VInt z => py_int_str z
  | VStr s => Ok (py_repr_str s)
  | VExc e => exc_repr e
  | VDict kvs =>
      let fix items (kvs : list (string * PyVal)) : PyRes (list string) :=
        match kvs with
        | [] => Ok []
        | (k, v) :: kvs' =>
            sv <- py_repr v ;; rest <- items kvs' ;; Ok ((py_repr_str k ++ ": " ++ sv) :: rest)
        end in
      ss <- items kvs ;; Ok ("{" ++ String.concat ", " ss ++ "}")
  end.

(** [ascii(v)] ([PyObject_ASCII]): the [repr] with every non-ASCII
    character written [\xhh] ("backslashreplace"). *)
Fixpoint backslashreplace (s : string) : string :=
  match s with
  | EmptyString => EmptyString
  | String c s' =>
      let n := N_of_ascii c in
      if (128 <=? n)%N
      then String "\"%char (String "x"%char (String (hex_char (n / 16)%N) (String (hex_char (n mod 16)%N) (backslashreplace s'))))
      else String c (backslashreplace s')
  end.

Definition py_ascii (v : PyVal) : PyRes string := backslashreplace <$$> py_repr v.

(** [str(v)]: a [str] is itself, an exception its [__str__], a [dict]
    (which has no [__str__]) its [repr], the others as [repr]. *)
Definition py_str (v : PyVal) : PyRes string :=
  match v with
  | VStr s => Ok s
  | VExc e => exc_str e
  | v => py_repr v
  end.

(** ** Lemmas *)

Lemma py_str_VInt (z : Z) : py_str (VInt z) = py_int_str z.
Proof. reflexivity. Qed.

Lemma dict_lookup_set_eq (k : string) (v : PyVal) d : dict_lookup k (dict_set k v d) = Some v.
Proof.
  induction d as [|[k' v'] d IH]; simpl; [by rewrite decide_True|].
  case_decide; simpl; [by rewrite decide_True | by rewrite decide_False].
Qed.

Lemma dict_lookup_set_ne (k k' : string) (v : PyVal) d :
  k <> k' -> dict_lookup k' (dict_set k v d) = dict_lookup k' d.
Proof.
  intros Hne. induction d as [|[k0 v0] d IH]; simpl.
  - by rewrite decide_False.
  - case_decide as Hk; subst; simpl.
    + by rewrite !decide_False.
    + case_decide; [done | apply IH].
Qed.

Lemma py_getitem_singleton (k : string) (v : PyVal) :
  py_getitem (dict_lit [(k, v)]) k = Ok v.
Proof. unfold py_getitem, dict_lit; simpl. by rewrite decide_True. Qed.

Lemma py_str_VStr (s : string) : py_str (VStr s) = Ok s.
Proof. reflexivity. Qed.

#[export] Hint Rewrite dict_lookup_set_eq py_getitem_singleton py_str_VStr : cadv_rw.
