(* ===== verification/PyFormat.v ===== *)
(** * Python's printf-style formatting with a mapping: [fmt % {...}]

    The client builds every path and URL with [%] on a [str] and a [dict]
    (src/cadvisor_client.py:41, 75-76) and applies [%] to an exception
    instance (85-86). This file models the binary [%] operator on those
    operands and, for [str % dict], CPython's formatting loop
    ([PyUnicode_Format] in Objects/unicodeobject.c) as an automaton that
    reads the format one character at a time, as the C loop does with
    [fmtpos]/[fmtcnt]:

    - [FLit]: copying literal text; ['%'] starts a conversion;
    - [FPct]: just after ['%']; ["%%"] writes one ['%'], ['('] opens a key;
    - [FKey n acc]: inside [%(...)], [n] parentheses open, [acc] read so far;
      the key is looked up ([KeyError]) when the parentheses balance;
    - [FSpec st cs]: flags ["-+ #0"], width, ['.'] precision and an ignored
      length modifier ["hlL"], then the conversion character.

    Width and precision are checked against [PY_SSIZE_T_MAX] and [INT_MAX]
    as the C code does ([ValueError "width too big"]). The [s], [r] and
    [a] conversions ([str], [repr], [ascii]) are modelled in full
    (precision truncates, width pads with spaces, on the left unless the
    ['-'] flag is set); the numeric conversions, [c], and a ['*'] width
    are [NotModelled]; any other character raises CPython's [ValueError
    "unsupported format character 'c' (0xNN) at index i"], which is why
    the loop counts the index of each character. Ending inside a
    conversion raises [ValueError "incomplete format"] (["incomplete format
    key"] inside a key). The value of a conversion is fetched as
    [unicode_format_getnextarg] does with a mapping operand ([arglen = -1],
    [argidx = -2]): a keyed conversion takes [d[key]]; a positional one
    takes the mapping itself if no conversion has run before it, and
    otherwise raises [TypeError "not enough arguments for format
    string"] once its conversion character is read. *)

From stdpp Require Import base strings list.
From Stdlib Require Import String Ascii ZArith Lia.
From S2P Require Import Prelude PyRuntime.

Local Open Scope string_scope.
Local Open Scope Z_scope.

Definition PY_SSIZE_T_MAX : Z := 2 ^ 63 - 1.
Definition INT_MAX : Z := 2 ^ 31 - 1.

(** ** The conversion being parsed (C's [struct unicode_format_arg_t]) *)

Record conv_spec := mk_spec {
  cs_arg : option PyVal; (** the value converted: [d[key]], the dict itself
                             for the first positional conversion, [None]
                             when [getnextarg] has nothing left *)
  cs_ljust : bool;     (** flag ['-'] ([F_LJUST]) *)
  cs_width : Z;        (** [-1] when absent *)
  cs_prec : Z          (** [-1] when absent *)
}.

Definition spec_init (v : option PyVal) : conv_spec := mk_spec v false (-1) (-1).

Inductive stage : Type :=
| StFlags    (** reading flags *)
| StWidth    (** reading width digits *)
| StPrecDot  (** just read ['.'] *)
| StPrec     (** reading precision digits *)
| StLen.     (** read a length modifier; the conversion comes next *)

(** [fresh] is [argidx < arglen] in C: with a mapping operand, [args]
    can be taken by one positional conversion, before any conversion has
    run ([argidx] starts at [-2]; [getnextarg] and a keyed conversion leave
    it at [-1]). *)
Inductive fmt_mode : Type :=
| FLit (fresh : bool)
| FPct (fresh : bool)
| FKey (depth : nat) (acc : string)
| FSpec (st : stage) (cs : conv_spec).

(** ** Characters *)

Definition is_digit (c : ascii) : bool :=
  (48 <=? nat_of_ascii c)%nat && (nat_of_ascii c <=? 57)%nat.

Definition digit_val (c : ascii) : Z := Z.of_nat (nat_of_ascii c) - 48.

Definition is_flag (c : ascii) : bool :=
  contains_char c "-+ #0".

Definition is_length_mod (c : ascii) : bool :=
  contains_char c "hlL".

(** The other conversion characters CPython accepts. *)
Definition is_other_conversion (c : ascii) : bool :=
  contains_char c "raidiuoxXeEfFgGc%".

Fixpoint spaces (n : nat) : string :=
  match n with
  | O => ""
  | S n' => String " " (spaces n')
  end.

(** ** The [s] conversion ([unicode_format_arg_output]) *)

Definition pad_str (cs : conv_spec) (s : string) : string :=
  let s' := if (0 <=? cs_prec cs) && (cs_prec cs <? Z.of_nat (String.length s))
            then substring 0 (Z.to_nat (cs_prec cs)) s else s in
  let len := Z.of_nat (String.length s') in
  if len <? cs_width cs then
    let fill := spaces (Z.to_nat (cs_width cs - len)) in
    if cs_ljust cs then s' ++ fill else fill ++ s'
  else s'.

(** [%x] of a character code (at most two hexadecimal digits). *)
Definition hex_code (n : N) : string :=
  if (n <? 16)%N then String (hex_char n) ""
  else String (hex_char (n / 16)%N) (String (hex_char (n mod 16)%N) "").

(** [unicode_format_arg_format]'s error on an unknown conversion
    character at index [i] of the format. *)
Definition unsupported_char (c : ascii) (i : nat) : PyExc :=
  let n := N_of_ascii c in
  ValueError ("unsupported format character '" ++
              String (if (31 <=? n)%N && (n <=? 126)%N then c else "?"%char) "" ++
              "' (0x" ++ hex_code n ++ ") at index " ++ int_repr (Z.of_nat i)).

(** [getnextarg] first, then the conversion character [c], at index [i]. *)
Definition convert (cs : conv_spec) (c : ascii) (i : nat) : PyRes string :=
  match cs_arg cs with
  | None => Err (TypeError "not enough arguments for format string")
  | Some v =>
      if decide (c = "s"%char) then
        s <- py_str v ;; Ok (pad_str cs s)
      else if decide (c = "r"%char) then
        s <- py_repr v ;; Ok (pad_str cs s)
      else if decide (c = "a"%char) then
        s <- py_ascii v ;; Ok (pad_str cs s)
      else if is_other_conversion c then Err (NotModelled "numeric conversions, %c and %% with a key")
      else Err (unsupported_char c i)
  end.

(** ** One step of the automaton *)

Definition after_len (cs : conv_spec) (c : ascii) (i : nat) : PyRes (fmt_mode * string) :=
  if is_length_mod c then Ok (FSpec StLen cs, "")
  else out <- convert cs c i ;; Ok (FLit false, out).

Definition after_width (cs : conv_spec) (c : ascii) (i : nat) : PyRes (fmt_mode * string) :=
  if decide (c = "."%char) then Ok (FSpec StPrecDot (mk_spec (cs_arg cs) (cs_ljust cs) (cs_width cs) 0), "")
  else after_len cs c i.

Definition after_flags (cs : conv_spec) (c : ascii) (i : nat) : PyRes (fmt_mode * string) :=
  if decide (c = "*"%char) then Err (NotModelled "'*' width")
  else if is_digit c then
    Ok (FSpec StWidth (mk_spec (cs_arg cs) (cs_ljust cs) (digit_val c) (cs_prec cs)), "")
  else after_width cs c i.

Definition spec_step (st : stage) (cs : conv_spec) (c : ascii) (i : nat) : PyRes (fmt_mode * string) :=
  match st with
  | StFlags =>
      if is_flag c then
        Ok (FSpec StFlags (mk_spec (cs_arg cs) (cs_ljust cs || bool_decide (c = "-"%char))
                                   (cs_width cs) (cs_prec cs)), "")
      else after_flags cs c i
  | StWidth =>
      if is_digit c then
        if (PY_SSIZE_T_MAX - digit_val c) / 10 <? cs_width cs then Err (ValueError "width too big")
        else Ok (FSpec StWidth (mk_spec (cs_arg cs) (cs_ljust cs)
                                        (cs_width cs * 10 + digit_val c) (cs_prec cs)), "")
      else after_width cs c i
  | StPrecDot =>
      if decide (c = "*"%char) then Err (NotModelled "'*' precision")
      else if is_digit c then
        Ok (FSpec StPrec (mk_spec (cs_arg cs) (cs_ljust cs) (cs_width cs) (digit_val c)), "")
      else after_len cs c i
  | StPrec =>
      if is_digit c then
        if (INT_MAX - digit_val c) / 10 <? cs_prec cs then Err (ValueError "precision too big")
        else Ok (FSpec StPrec (mk_spec (cs_arg cs) (cs_ljust cs) (cs_width cs)
                                       (cs_prec cs * 10 + digit_val c)), "")
      else after_len cs c i
  | StLen => out <- convert cs c i ;; Ok (FLit false, out)
  end.

(** The character [c] at index [i] of the format. *)
Definition fmt_step (d : list (string * PyVal)) (m : fmt_mode) (c : ascii) (i : nat)
  : PyRes (fmt_mode * string) :=
  match m with
  | FLit b => if decide (c = "%"%char) then Ok (FPct b, "") else Ok (FLit b, String c "")
  | FPct b =>
      if decide (c = "%"%char) then Ok (FLit b, "%")
      else if decide (c = "("%char) then Ok (FKey 1 "", "")
      else spec_step StFlags (spec_init (if b then Some (VDict d) else None)) c i
  | FKey n acc =>
      if decide (c = ")"%char) then
        match n with
        | 1%nat => v <- py_getitem d acc ;; Ok (FSpec StFlags (spec_init (Some v)), "")
        | _ => Ok (FKey (pred n) (acc ++ ")"), "")
        end
      else if decide (c = "("%char) then Ok (FKey (S n) (acc ++ "("), "")
      else Ok (FKey n (acc ++ String c ""), "")
  | FSpec st cs => spec_step st cs c i
  end.

Definition fmt_finish (m : fmt_mode) : PyRes string :=
  match m with
  | FLit _ => Ok ""
  | FKey _ _ => Err (ValueError "incomplete format key")
  | _ => Err (ValueError "incomplete format")
  end.

(** The whole loop from index [i]: each character's output, then the
    rest. *)
Fixpoint fmt_run (d : list (string * PyVal)) (i : nat) (m : fmt_mode) (s : string) : PyRes string :=
  match s with
  | EmptyString => fmt_finish m
  | String c s' =>
      res_bind (fmt_step d m c i) (fun '(m', out) =>
        rest <- fmt_run d (S i) m' s' ;; Ok (out ++ rest))
  end.

(** The loop without the end-of-format check: the mode reached and the
    text written so far. *)
Fixpoint fmt_prefix (d : list (string * PyVal)) (i : nat) (m : fmt_mode) (s : string)
  : PyRes (fmt_mode * string) :=
  match s with
  | EmptyString => Ok (m, "")
  | String c s' =>
      res_bind (fmt_step d m c i) (fun '(m', out) =>
        res_bind (fmt_prefix d (S i) m' s') (fun '(m'', rest) => Ok (m'', out ++ rest)))
  end.

(** [fmt % d] for a [str] format and a [dict]. *)
Definition py_format (fmt : string) (d : list (string * PyVal)) : PyRes string :=
  fmt_run d 0 (FLit true) fmt.

(** ** The binary [%] operator on the operands the client uses *)

Definition py_mod (l r : PyVal) : PyRes PyVal :=
  match l, r with
  | VStr fmt, VDict d => VStr <$$> py_format fmt d
  | VStr _, _ => Err (NotModelled "str % non-mapping")
  | _, _ => Err (TypeError ("unsupported operand type(s) for %: '" ++ type_name l
                            ++ "' and '" ++ type_name r ++ "'"))
  end.

(** ** A reference: substituting keys in a template

    A template made of literal text and [%(key)s] conversions, and what
    substituting it means: the literal text copied, each key replaced by
    [str(d[key])], left to right, the first [KeyError] or [str()] error
    raised. The automaton computes the same (theorem
    [py_format_template]). *)

Inductive segment : Type :=
| SLit (text : string)
| SKey (key : string).

Definition segment_text (g : segment) : string :=
  match g with SLit t => t | SKey k => "%(" ++ k ++ ")s" end.

Fixpoint template_text (gs : list segment) : string :=
  match gs with
  | [] => ""
  | g :: gs' => segment_text g ++ template_text gs'
  end.

(** A key with no parentheses: the automaton reads it whole, staying at
    depth 1. *)
Definition plain_key (k : string) : bool :=
  negb (contains_char "("%char k) && negb (contains_char ")"%char k).

(** A segment the template syntax reads back as itself: literal text
    without ['%'], keys without parentheses. *)
Definition segment_ok (g : segment) : bool :=
  match g with
  | SLit t => negb (contains_char "%"%char t)
  | SKey k => plain_key k
  end.

Fixpoint substitute (gs : list segment) (d : list (string * PyVal)) : PyRes string :=
  match gs with
  | [] => Ok ""
  | SLit t :: gs' => res_map (String.append t) (substitute gs' d)
  | SKey k :: gs' =>
      v <- py_getitem d k ;; sv <- py_str v ;; res_map (String.append sv) (substitute gs' d)
  end.

(** ** The loop over a concatenation *)

Lemma res_map_app_nil (m : PyRes string) : res_map (String.append "") m = m.
Proof. by destruct m. Qed.

Lemma fmt_run_app d i m (s1 s2 : string) :
  fmt_run d i m (s1 ++ s2) =
  res_bind (fmt_prefix d i m s1) (fun '(m1, o1) =>
    res_map (String.append o1) (fmt_run d (i + String.length s1) m1 s2)).
Proof.
  revert i m; induction s1 as [|c s1 IH]; intros i m; simpl.
  - rewrite Nat.add_0_r. by rewrite res_map_app_nil.
  - rewrite ?str_app_cons; simpl.
    destruct (fmt_step d m c i) as [[m' out]|e]; simpl; [|done].
    rewrite IH, Nat.add_succ_r. destruct (fmt_prefix d (S i) m' s1) as [[m1 o1]|e]; simpl; [|done].
    destruct (fmt_run d _ m1 s2); simpl; [by rewrite str_app_assoc | done].
Qed.

Lemma fmt_prefix_app d i m (s1 s2 : string) :
  fmt_prefix d i m (s1 ++ s2) =
  res_bind (fmt_prefix d i m s1) (fun '(m1, o1) =>
    res_bind (fmt_prefix d (i + String.length s1) m1 s2) (fun '(m2, o2) => Ok (m2, o1 ++ o2))).
Proof.
  revert i m; induction s1 as [|c s1 IH]; intros i m; simpl.
  - rewrite str_app_nil_l, Nat.add_0_r. destruct (fmt_prefix d i m s2) as [[m2 o2]|e]; reflexivity.
  - rewrite ?str_app_cons; simpl.
    destruct (fmt_step d m c i) as [[m' out]|e]; simpl; [|done].
    rewrite IH, Nat.add_succ_r. destruct (fmt_prefix d (S i) m' s1) as [[m1 o1]|e]; simpl; [|done].
    destruct (fmt_prefix d _ m1 s2) as [[m2 o2]|]; simpl; [by rewrite str_app_assoc | done].
Qed.

(** ** Single steps

    Proofs go through [fmt_step] only by the lemmas below. *)
#[global] Arguments fmt_step : simpl never.

Lemma pad_str_init (v : option PyVal) (s : string) : pad_str (spec_init v) s = s.
Proof. unfold pad_str; simpl. destruct (Z.ltb_spec (Z.of_nat (String.length s)) (-1)); [lia|done]. Qed.

Lemma fmt_step_lit d b (c : ascii) i : c <> "%"%char -> fmt_step d (FLit b) c i = Ok (FLit b, String c "").
Proof. intros Hc. unfold fmt_step. by rewrite decide_False. Qed.

Lemma fmt_step_key d (c : ascii) (acc : string) i :
  c <> "("%char -> c <> ")"%char -> fmt_step d (FKey 1 acc) c i = Ok (FKey 1 (acc ++ String c ""), "").
Proof. intros H1 H2. unfold fmt_step. by rewrite !decide_False. Qed.

Lemma fmt_step_close d (acc : string) i :
  fmt_step d (FKey 1 acc) ")" i = (v <- py_getitem d acc ;; Ok (FSpec StFlags (spec_init (Some v)), "")).
Proof. reflexivity. Qed.

Lemma fmt_step_conv_s d (v : PyVal) i :
  fmt_step d (FSpec StFlags (spec_init (Some v))) "s" i = (s <- py_str v ;; Ok (FLit false, s)).
Proof.
  assert (fmt_step d (FSpec StFlags (spec_init (Some v))) "s" i =
          res_bind (res_bind (py_str v) (fun s => Ok (pad_str (spec_init (Some v)) s)))
                   (fun out => Ok (FLit false, out))) as -> by reflexivity.
  destruct (py_str v); simpl; [by rewrite pad_str_init | done].
Qed.

#[export] Hint Rewrite fmt_step_close fmt_step_conv_s pad_str_init : cadv_rw.

(** ** Literal text and keys *)

Lemma fmt_prefix_literal d i b (s : string) :
  contains_char "%"%char s = false -> fmt_prefix d i (FLit b) s = Ok (FLit b, s).
Proof.
  revert i. induction s as [|c s IH]; intros i; simpl; [done|]. intros [Hc Hs]%orb_false_elim.
  rewrite fmt_step_lit by (intros ->; discriminate). simpl. by rewrite IH.
Qed.

Lemma fmt_prefix_key d i (k acc : string) :
  plain_key k = true -> fmt_prefix d i (FKey 1 acc) k = Ok (FKey 1 (acc ++ k), "").
Proof.
  unfold plain_key. revert i acc; induction k as [|c k IH]; intros i acc; simpl.
  - by rewrite str_app_nil_r.
  - rewrite !negb_orb. intros (Hk1 & Hk2)%andb_prop.
    apply andb_prop in Hk1 as [Ho Hk1]; apply andb_prop in Hk2 as [Hc Hk2].
    rewrite fmt_step_key; [|intros ->; discriminate..]. simpl.
    rewrite IH by (by apply andb_true_intro). simpl. by rewrite str_app_assoc.
Qed.

(** [%(k)s] writes [str(d[k])] and returns to literal text, with the
    positional argument used, or raises the [KeyError] of the lookup or
    what [str()] raises. *)
Lemma fmt_prefix_key_conv d i b (k : string) :
  plain_key k = true ->
  fmt_prefix d i (FLit b) ("%(" ++ k ++ ")s") = (v <- py_getitem d k ;; sv <- py_str v ;; Ok (FLit false, sv)).
Proof.
  intros Hk.
  change ("%(" ++ k ++ ")s") with ("%(" ++ (k ++ ")s")).
  rewrite fmt_prefix_app. simpl. rewrite fmt_prefix_app, fmt_prefix_key by done. simpl.
  rewrite !str_app_nil_l, fmt_step_close. destruct (py_getitem d k) as [v|e]; simpl; [|done].
  rewrite fmt_step_conv_s.
  destruct (py_str v); simpl; [|done]. by rewrite !str_app_nil_l, !str_app_nil_r.
Qed.

Lemma fmt_prefix_conv d i b (k : string) (v : PyVal) :
  plain_key k = true -> py_getitem d k = Ok v ->
  fmt_prefix d i (FLit b) ("%(" ++ k ++ ")s") = (sv <- py_str v ;; Ok (FLit false, sv)).
Proof. intros Hk Hv. by rewrite fmt_prefix_key_conv, Hv. Qed.

Lemma fmt_run_after (d : list (string * PyVal)) i b b' (s1 s2 o1 : string) :
  fmt_prefix d i (FLit b) s1 = Ok (FLit b', o1) ->
  fmt_run d i (FLit b) (s1 ++ s2) = res_map (String.append o1) (fmt_run d (i + String.length s1) (FLit b') s2).
Proof. intros H. by rewrite fmt_run_app, H. Qed.

(** The three shapes a format is read in: literal text, a [%(k)s]
    conversion, and the end. *)
Lemma fmt_run_lit d i b (lit rest : string) :
  contains_char "%"%char lit = false ->
  fmt_run d i (FLit b) (lit ++ rest) = res_map (String.append lit) (fmt_run d (i + String.length lit) (FLit b) rest).
Proof. intros H. apply fmt_run_after. by apply fmt_prefix_literal. Qed.

Lemma fmt_run_conv_s d i b (k sv rest : string) (v : PyVal) :
  plain_key k = true -> py_getitem d k = Ok v -> py_str v = Ok sv ->
  fmt_run d i (FLit b) (("%(" ++ k ++ ")s") ++ rest) =
    res_map (String.append sv) (fmt_run d (i + String.length ("%(" ++ k ++ ")s")) (FLit false) rest).
Proof. intros Hk Hv Hs. apply fmt_run_after. by rewrite (fmt_prefix_conv _ _ _ _ v), Hs. Qed.

Lemma fmt_run_key_conv d i b (k rest : string) :
  plain_key k = true ->
  fmt_run d i (FLit b) (("%(" ++ k ++ ")s") ++ rest) =
    (v <- py_getitem d k ;; sv <- py_str v ;;
     res_map (String.append sv) (fmt_run d (i + String.length ("%(" ++ k ++ ")s")) (FLit false) rest)).
Proof.
  intros Hk. rewrite fmt_run_app, fmt_prefix_key_conv by done.
  destruct (py_getitem d k); simpl; [|done]. by destruct (py_str _).
Qed.

Lemma fmt_run_conv d i b (k rest : string) (v : PyVal) :
  plain_key k = true -> py_getitem d k = Ok v ->
  fmt_run d i (FLit b) (("%(" ++ k ++ ")s") ++ rest) =
    (sv <- py_str v ;; res_map (String.append sv) (fmt_run d (i + String.length ("%(" ++ k ++ ")s")) (FLit false) rest)).
Proof. intros Hk Hv. by rewrite fmt_run_key_conv, Hv. Qed.

Lemma fmt_run_end d i b : fmt_run d i (FLit b) "" = Ok "".
Proof. reflexivity. Qed.

(** The value of a decimal digit. *)
Lemma digit_val_range (c : ascii) : is_digit c = true -> 0 <= digit_val c <= 9.
Proof.
  unfold is_digit, digit_val. intros [H1 H2]%andb_prop.
  apply Nat.leb_le in H1, H2. lia.
Qed.


(** A format with no ['%'] is returned unchanged, whatever the mapping:
    formatting only ever reads the mapping at a conversion. *)
Lemma py_format_literal (s : string) (d : list (string * PyVal)) :
  contains_char "%"%char s = false -> py_format s d = Ok s.
Proof.
  intros H. unfold py_format. rewrite <- (str_app_nil_r s) at 1.
  rewrite fmt_run_lit by done. cbn. by rewrite str_app_nil_r.
Qed.

(** ** Properties *)



(** C23: Equivalence with the reference: on a template of literal text
    without ['%'] and [%(key)s] conversions with plain keys, CPython's
    formatting automaton computes exactly the left-to-right substitution,
    errors included (the first missing key raises [KeyError], the first
    failing [str()] its exception). *)
Theorem py_format_template (gs : list segment) (d : list (string * PyVal)) :
  forallb segment_ok gs = true -> py_format (template_text gs) d = substitute gs d.
Proof.
  intros Hgs. unfold py_format.
  enough (H : forall i b, fmt_run d i (FLit b) (template_text gs) = substitute gs d) by apply H.
  revert Hgs. induction gs as [|[t|k] gs IH]; intros Hgs i b;
    cbn [template_text forallb segment_ok substitute segment_text] in Hgs |- *;
    [reflexivity| |]; apply andb_prop in Hgs as [Hg Hgs].
  - rewrite fmt_run_lit by (by apply negb_true_iff). by rewrite IH.
  - rewrite fmt_run_key_conv by done.
    destruct (py_getitem d k); cbn [res_bind]; [|done]. destruct (py_str _); cbn [res_bind]; [|done].
    by rewrite IH.
Qed.

Lemma py_format_template_witness :
  forallb segment_ok [SLit "/stats/"; SKey "container_id"] = true /\
  py_format (template_text [SLit "/stats/"; SKey "container_id"]) (dict_lit [("id", VStr "x")])
    = Err (KeyError "container_id").
Proof.
  split; [reflexivity|].
  rewrite py_format_template by reflexivity. reflexivity.
Defined.
