(* ===== verification/PyInt.v ===== *)
(** * Decimal integers: [int.__repr__] and reading digits back

    The digits [z_dec] prints (PyRuntime.v) and [digits_value], the value
    of a string of decimal digits that [PyLong_FromString] computes (used
    by the JSON scanner, Json.v). The lemmas show that the digits of
    [n >= 0] read back to [n], start with a nonzero digit unless [n = 0],
    and number at most 4300 exactly when [n < 10 ^ 4300], the bound of
    [str()] on [int] since CPython 3.11. *)

From stdpp Require Import base strings list.
From Stdlib Require Import String Ascii ZArith Lia.
From S2P Require Import Prelude PyRuntime PyFormat.

Local Open Scope string_scope.

(** ** Definitions *)

(** The value of a string of decimal digits. *)
Fixpoint digits_value (acc : Z) (s : string) : Z :=
  match s with
  | EmptyString => acc
  | String c s' => digits_value (acc * 10 + digit_val c)%Z s'
  end.

(** [s] is all decimal digits. *)
Fixpoint all_digits (s : string) : bool :=
  match s with
  | EmptyString => true
  | String c s' => is_digit c && all_digits s'
  end.

(** Closes [c <> d] from [is_digit c = true] when [d] is not a digit. *)
Ltac not_digit Hc := let E := fresh in intros E; subst; vm_compute in Hc; discriminate Hc.

(** ** Lemmas *)

Lemma digit_char_ok (d : Z) :
  (0 <= d <= 9)%Z -> is_digit (digit_char d) = true /\ digit_val (digit_char d) = d.
Proof.
  intros Hd. assert (d = 0 \/ d = 1 \/ d = 2 \/ d = 3 \/ d = 4 \/ d = 5 \/ d = 6 \/ d = 7 \/ d = 8 \/ d = 9)%Z
    as Hc by lia. by repeat destruct Hc as [->|Hc]; [..|subst d].
Qed.

Lemma digit_char_nz (d : Z) : (1 <= d <= 9)%Z -> digit_char d <> "0"%char.
Proof.
  intros Hd. assert (d = 1 \/ d = 2 \/ d = 3 \/ d = 4 \/ d = 5 \/ d = 6 \/ d = 7 \/ d = 8 \/ d = 9)%Z
    as Hc by lia. by repeat destruct Hc as [->|Hc]; [..|subst d].
Qed.

Lemma digits_value_app (a : Z) (s t : string) :
  digits_value a (s ++ t) = digits_value (digits_value a s) t.
Proof. revert a. induction s as [|c s IH]; intros a; [done|]. apply IH. Qed.

Lemma z_dec_aux_acc (f : nat) (n : Z) (acc : string) :
  z_dec_aux f n acc = z_dec_aux f n "" ++ acc.
Proof.
  revert n acc. induction f as [|f IH]; intros n acc; cbn; [done|].
  case_match; [done|]. rewrite IH, (IH _ (String _ "")), str_app_assoc. done.
Qed.

Lemma mod10_range (n : Z) : (0 <= n mod 10 <= 9)%Z.
Proof. pose proof (Z.mod_pos_bound n 10). lia. Qed.

Lemma z_dec_aux_value (f : nat) (n : Z) :
  (0 <= n < 10 ^ Z.of_nat f)%Z -> digits_value 0 (z_dec_aux f n "") = n.
Proof.
  revert n. induction f as [|f IH]; intros n Hn; [cbn in *; lia|]. cbn -[Z.pow].
  pose proof (proj2 (digit_char_ok _ (mod10_range n))) as Hd.
  destruct (n <? 10)%Z eqn:Hlt; [apply Z.ltb_lt in Hlt; cbn; rewrite Hd, Z.mod_small; lia|].
  apply Z.ltb_ge in Hlt. rewrite z_dec_aux_acc, digits_value_app, IH; cbn.
  - rewrite Hd. pose proof (Z.div_mod n 10). lia.
  - rewrite Nat2Z.inj_succ, Z.pow_succ_r in Hn by lia. split; [apply Z.div_pos; lia|].
    apply Z.div_lt_upper_bound; lia.
Qed.

Lemma all_digits_app (s t : string) : all_digits (s ++ t) = all_digits s && all_digits t.
Proof. induction s as [|c s IH]; [done|]. rewrite str_app_cons. cbn. by rewrite IH, andb_assoc. Qed.

Lemma z_dec_aux_shape (f : nat) (n : Z) :
  (0 < n < 10 ^ Z.of_nat f)%Z ->
  exists c r, z_dec_aux f n "" = String c r /\ is_digit c = true /\ c <> "0"%char /\ all_digits r = true.
Proof.
  revert n. induction f as [|f IH]; intros n Hn; [cbn in Hn; lia|]. cbn -[Z.pow].
  pose proof (digit_char_ok _ (mod10_range n)) as [Hd _].
  destruct (n <? 10)%Z eqn:Hlt.
  - apply Z.ltb_lt in Hlt. exists (digit_char (n mod 10)), "". split_and!; try done.
    apply digit_char_nz. rewrite Z.mod_small; lia.
  - apply Z.ltb_ge in Hlt. rewrite z_dec_aux_acc.
    rewrite Nat2Z.inj_succ, Z.pow_succ_r in Hn by lia.
    destruct (IH (n / 10)%Z) as (c & r & -> & Hc & Hc0 & Hr).
    { split; [apply Z.div_str_pos; lia|]. apply Z.div_lt_upper_bound; lia. }
    exists c, (r ++ String (digit_char (n mod 10)%Z) ""). split_and!; try done.
    rewrite all_digits_app, Hr. cbn. by rewrite Hd.
Qed.

Lemma z_dec_aux_length (f : nat) (n : Z) (k : nat) :
  (0 <= n < 10 ^ Z.of_nat k)%Z -> k <> 0 -> String.length (z_dec_aux f n "") <= k.
Proof.
  revert n k. induction f as [|f IH]; intros n k Hn Hk; cbn -[Z.pow]; [lia|].
  destruct (n <? 10)%Z eqn:Hlt; [cbn; lia|]. apply Z.ltb_ge in Hlt.
  destruct k as [|[|k]]; [done| cbn in Hn; lia|].
  rewrite z_dec_aux_acc, str_length_app. cbn [String.length].
  rewrite (Nat2Z.inj_succ (S k)), Z.pow_succ_r in Hn by lia.
  enough (String.length (z_dec_aux f (n / 10)%Z "") <= S k) by lia.
  apply IH; [|done]. split; [apply Z.div_pos; lia|]. apply Z.div_lt_upper_bound; lia.
Qed.

Lemma dec_fuel_enough (n : Z) : (0 <= n)%Z -> (n < 10 ^ Z.of_nat (dec_fuel n))%Z.
Proof.
  intros Hn. unfold dec_fuel. rewrite Nat2Z.inj_succ, Z2Nat.id by apply Z.log2_nonneg.
  destruct (Z.eq_dec n 0) as [->|Hn0]; [done|].
  pose proof (Z.log2_spec n ltac:(lia)) as [_ H2]. pose proof (Z.log2_nonneg n).
  eapply Z.lt_le_trans; [exact H2|]. apply Z.pow_le_mono_l. lia.
Qed.

Lemma z_dec_zero : z_dec 0 = "0".
Proof. reflexivity. Qed.

Lemma z_dec_length (n : Z) : (0 <= n < INT_MAX_STR_VALUE)%Z -> String.length (z_dec n) <= 4300.
Proof. intros Hn. apply z_dec_aux_length; [|done]. unfold INT_MAX_STR_VALUE in Hn. by replace (Z.of_nat 4300) with 4300%Z by reflexivity. Qed.

Lemma z_dec_value (n : Z) : (0 <= n)%Z -> digits_value 0 (z_dec n) = n.
Proof. intros Hn. apply z_dec_aux_value. split; [lia|by apply dec_fuel_enough]. Qed.

(** The first character of the digits of [n >= 0]. *)
Lemma z_dec_head (n : Z) : (0 <= n)%Z -> exists c r, z_dec n = String c r /\ is_digit c = true.
Proof.
  intros Hn. destruct (Z.eq_dec n 0) as [->|Hn0]; [by exists "0"%char, ""|].
  destruct (z_dec_aux_shape (dec_fuel n) n) as (c & r & Hz & Hc & _).
  { split; [lia|]. by apply dec_fuel_enough. }
  by exists c, r.
Qed.

Lemma digits_value_bound (s : string) (a : Z) :
  all_digits s = true -> (0 <= a)%Z -> (digits_value a s < (a + 1) * 10 ^ Z.of_nat (String.length s))%Z.
Proof.
  revert a. induction s as [|c s IH]; intros a Hs Ha; cbn [digits_value String.length]; [lia|].
  cbn [all_digits] in Hs. apply andb_prop in Hs as [Hc Hs]. apply digit_val_range in Hc.
  rewrite Nat2Z.inj_succ, Z.pow_succ_r by lia.
  specialize (IH (a * 10 + digit_val c)%Z Hs ltac:(lia)).
  pose proof (Z.pow_pos_nonneg 10 (Z.of_nat (String.length s)) ltac:(lia) ltac:(lia)). nia.
Qed.

Lemma z_dec_long (n : Z) : (INT_MAX_STR_VALUE <= n)%Z -> (INT_MAX_STR_DIGITS < String.length (z_dec n))%nat.
Proof.
  intros Hn. assert (Hpos : (0 < INT_MAX_STR_VALUE)%Z) by (apply Z.pow_pos_nonneg; lia).
  destruct (z_dec_aux_shape (dec_fuel n) n) as (c & r & Hz & Hc & _ & Hr).
  { split; [lia|]. apply dec_fuel_enough. lia. }
  pose proof (digits_value_bound (z_dec n) 0) as Hb. unfold z_dec in *. rewrite Hz in Hb |- *.
  cbn [all_digits] in Hb. rewrite Hc, Hr in Hb. specialize (Hb eq_refl ltac:(lia)).
  rewrite <- Hz, z_dec_aux_value in Hb by (split; [lia|apply dec_fuel_enough; lia]).
  rewrite Hz in Hb.
  unfold INT_MAX_STR_DIGITS. destruct (Nat.lt_ge_cases 4300 (String.length (String c r))) as [|Hle]; [done|].
  exfalso.
  assert (10 ^ Z.of_nat (String.length (String c r)) <= INT_MAX_STR_VALUE)%Z.
  { apply Z.pow_le_mono_r; lia. }
  lia.
Qed.

(** The decimal text of [n >= 0] is canonical: digits only, and no
    leading zero unless it is ["0"]. *)
Lemma z_dec_canonical (n : Z) :
  (0 <= n)%Z -> all_digits (z_dec n) = true /\ (z_dec n = "0" \/ exists c r, z_dec n = String c r /\ c <> "0"%char).
Proof.
  intros Hn. destruct (Z.eq_dec n 0) as [->|Hn0]; [split; [done|by left]|].
  destruct (z_dec_aux_shape (dec_fuel n) n) as (c & r & Hz & Hc & Hc0 & Hr);
    [split; [lia|by apply dec_fuel_enough]|].
  unfold z_dec. rewrite Hz. cbn. rewrite Hc, Hr. split; [done|right; eauto].
Qed.

(** [int_repr]: a minus sign for a negative [z], then the digits of [|z|]. *)
Lemma int_repr_abs (z : Z) : int_repr z = (if (z <? 0)%Z then "-" else "") ++ z_dec (Z.abs z).
Proof.
  unfold int_repr. destruct (z <? 0)%Z eqn:E.
  - apply Z.ltb_lt in E. by rewrite Z.abs_neq by lia.
  - apply Z.ltb_ge in E. by rewrite Z.abs_eq, str_app_nil_l by lia.
Qed.

Lemma INT_MAX_STR_VALUE_pos : (0 < INT_MAX_STR_VALUE)%Z.
Proof. apply Z.pow_pos_nonneg; lia. Qed.

(** The limit itself, either sign, is out of range (without computing
    [10 ^ 4300]). *)
Lemma INT_MAX_STR_VALUE_abs (neg : bool) :
  (INT_MAX_STR_VALUE <= Z.abs (if neg then - INT_MAX_STR_VALUE else INT_MAX_STR_VALUE))%Z.
Proof.
  pose proof INT_MAX_STR_VALUE_pos. destruct neg; [rewrite Z.abs_opp|]; rewrite Z.abs_eq; lia.
Qed.

(** [str()] of an [int] below the limit is its decimal digits. *)
Lemma py_str_int (z : Z) : (Z.abs z < INT_MAX_STR_VALUE)%Z -> py_str (VInt z) = Ok (int_repr z).
Proof.
  intros Hz. rewrite py_str_VInt. unfold py_int_str. destruct (INT_MAX_STR_DIGITS <? _)%nat eqn:E; [|done].
  apply Nat.ltb_lt in E. pose proof (z_dec_length (Z.abs z) ltac:(lia)). unfold INT_MAX_STR_DIGITS in E. lia.
Qed.

(** [str()] of an [int] of more than 4300 digits raises [ValueError]. *)
Lemma py_str_int_long (z : Z) :
  (INT_MAX_STR_VALUE <= Z.abs z)%Z ->
  py_str (VInt z) = Err (ValueError "Exceeds the limit (4300 digits) for integer string conversion; use sys.set_int_max_str_digits() to increase the limit").
Proof. intros Hz. rewrite py_str_VInt. unfold py_int_str. apply z_dec_long, Nat.ltb_lt in Hz. by rewrite Hz. Qed.
