(* ===== verification/Config.v ===== *)
(** * Configuration: the options of src/cadvisor_client.py:11-21 and the
      defaults of [CadvisorClient.__init__] (73-74)

    [OPTS] declares two string options; the module registers them on the
    process-wide [CONF] when it is imported. The default values of
    [__init__]'s [port] and [version] parameters are the expressions
    [cfg.CONF.cAdvisor_port] and [cfg.CONF.cAdvisor_version]; Python
    evaluates default expressions once, when the [def] statement runs, so
    [load_module] reads them at import time and [ModuleDefaults] keeps the
    two values for every later construction.

    oslo.config's [ConfigOpts] is a library the source only calls; its
    registry of options and values is modelled from its documented
    behaviour: registering an option twice is allowed when the two are
    equal and raises [DuplicateOptError] otherwise, reading an option that
    is not registered raises [NoSuchOptError], and reading a registered
    option gives the value set by a configuration source or else its
    default. *)

From stdpp Require Import base strings list gmap.
From Stdlib Require Import String ZArith.
From S2P Require Import Prelude PyRuntime.

Local Open Scope string_scope.

(** [cfg.StrOpt(name, default=..., help=...)] *)
Record StrOpt := mk_StrOpt {
  opt_name : string;
  opt_default : string;
  opt_help : string
}.

#[export] Instance StrOpt_eq_dec : EqDecision StrOpt.
Proof. solve_decision. Defined.

Definition OPTS : list StrOpt := [
  mk_StrOpt "cAdvisor_port" "8080" "Default port of cAdvisor.";
  mk_StrOpt "cAdvisor_version" "v1.3" "Default version of cAdvisor."
].

(** ** oslo.config's [ConfigOpts] *)

Record ConfigOpts := mk_conf {
  conf_opts : gmap string StrOpt;     (** registered options, by name *)
  conf_values : gmap string string    (** values set by a configuration source *)
}.

Definition conf_empty : ConfigOpts := mk_conf ∅ ∅.

Definition register_opt (c : ConfigOpts) (o : StrOpt) : PyRes ConfigOpts :=
  match conf_opts c !! opt_name o with
  | Some o' => if decide (o' = o) then Ok c else Err (DuplicateOptError (opt_name o))
  | None => Ok (mk_conf (<[opt_name o := o]> (conf_opts c)) (conf_values c))
  end.

Fixpoint register_opts (c : ConfigOpts) (os : list StrOpt) : PyRes ConfigOpts :=
  match os with
  | [] => Ok c
  | o :: os' => c' <- register_opt c o ;; register_opts c' os'
  end.

(** The same loop keeping the options registered before an error, as
    [ConfigOpts.register_opts] does: the state of [CONF] after line 21
    raised. *)
Fixpoint register_opts_st (c : ConfigOpts) (os : list StrOpt) : ConfigOpts * PyRes unit :=
  match os with
  | [] => (c, Ok tt)
  | o :: os' =>
      match register_opt c o with
      | Ok c' => register_opts_st c' os'
      | Err e => (c, Err e)
      end
  end.

(** [CONF.<name>] *)
Definition conf_get (c : ConfigOpts) (name : string) : PyRes string :=
  match conf_opts c !! name with
  | None => Err (NoSuchOptError name)
  | Some o => Ok (default (opt_default o) (conf_values c !! name))
  end.

(** A configuration source (file, command line, [set_override]) sets a value. *)
Definition conf_set (c : ConfigOpts) (name value : string) : ConfigOpts :=
  mk_conf (conf_opts c) (<[name := value]> (conf_values c)).

(** ** Importing the module *)

(** The values of [__init__]'s default parameters. *)
Record ModuleDefaults := mk_defaults {
  default_port : PyVal;
  default_version : PyVal
}.

(** Lines 20-21 ([CONF.register_opts(OPTS)]), then the [def] of
    [__init__] at 73-74, which evaluates its two default expressions. *)
Definition load_module (c : ConfigOpts) : PyRes (ConfigOpts * ModuleDefaults) :=
  c' <- register_opts c OPTS ;;
  port <- conf_get c' "cAdvisor_port" ;;
  version <- conf_get c' "cAdvisor_version" ;;
  Ok (c', mk_defaults (VStr port) (VStr version)).

(** ** Lemmas *)

Lemma register_opt_lookup (c c' : ConfigOpts) (o : StrOpt) :
  register_opt c o = Ok c' -> conf_opts c' !! opt_name o = Some o /\ conf_values c' = conf_values c.
Proof.
  unfold register_opt. destruct (conf_opts c !! opt_name o) as [o'|] eqn:E.
  - case_decide; [intros [= <-]; subst; done | done].
  - intros [= <-]; simpl. by rewrite lookup_insert_eq.
Qed.

Lemma register_opt_mono (c c' : ConfigOpts) (o : StrOpt) (n : string) (o0 : StrOpt) :
  register_opt c o = Ok c' -> conf_opts c !! n = Some o0 -> conf_opts c' !! n = Some o0.
Proof.
  unfold register_opt. destruct (conf_opts c !! opt_name o) as [o'|] eqn:E.
  - case_decide; [by intros [= <-] | done].
  - intros [= <-] Hn; simpl. rewrite lookup_insert_ne; [done|]. congruence.
Qed.

Lemma register_opts_mono (c c' : ConfigOpts) (os : list StrOpt) (n : string) (o0 : StrOpt) :
  register_opts c os = Ok c' -> conf_opts c !! n = Some o0 -> conf_opts c' !! n = Some o0.
Proof.
  revert c; induction os as [|o os IH]; intros c; simpl; [by intros [= <-]|].
  destruct (register_opt c o) as [c1|] eqn:E; simpl; [|done].
  intros H Hn. eapply IH; [exact H|]. by eapply register_opt_mono.
Qed.

Lemma register_opts_values (c c' : ConfigOpts) (os : list StrOpt) :
  register_opts c os = Ok c' -> conf_values c' = conf_values c.
Proof.
  revert c; induction os as [|o os IH]; intros c; simpl; [by intros [= <-]|].
  destruct (register_opt c o) as [c1|] eqn:E; simpl; [|done].
  intros H. rewrite (IH _ H). by apply register_opt_lookup in E as [_ ->].
Qed.

(** Every option of [os] is registered after [register_opts c os]. *)
Lemma register_opts_registered (c c' : ConfigOpts) (os : list StrOpt) (o : StrOpt) :
  register_opts c os = Ok c' -> o ∈ os -> conf_opts c' !! opt_name o = Some o.
Proof.
  revert c; induction os as [|o1 os IH]; intros c; simpl; [by intros _ ?%elem_of_nil|].
  destruct (register_opt c o1) as [c1|] eqn:E; simpl; [|done].
  intros H [->|Hin]%elem_of_cons.
  - eapply register_opts_mono; [exact H|]. by apply register_opt_lookup in E as [? _].
  - by eapply IH.
Qed.

Lemma register_opts_st_Ok (c c' : ConfigOpts) (os : list StrOpt) :
  register_opts_st c os = (c', Ok tt) <-> register_opts c os = Ok c'.
Proof.
  revert c; induction os as [|o os IH]; intros c; cbn; [split; congruence|].
  destruct (register_opt c o) as [c1|e]; cbn; [apply IH|split; congruence].
Qed.

Lemma register_opts_st_Err (c : ConfigOpts) (os : list StrOpt) (e : PyExc) :
  (register_opts_st c os).2 = Err e <-> register_opts c os = Err e.
Proof.
  revert c; induction os as [|o os IH]; intros c; cbn; [split; congruence|].
  destruct (register_opt c o) as [c1|e']; cbn; [apply IH|cbn; split; congruence].
Qed.

Lemma conf_get_registered (c : ConfigOpts) (o : StrOpt) :
  conf_opts c !! opt_name o = Some o ->
  conf_get c (opt_name o) = Ok (default (opt_default o) (conf_values c !! opt_name o)).
Proof. intros H. unfold conf_get. by rewrite H. Qed.

(** [register_opt] accepts an option whose name is free or bound to an
    equal option. *)
Definition opt_compatible (c : ConfigOpts) (o : StrOpt) : Prop :=
  conf_opts c !! opt_name o = None \/ conf_opts c !! opt_name o = Some o.

Lemma register_opt_ok (c : ConfigOpts) (o : StrOpt) :
  (exists c', register_opt c o = Ok c') <-> opt_compatible c o.
Proof.
  unfold register_opt, opt_compatible. destruct (conf_opts c !! opt_name o) as [o'|].
  - case_decide; subst; naive_solver.
  - naive_solver.
Qed.

Lemma register_opt_other (c c' : ConfigOpts) (o : StrOpt) (n : string) :
  register_opt c o = Ok c' -> n <> opt_name o -> conf_opts c' !! n = conf_opts c !! n.
Proof.
  unfold register_opt. destruct (conf_opts c !! opt_name o); [case_decide; [by intros [= <-]|done]|].
  intros [= <-] Hn. cbn. by rewrite lookup_insert_ne.
Qed.

(** Options of distinct names register exactly when each is compatible. *)
Lemma register_opts_ok (c : ConfigOpts) (os : list StrOpt) :
  NoDup (map opt_name os) ->
  (exists c', register_opts c os = Ok c') <-> Forall (opt_compatible c) os.
Proof.
  revert c; induction os as [|o os IH]; intros c Hnd; cbn; [split; eauto|].
  apply NoDup_cons in Hnd as [Hnin Hnd]. rewrite Forall_cons, <-register_opt_ok.
  destruct (register_opt c o) as [c1|e] eqn:E; cbn; [|naive_solver].
  rewrite IH by done.
  assert (Hsame : forall o', o' ∈ os -> opt_compatible c1 o' <-> opt_compatible c o').
  { intros o' Hin. unfold opt_compatible. rewrite (register_opt_other c c1 o (opt_name o') E); [done|].
    intros Heq. apply Hnin. rewrite <-Heq. by apply (list_elem_of_fmap_2 opt_name os o'). }
  rewrite !Forall_forall. split; [intros HF; split; [eauto|]|intros [_ HF]];
    intros o' Hin; apply (Hsame o' Hin); auto.
Qed.

Lemma register_opt_idem (c' : ConfigOpts) (o : StrOpt) :
  conf_opts c' !! opt_name o = Some o -> register_opt c' o = Ok c'.
Proof. intros H. unfold register_opt. rewrite H. by rewrite decide_True. Qed.

(** The defaults the [def] of [__init__] reads after line 21. *)
Lemma OPTS_conf_get (c c' : ConfigOpts) :
  register_opts c OPTS = Ok c' ->
  conf_get c' "cAdvisor_port" = Ok (default "8080" (conf_values c !! "cAdvisor_port")) /\
  conf_get c' "cAdvisor_version" = Ok (default "v1.3" (conf_values c !! "cAdvisor_version")).
Proof.
  intros E. rewrite <-(register_opts_values _ _ _ E). split.
  - apply (conf_get_registered c' (mk_StrOpt "cAdvisor_port" "8080" "Default port of cAdvisor.")).
    eapply register_opts_registered; [exact E|]. set_solver.
  - apply (conf_get_registered c' (mk_StrOpt "cAdvisor_version" "v1.3" "Default version of cAdvisor.")).
    eapply register_opts_registered; [exact E|]. set_solver.
Qed.
(** ** Properties *)

(** C15: When the import succeeds, the defaults of [port] and [version]
    are the values configured in [CONF] at that moment, or ["8080"] and
    ["v1.3"] when none is configured. *)
Theorem load_module_defaults (c c' : ConfigOpts) (md : ModuleDefaults) :
  load_module c = Ok (c', md) ->
  default_port md = VStr (default "8080" (conf_values c !! "cAdvisor_port")) /\
  default_version md = VStr (default "v1.3" (conf_values c !! "cAdvisor_version")).
Proof.
  unfold load_module. destruct (register_opts c OPTS) as [c1|] eqn:E; simpl; [|done].
  destruct (OPTS_conf_get c c1 E) as [-> ->]. cbn. by intros [= <- <-].
Qed.

Lemma load_module_defaults_witness :
  exists c' md, load_module (conf_set conf_empty "cAdvisor_port" "4194") = Ok (c', md) /\
    default_port md = VStr (default "8080" (conf_values (conf_set conf_empty "cAdvisor_port" "4194") !! "cAdvisor_port")) /\
    default_version md = VStr (default "v1.3" (conf_values (conf_set conf_empty "cAdvisor_port" "4194") !! "cAdvisor_version")).
Proof.
  destruct (load_module (conf_set conf_empty "cAdvisor_port" "4194")) as [[c' md]|] eqn:E;
    [|vm_compute in E; discriminate].
  exists c', md. split; [reflexivity|]. exact (load_module_defaults _ c' md E).
Defined.
