(* ===== verification/Transport.v ===== *)
(** * HTTP transport: [CadvisorClient._http_request]
      (src/cadvisor_client.py:82-87)

    A request is a program of type [io A]: it returns, raises, or performs
    one [requests.get] and continues with its outcome (a response, or the
    exception [requests] raised). The network is a [server]: the outcome
    of a GET of a URL. [io_run] runs a program against a server and
    [io_trace] lists the URLs it requests, in order. The client has no
    loops, so [io] is an inductive type and both functions are structural.

    [resp.json()] is the [json] library: the transport is parametric in a
    decoder [json_loads] (a [JsonDecoder] instance) that returns the value
    or the exception [json.loads] raises; Json.v provides CPython's. *)

From stdpp Require Import base strings list.
From Stdlib Require Import String ZArith Lia.
From S2P Require Import Prelude PyRuntime PyFormat.

#[local] Set Warnings "-register-all".
Local Open Scope string_scope.
Local Open Scope Z_scope.

(** ** HTTP *)

(** The fields of a [requests.Response] the client reads. *)
Record Response := mk_response {
  status_code : Z;
  reason : string;
  body : string
}.

Inductive http_outcome : Type :=
| HttpResponse (r : Response)
| HttpRaised (e : PyExc).

Definition server := string -> http_outcome.

(** ** Programs that perform GET requests *)

Inductive io (A : Type) : Type :=
| IoRet (a : A)
| IoRaise (e : PyExc)
| IoGet (url : string) (k : http_outcome -> io A).
Arguments IoRet {A} a.
Arguments IoRaise {A} e.
Arguments IoGet {A} url k.

Definition io_of_res {A} (r : PyRes A) : io A :=
  match r with
  | Ok a => IoRet a
  | Err e => IoRaise e
  end.

Fixpoint io_run {A} (srv : server) (p : io A) : PyRes A :=
  match p with
  | IoRet a => Ok a
  | IoRaise e => Err e
  | IoGet url k => io_run srv (k (srv url))
  end.

Fixpoint io_trace {A} (srv : server) (p : io A) : list string :=
  match p with
  | IoRet _ | IoRaise _ => []
  | IoGet url k => url :: io_trace srv (k (srv url))
  end.

(** ** JSON *)

(** The values [json.loads] returns. A float is kept as the text it was
    read from ([float(text)] is not modelled). *)
Inductive Json : Type :=
| JNull
| JBool (b : bool)
| JInt (n : Z)
| JFloat (text : string)
| JStr (s : string)
| JList (l : list Json)
| JDict (kvs : list (string * Json)).

(** The exceptions [json.loads] raises: [JSONDecodeError], the
    [ValueError] of an integer with too many digits, or an input outside
    the modelled fragment. *)
Definition is_decode_error (e : PyExc) : Prop :=
  match e with
  | JSONDecodeError _ | ValueError _ | NotModelled _ => True
  | _ => False
  end.

(** What the transport needs of [json.loads]: a value or a decoding
    error. *)
Class JsonDecoder := {
  json_loads : string -> PyRes Json;
  json_loads_errors : forall s e, json_loads s = Err e -> is_decode_error e
}.

(** ** [_http_request] *)

Section Transport.
Context `{JsonDecoder}.

(** [resp.status_code // 100 != 2] is false: Python's [//] is floor
    division, [Z.div]. *)
Definition status_is_2xx (code : Z) : bool := Z.eqb (code / 100) 2.

(** The exception that line 85-86 raises:
    [raise CadvisorAPIFailedException('%(reason)s') % {'reason': resp.reason}].
    [%] binds tighter than [raise], so its left operand is the exception
    instance, not the string. *)
Definition api_failure (reason : string) : PyExc :=
  match py_mod (VExc (CadvisorAPIFailedException "%(reason)s"))
               (VDict (dict_lit [("reason", VStr reason)])) with
  | Ok v => py_raise v
  | Err e => e
  end.

(** [resp.json()] *)
Definition resp_json (r : Response) : PyRes Json := json_loads (body r).

Definition _http_request (url : string) : io Json :=
  IoGet url (fun o =>
    match o with
    | HttpRaised e => IoRaise e
    | HttpResponse resp =>
        if negb (status_is_2xx (status_code resp)) then IoRaise (api_failure (reason resp))
        else io_of_res (resp_json resp)
    end).

End Transport.

(** ** Lemmas *)

Lemma io_run_of_res {A} (srv : server) (r : PyRes A) : io_run srv (io_of_res r) = r.
Proof. by destruct r. Qed.

Lemma io_trace_of_res {A} (srv : server) (r : PyRes A) : io_trace srv (io_of_res r) = [].
Proof. by destruct r. Qed.

#[export] Hint Rewrite @io_run_of_res @io_trace_of_res : cadv_rw.

(** The message of the [TypeError] raised at line 85. *)
Definition api_failure_msg : string :=
  "unsupported operand type(s) for %: 'CadvisorAPIFailedException' and 'dict'".

Lemma api_failure_eq (r : string) : api_failure r = TypeError api_failure_msg.
Proof. reflexivity. Qed.

(** [resp.status_code // 100 != 2] is false exactly for the codes 200 to
    299, negative codes included (floor division). *)
Lemma status_is_2xx_range (code : Z) : status_is_2xx code = bool_decide (200 <= code <= 299).
Proof.
  unfold status_is_2xx. apply eq_bool_prop_intro. rewrite Is_true_true, Z.eqb_eq, bool_decide_spec.
  rewrite Z_div_eq_iff by lia. lia.
Qed.

(** The outcome of [_http_request url], on each answer of the server. *)
Lemma http_request_run `{JsonDecoder} (srv : server) (url : string) :
  io_run srv (_http_request url) =
  match srv url with
  | HttpRaised e => Err e
  | HttpResponse r =>
      if bool_decide (200 <= status_code r <= 299) then resp_json r
      else Err (TypeError api_failure_msg)
  end.
Proof.
  simpl. destruct (srv url) as [r|e]; simpl; [|done].
  rewrite status_is_2xx_range. case_bool_decide; simpl; [by rewrite io_run_of_res | done].
Qed.

(** [_http_request url] performs exactly one GET, of [url], whatever the
    server answers: no retry, no second request. *)
Lemma http_request_trace `{JsonDecoder} (srv : server) (url : string) :
  io_trace srv (_http_request url) = [url].
Proof.
  simpl. destruct (srv url) as [r|e]; simpl; [|done].
  destruct (negb _); simpl; [done|]. by rewrite io_trace_of_res.
Qed.

(** A decoder for the examples: it decodes the body ["1"] and nothing else. *)
Definition example_loads_fun (s : string) : PyRes Json :=
  if decide (s = "1") then Ok (JInt 1) else Err (JSONDecodeError "Expecting value").

Lemma example_loads_errors s e : example_loads_fun s = Err e -> is_decode_error e.
Proof. unfold example_loads_fun. case_decide; [done|]. by intros [= <-]. Qed.

Definition example_loads : JsonDecoder := {| json_loads := example_loads_fun; json_loads_errors := example_loads_errors |}.

Definition example_server (code : Z) (body : string) : server :=
  fun _ => HttpResponse (mk_response code "Not Found" body).

(** ** Properties *)


(** C4: A 2xx response whose body decodes is returned decoded. *)
Theorem http_request_success `{JsonDecoder} (srv : server) (url : string) (r : Response) (j : Json) :
  srv url = HttpResponse r -> 200 <= status_code r <= 299 -> json_loads (body r) = Ok j ->
  io_run srv (_http_request url) = Ok j.
Proof.
  intros Hs Hc Hj. rewrite http_request_run, Hs, bool_decide_eq_true_2 by done.
  exact Hj.
Qed.

Lemma http_request_success_witness :
  let srv := example_server 200 "1" in
  srv "http://h:8080/v1.3/machine" = HttpResponse (mk_response 200 "Not Found" "1") /\
  io_run srv (@_http_request example_loads "http://h:8080/v1.3/machine") = Ok (JInt 1).
Proof.
  split; [reflexivity|].
  apply (http_request_success _ _ (mk_response 200 "Not Found" "1")); [reflexivity|simpl; lia|reflexivity].
Defined.

(** C1: A response outside 2xx raises [TypeError], whatever its reason
    phrase: line 85 applies [%] to the exception instance, which
    [Exception] does not support, so the intended
    [CadvisorAPIFailedException] is never built and the reason is lost. *)
Theorem http_request_non2xx_TypeError `{JsonDecoder} (srv : server) (url : string) (r : Response) :
  srv url = HttpResponse r -> ~ (200 <= status_code r <= 299) ->
  io_run srv (_http_request url) = Err (TypeError api_failure_msg).
Proof.
  intros Hs Hc. by rewrite http_request_run, Hs, bool_decide_eq_false_2.
Qed.

Lemma http_request_non2xx_TypeError_witness :
  let srv := example_server 404 "" in
  srv "u" = HttpResponse (mk_response 404 "Not Found" "") /\ ~ (200 <= 404 <= 299) /\
  io_run srv (@_http_request example_loads "u") = Err (TypeError api_failure_msg).
Proof.
  split; [reflexivity|]. split; [lia|].
  apply (http_request_non2xx_TypeError _ _ (mk_response 404 "Not Found" "")); [reflexivity|simpl; lia].
Defined.

(** C9: A 2xx response whose body the decoder rejects raises the
    decoder's exception unchanged: a [JSONDecodeError] (or an input outside
    the model), never [CadvisorAPIFailedException] nor the [TypeError] of
    C1. *)
Theorem http_request_decode_error `{JsonDecoder} (srv : server) (url : string) (r : Response) (e : PyExc) :
  srv url = HttpResponse r -> 200 <= status_code r <= 299 -> json_loads (body r) = Err e ->
  io_run srv (_http_request url) = Err e /\ is_decode_error e.
Proof.
  intros Hs Hc Hj. rewrite http_request_run, Hs, bool_decide_eq_true_2 by done.
  split; [exact Hj|]. by eapply json_loads_errors.
Qed.

Lemma http_request_decode_error_witness :
  example_server 200 "not json" "u" = HttpResponse (mk_response 200 "Not Found" "not json") /\
  io_run (example_server 200 "not json") (@_http_request example_loads "u")
    = Err (JSONDecodeError "Expecting value") /\ is_decode_error (JSONDecodeError "Expecting value").
Proof.
  split; [reflexivity|].
  apply (http_request_decode_error _ _ (mk_response 200 "Not Found" "not json"));
    [reflexivity|simpl; lia|reflexivity].
Defined.
