(* ===== verification/SubClients.v ===== *)
(** * The resource sub-clients: [_BaseClient] and its three subclasses
      (src/cadvisor_client.py:28-69)

    Each subclass fixes the class attribute [base_url], a [%]-template;
    [_BaseClient.request(container_id=None)] formats it with
    [{'container_id': container_id}] unless the argument is [None], and
    hands the path to [self.client.request]. The subclasses are the
    constructors of [SubKind]; the public methods are the constructors of
    [Method], each with the class that defines it and the argument it
    passes to [request]. The facade's [request] is a parameter here
    ([client_request]); Client.v supplies [CadvisorClient.request]. *)

From stdpp Require Import base strings list.
From Stdlib Require Import String Ascii ZArith.
From S2P Require Import Prelude PyRuntime PyFormat PyInt Transport.

Local Open Scope string_scope.

Inductive SubKind : Type :=
| MachineAPIClient
| ContainerSpecAPIClient
| ContainerStatsAPIClient.

#[export] Instance SubKind_eq_dec : EqDecision SubKind.
Proof. solve_decision. Defined.

Definition class_name (k : SubKind) : string :=
  match k with
  | MachineAPIClient => "MachineAPIClient"
  | ContainerSpecAPIClient => "ContainerSpecAPIClient"
  | ContainerStatsAPIClient => "ContainerStatsAPIClient"
  end.

(** The class attribute [base_url] (lines 47, 55, 63). *)
Definition base_url (k : SubKind) : string :=
  match k with
  | MachineAPIClient => "/machine"
  | ContainerSpecAPIClient => "/spec/%(container_id)s"
  | ContainerStatsAPIClient => "/stats/%(container_id)s"
  end.

(** Lines 39-41: the path [_BaseClient.request] computes. *)
Definition build_path (k : SubKind) (container_id : PyVal) : PyRes PyVal :=
  let path := VStr (base_url k) in
  if py_is_not_none container_id then
    py_mod path (VDict (dict_lit [("container_id", container_id)]))
  else Ok path.

Section Request.
Context {C : Type} (client_request : C -> PyVal -> io Json).

(** Lines 38-42: [self.client.request(path)], after the path is built. *)
Definition base_request (client : C) (k : SubKind) (container_id : PyVal) : io Json :=
  match build_path k container_id with
  | Ok path => client_request client path
  | Err e => IoRaise e
  end.

End Request.

(** The public methods (lines 49-50, 57-58, 65-66, 68-69). *)
Inductive Method : Type :=
| get_machine_info
| get_container_spec (container_id : PyVal)
| get_container_stats (container_id : PyVal)
| get_all_stats.

Definition method_name (m : Method) : string :=
  match m with
  | get_machine_info => "get_machine_info"
  | get_container_spec _ => "get_container_spec"
  | get_container_stats _ => "get_container_stats"
  | get_all_stats => "get_all_stats"
  end.

(** The class that defines the method. *)
Definition method_class (m : Method) : SubKind :=
  match m with
  | get_machine_info => MachineAPIClient
  | get_container_spec _ => ContainerSpecAPIClient
  | get_container_stats _ | get_all_stats => ContainerStatsAPIClient
  end.

(** The argument the method passes to [self.request]; [self.request()]
    passes the default [None]. *)
Definition method_arg (m : Method) : PyVal :=
  match m with
  | get_machine_info | get_all_stats => VNone
  | get_container_spec cid | get_container_stats cid => cid
  end.

(** ** Lemmas *)

(** The literal text of each template before its placeholder. *)
Definition template_prefix (k : SubKind) : string :=
  match k with
  | MachineAPIClient => "/machine"
  | ContainerSpecAPIClient => "/spec/"
  | ContainerStatsAPIClient => "/stats/"
  end.

Lemma base_url_split (k : SubKind) :
  k <> MachineAPIClient ->
  base_url k = template_prefix k ++ ("%(" ++ "container_id" ++ ")s") ++ "".
Proof. destruct k; [done|reflexivity|reflexivity]. Qed.

Lemma template_prefix_no_pct (k : SubKind) : contains_char "%"%char (template_prefix k) = false.
Proof. by destruct k. Qed.

(** A template with a placeholder, formatted with an identifier that is
    not [None]: the prefix followed by [str(container_id)], or what [str()]
    raises. *)
Lemma build_path_val (k : SubKind) (cid : PyVal) :
  k <> MachineAPIClient -> cid <> VNone ->
  build_path k cid = (s <- py_str cid ;; Ok (VStr (template_prefix k ++ s))).
Proof.
  intros Hk Hc. unfold build_path. destruct (py_is_not_none cid) eqn:Hn; [|by destruct cid].
  cbn [py_mod]. unfold py_format.
  rewrite (base_url_split k Hk), fmt_run_lit, (fmt_run_conv _ _ _ _ _ cid) by (reflexivity || apply template_prefix_no_pct).
  destruct (py_str cid) as [sv|e]; cbn; [|done]. by rewrite str_app_nil_r.
Qed.

Lemma build_path_str (k : SubKind) (s : string) :
  k <> MachineAPIClient -> build_path k (VStr s) = Ok (VStr (template_prefix k ++ s)).
Proof. intros Hk. by rewrite build_path_val. Qed.

(** ** Properties *)

(** C5: [MachineAPIClient] requests [/machine] whatever identifier it is
    given, [None] or not: its template has no placeholder, and formatting
    it never reads the identifier. *)
Theorem build_path_machine (cid : PyVal) : build_path MachineAPIClient cid = Ok (VStr "/machine").
Proof.
  unfold build_path. destruct (py_is_not_none cid); [|done].
  cbn [py_mod]. unfold py_format.
  by rewrite (fmt_run_lit _ _ _ "/machine" ""), fmt_run_end.
Qed.

(** C3: With a string identifier [s], the spec and stats sub-clients
    request [/spec/s] and [/stats/s]: the identifier is copied verbatim,
    even when it contains ['%'] or parentheses. *)
Theorem build_path_container (k : SubKind) (s : string) :
  k <> MachineAPIClient ->
  build_path k (VStr s) = Ok (VStr ((if decide (k = ContainerSpecAPIClient) then "/spec/" else "/stats/") ++ s)).
Proof. intros Hk. rewrite build_path_str by done. by destruct k. Qed.

Lemma build_path_container_witness :
  ContainerStatsAPIClient <> MachineAPIClient /\
  build_path ContainerStatsAPIClient (VStr "abc%(x)s") = Ok (VStr "/stats/abc%(x)s").
Proof. split; [discriminate|]. apply (build_path_container ContainerStatsAPIClient). discriminate. Defined.

(** C20: An [int] identifier is written in decimal by [str()]: below
    [10 ^ 4300] in absolute value, the path is the template's prefix, a
    minus sign for a negative identifier, and a canonical decimal text of
    its absolute value (digits only, no leading zero unless it is ["0"],
    at most 4300 of them, reading back to the value); from [10 ^ 4300] on,
    [request] raises [ValueError] (the [str()] limit of CPython 3.11 on). *)
Theorem build_path_int (k : SubKind) (z : Z) :
  k <> MachineAPIClient ->
  ((Z.abs z < INT_MAX_STR_VALUE)%Z ->
     exists ds, build_path k (VInt z) = Ok (VStr (template_prefix k ++ (if (z <? 0)%Z then "-" else "") ++ ds)) /\
       all_digits ds = true /\ digits_value 0 ds = Z.abs z /\
       (ds = "0" \/ exists c r, ds = String c r /\ c <> "0"%char) /\ String.length ds <= 4300) /\
  ((INT_MAX_STR_VALUE <= Z.abs z)%Z ->
     build_path k (VInt z) =
       Err (ValueError "Exceeds the limit (4300 digits) for integer string conversion; use sys.set_int_max_str_digits() to increase the limit")).
Proof.
  intros Hk. rewrite build_path_val by done. split; intros Hz.
  - rewrite py_str_int by done. exists (z_dec (Z.abs z)). rewrite int_repr_abs.
    destruct (z_dec_canonical (Z.abs z) ltac:(lia)) as [Hd Hc].
    split_and!; [done|done|apply z_dec_value; lia|done|apply z_dec_length; lia].
  - by rewrite py_str_int_long.
Qed.

Lemma build_path_int_witness :
  ContainerStatsAPIClient <> MachineAPIClient /\
  build_path ContainerStatsAPIClient (VInt (-42)) = Ok (VStr "/stats/-42") /\
  exists ds, build_path ContainerStatsAPIClient (VInt (-42)) =
      Ok (VStr (template_prefix ContainerStatsAPIClient ++ (if (-42 <? 0)%Z then "-" else "") ++ ds)) /\
    all_digits ds = true /\ digits_value 0 ds = Z.abs (-42) /\
    (ds = "0" \/ exists c r, ds = String c r /\ c <> "0"%char) /\ String.length ds <= 4300.
Proof.
  split; [discriminate|]. split; [reflexivity|].
  apply (build_path_int ContainerStatsAPIClient (-42) ltac:(discriminate)).
  unfold INT_MAX_STR_VALUE. apply (Z.lt_le_trans _ (10 ^ 2)); [reflexivity|apply Z.pow_le_mono_r; lia].
Defined.
