(* ===== verification/Classes.v ===== *)
(** * The classes of the module and [abc]'s abstract-method check

    [_BaseClient] (src/cadvisor_client.py:28-42) is created by
    [six.add_metaclass(abc.ABCMeta)] and declares [base_url] with
    [abc.abstractproperty]; [MachineAPIClient], [ContainerSpecAPIClient]
    and [ContainerStatsAPIClient] (45-69) inherit its metaclass and
    override [base_url] with a string class attribute; [CadvisorClient]
    (72-91) is a plain class. [ABCMeta.__new__] (Lib/_py_abc.py, the C
    version in Modules/_abc.c computes the same set) records in
    [__abstractmethods__] the names bound to an abstract value in the class
    body, and the names abstract in a base that the new class still
    resolves to an abstract value; [object.__new__] refuses to instantiate
    a class whose set is not empty.

    A class is its namespace (name, kind of value) and its base; the method
    resolution order of this single-inheritance hierarchy is the chain of
    bases. *)

From stdpp Require Import base strings list.
From Stdlib Require Import String Ascii ZArith.
From S2P Require Import Prelude PyRuntime SubClients.

Local Open Scope string_scope.

Inductive PyClass : Type :=
| ObjectClass
| BaseClientClass
| SubClientClass (k : SubKind)
| CadvisorClientClass.

#[export] Instance PyClass_eq_dec : EqDecision PyClass.
Proof. solve_decision. Defined.

(** What a class body binds a name to, as far as [abc] is concerned. *)
Inductive ClassAttr : Type :=
| AbstractProperty
| StrAttr (s : string)
| Function.

Definition is_abstract (a : ClassAttr) : bool :=
  match a with AbstractProperty => true | _ => false end.

Definition class_name_of (c : PyClass) : string :=
  match c with
  | ObjectClass => "object"
  | BaseClientClass => "_BaseClient"
  | SubClientClass k => class_name k
  | CadvisorClientClass => "CadvisorClient"
  end.

(** The class bodies. *)
Definition class_namespace (c : PyClass) : list (string * ClassAttr) :=
  match c with
  | ObjectClass => []
  | BaseClientClass => [("base_url", AbstractProperty); ("__init__", Function); ("request", Function)]
  | SubClientClass MachineAPIClient =>
      [("base_url", StrAttr (base_url MachineAPIClient)); ("get_machine_info", Function)]
  | SubClientClass ContainerSpecAPIClient =>
      [("base_url", StrAttr (base_url ContainerSpecAPIClient)); ("get_container_spec", Function)]
  | SubClientClass ContainerStatsAPIClient =>
      [("base_url", StrAttr (base_url ContainerStatsAPIClient)); ("get_container_stats", Function);
       ("get_all_stats", Function)]
  | CadvisorClientClass => [("__init__", Function); ("_http_request", Function); ("request", Function)]
  end.

(** The method resolution order. *)
Definition class_mro (c : PyClass) : list PyClass :=
  match c with
  | ObjectClass => [ObjectClass]
  | BaseClientClass => [BaseClientClass; ObjectClass]
  | SubClientClass k => [SubClientClass k; BaseClientClass; ObjectClass]
  | CadvisorClientClass => [CadvisorClientClass; ObjectClass]
  end.

(** [six.add_metaclass(abc.ABCMeta)] on [_BaseClient], inherited by its
    subclasses. *)
Definition uses_abcmeta (c : PyClass) : bool :=
  match c with BaseClientClass | SubClientClass _ => true | _ => false end.

(** A name in one class body. *)
Fixpoint ns_lookup (name : string) (ns : list (string * ClassAttr)) : option ClassAttr :=
  match ns with
  | [] => None
  | (n, a) :: ns' => if decide (name = n) then Some a else ns_lookup name ns'
  end.

(** [getattr(cls, name)] along a method resolution order. *)
Fixpoint mro_lookup (mro : list PyClass) (name : string) : option ClassAttr :=
  match mro with
  | [] => None
  | c :: mro' =>
      match ns_lookup name (class_namespace c) with
      | Some a => Some a
      | None => mro_lookup mro' name
      end
  end.

Definition resolves_abstract (mro : list PyClass) (name : string) : bool :=
  match mro_lookup mro name with Some a => is_abstract a | None => false end.

(** [ABCMeta.__new__]: the abstract names of the class body, then those
    of the base that the class still resolves to an abstract value. The
    base of [_BaseClient] is [object], which has no [__abstractmethods__]. *)
Fixpoint abstracts_of (mro : list PyClass) : list string :=
  match mro with
  | [] => []
  | c :: bases =>
      let own := map fst (filter (fun na => is_abstract na.2) (class_namespace c)) in
      own ++ filter (fun n => negb (bool_decide (n ∈ own)) && resolves_abstract mro n) (abstracts_of bases)
  end.

(** [cls.__abstractmethods__], set by [ABCMeta] only. *)
Definition abstract_methods (c : PyClass) : list string :=
  if uses_abcmeta c then abstracts_of (class_mro c) else [].

Definition quoted (s : string) : string := "'" ++ s ++ "'".

(** [object.__new__] (Objects/typeobject.c, CPython 3.12): a class with
    abstract methods cannot be instantiated. CPython sorts the names; the
    program's only abstract class has one. *)
Definition instantiate (c : PyClass) : PyRes unit :=
  match abstract_methods c with
  | [] => Ok tt
  | [n] => Err (TypeError ("Can't instantiate abstract class " ++ class_name_of c ++
                " without an implementation for abstract method " ++ quoted n))
  | ns => Err (TypeError ("Can't instantiate abstract class " ++ class_name_of c ++
                " without an implementation for abstract methods " ++ String.concat ", " (map quoted ns)))
  end.

(** ** Lemmas *)

Lemma instantiate_sub (k : SubKind) : instantiate (SubClientClass k) = Ok tt.
Proof. by destruct k; vm_compute. Qed.

Lemma instantiate_cadvisor : instantiate CadvisorClientClass = Ok tt.
Proof. reflexivity. Qed.
