(* ===== verification/Client.v ===== *)
(** * The facade: [CadvisorClient] (src/cadvisor_client.py:72-91)

    Python objects live in a heap. [CadvisorClient(endpoint_url, port,
    version)] allocates the facade, formats its [_endpoint], then
    allocates the three sub-clients, each holding a reference back to the
    facade ([_BaseClient.__init__], 35-36). A method call looks the
    receiver up, dispatches on its class ([AttributeError] when the class
    does not define the method), builds the path ([SubClients.v]), and
    goes through the back reference to [CadvisorClient.request], which
    prepends [_endpoint] and calls [_http_request].

    Objects are only ever added: [__init__] never changes an existing
    object, and a request reads the heap without changing it. *)

From stdpp Require Import base strings list gmap.
From Stdlib Require Import String Ascii ZArith Lia.
From S2P Require Import Prelude PyRuntime PyFormat PyInt Config Transport SubClients Classes.

Local Open Scope string_scope.

Abbreviation loc := positive.

Inductive Obj : Type :=
| OCadvisorClient (endpoint : string) (machine container_spec container_stats : loc)
| OSubClient (k : SubKind) (client : loc).

Record Heap := mk_heap {
  heap_objs : gmap loc Obj;
  heap_next : loc
}.

Definition heap_empty : Heap := mk_heap ∅ 1.

Definition alloc (h : Heap) (o : Obj) : Heap * loc :=
  (mk_heap (<[heap_next h := o]> (heap_objs h)) (Pos.succ (heap_next h)), heap_next h).

(** ** [__init__] (lines 73-80) *)

Definition endpoint_template : string := "%(endpoint_url)s:%(port)s/%(version)s".

(** Lines 75-76. *)
Definition format_endpoint (endpoint_url port version : PyVal) : PyRes string :=
  py_format endpoint_template
    (dict_lit [("endpoint_url", endpoint_url); ("port", port); ("version", version)]).

(** [port] and [version] are [None] when the caller omits them, and then
    take the values [load_module] computed at import time. [object.__new__]
    checks the class is not abstract (Classes.v) and allocates [self]
    before [__init__] starts; each sub-client is checked and allocated the
    same way; the attributes are written as the body runs, and an
    exception leaves the object unreachable. *)
Definition CadvisorClient_init (md : ModuleDefaults) (h : Heap) (endpoint_url : PyVal)
    (port version : option PyVal) : PyRes (Heap * loc) :=
  let port := default (default_port md) port in
  let version := default (default_version md) version in
  _ <- instantiate CadvisorClientClass ;;
  let self := heap_next h in
  let h0 := mk_heap (heap_objs h) (Pos.succ self) in
  ep <- format_endpoint endpoint_url port version ;;
  _ <- instantiate (SubClientClass MachineAPIClient) ;;
  let '(h1, m) := alloc h0 (OSubClient MachineAPIClient self) in
  _ <- instantiate (SubClientClass ContainerSpecAPIClient) ;;
  let '(h2, s) := alloc h1 (OSubClient ContainerSpecAPIClient self) in
  _ <- instantiate (SubClientClass ContainerStatsAPIClient) ;;
  let '(h3, st) := alloc h2 (OSubClient ContainerStatsAPIClient self) in
  Ok (mk_heap (<[self := OCadvisorClient ep m s st]> (heap_objs h3)) (heap_next h3), self).

(** ** Requests *)

Section Requests.
Context `{JsonDecoder}.

(** [CadvisorClient.request(self, path)] (lines 89-91). *)
Definition CadvisorClient_request (h : Heap) (self : loc) (path : PyVal) : io Json :=
  match heap_objs h !! self with
  | Some (OCadvisorClient ep _ _ _) =>
      match py_add_str ep path with
      | Ok url => _http_request url
      | Err e => IoRaise e
      end
  | _ => IoRaise (NotModelled "request on an object that is not a CadvisorClient")
  end.

Definition no_attribute (cls attr : string) : PyExc :=
  AttributeError ("'" ++ cls ++ "' object has no attribute '" ++ attr ++ "'").

(** [obj.<method>(...)] on a heap object. *)
Definition invoke (h : Heap) (obj : loc) (m : Method) : io Json :=
  match heap_objs h !! obj with
  | Some (OSubClient k cl) =>
      if decide (k = method_class m) then base_request (CadvisorClient_request h) cl k (method_arg m)
      else IoRaise (no_attribute (class_name k) (method_name m))
  | Some (OCadvisorClient _ _ _ _) => IoRaise (no_attribute "CadvisorClient" (method_name m))
  | None => IoRaise (NotModelled "dangling reference")
  end.

End Requests.

(** The three attributes of the facade that name its sub-clients. *)
Inductive Attr : Type :=
| machine
| container_spec
| container_stats.

Definition getattr (h : Heap) (self : loc) (a : Attr) : option loc :=
  match heap_objs h !! self with
  | Some (OCadvisorClient _ m s st) =>
      Some (match a with machine => m | container_spec => s | container_stats => st end)
  | _ => None
  end.

(** [client.<attr>.<method>(...)]. *)
Definition call `{JsonDecoder} (h : Heap) (self : loc) (a : Attr) (m : Method) : io Json :=
  match getattr h self a with
  | Some obj => invoke h obj m
  | None => IoRaise (NotModelled "attribute of an object that is not a CadvisorClient")
  end.

(** ** The heap invariant

    Every object is below the allocation pointer; every facade's three
    attributes are sub-clients of the right classes whose [client] is that
    facade; every sub-client's [client] is a facade. *)
Definition wf_heap (h : Heap) : Prop :=
  (forall l o, heap_objs h !! l = Some o -> (l < heap_next h)%positive) /\
  (forall l ep m s st, heap_objs h !! l = Some (OCadvisorClient ep m s st) ->
     heap_objs h !! m = Some (OSubClient MachineAPIClient l) /\
     heap_objs h !! s = Some (OSubClient ContainerSpecAPIClient l) /\
     heap_objs h !! st = Some (OSubClient ContainerStatsAPIClient l)) /\
  (forall l k cl, heap_objs h !! l = Some (OSubClient k cl) ->
     exists ep m s st, heap_objs h !! cl = Some (OCadvisorClient ep m s st)).

(** ** Lemmas *)

(** Lines 75-76 read the three arguments with [str()], left to right. *)
Lemma format_endpoint_eq (u p v : PyVal) :
  format_endpoint u p v =
    (su <- py_str u ;; sp <- py_str p ;; sv <- py_str v ;; Ok (su ++ ":" ++ sp ++ "/" ++ sv)).
Proof.
  unfold format_endpoint, py_format.
  change endpoint_template with (("%(" ++ "endpoint_url" ++ ")s") ++ ":" ++
    (("%(" ++ "port" ++ ")s") ++ "/" ++ (("%(" ++ "version" ++ ")s") ++ ""))).
  rewrite (fmt_run_conv _ _ _ _ _ u) by reflexivity. destruct (py_str u) as [su|e]; cbn; [|done].
  rewrite fmt_run_lit, (fmt_run_conv _ _ _ _ _ p) by reflexivity. destruct (py_str p) as [sp|e]; cbn; [|done].
  rewrite fmt_run_lit, (fmt_run_conv _ _ _ _ _ v) by reflexivity. destruct (py_str v) as [sv|e]; cbn; [|done].
  by rewrite str_app_nil_r.
Qed.

Lemma format_endpoint_str (u p v : string) :
  format_endpoint (VStr u) (VStr p) (VStr v) = Ok (u ++ ":" ++ p ++ "/" ++ v).
Proof. by rewrite format_endpoint_eq. Qed.

(** The objects [__init__] adds: the facade at [n], its sub-clients at the
    next three locations. *)
Definition init_objs (n : loc) (ep : string) (objs : gmap loc Obj) : gmap loc Obj :=
  let s1 := Pos.succ n in let s2 := Pos.succ s1 in let s3 := Pos.succ s2 in
  <[n := OCadvisorClient ep s1 s2 s3]>
  (<[s3 := OSubClient ContainerStatsAPIClient n]>
  (<[s2 := OSubClient ContainerSpecAPIClient n]>
  (<[s1 := OSubClient MachineAPIClient n]> objs))).

(** [__init__] without the class checks, which all pass. *)
Lemma CadvisorClient_init_eq md h u p v :
  CadvisorClient_init md h u p v =
    (ep <- format_endpoint u (default (default_port md) p) (default (default_version md) v) ;;
     Ok (mk_heap (init_objs (heap_next h) ep (heap_objs h))
                 (Pos.succ (Pos.succ (Pos.succ (Pos.succ (heap_next h))))), heap_next h)).
Proof.
  unfold CadvisorClient_init. rewrite instantiate_cadvisor. cbn [res_bind].
  destruct (format_endpoint _ _ _) as [ep|e]; cbn [res_bind]; [|done].
  by rewrite !instantiate_sub.
Qed.

Lemma CadvisorClient_init_Ok md h u p v h' self :
  CadvisorClient_init md h u p v = Ok (h', self) ->
  self = heap_next h /\
  exists ep, format_endpoint u (default (default_port md) p) (default (default_version md) v) = Ok ep /\
    h' = mk_heap (init_objs self ep (heap_objs h)) (Pos.succ (Pos.succ (Pos.succ (Pos.succ self)))).
Proof.
  rewrite CadvisorClient_init_eq.
  destruct (format_endpoint _ _ _) as [ep|e]; simpl; [|done]. intros [= <- <-]. eauto.
Qed.

(** [__init__] with string arguments, or defaults that are strings. *)
Lemma CadvisorClient_init_strs md h (u ps vs : string) p v :
  default (default_port md) p = VStr ps -> default (default_version md) v = VStr vs ->
  CadvisorClient_init md h (VStr u) p v =
    Ok (mk_heap (init_objs (heap_next h) (u ++ ":" ++ ps ++ "/" ++ vs) (heap_objs h))
                (Pos.succ (Pos.succ (Pos.succ (Pos.succ (heap_next h))))), heap_next h).
Proof. intros Hp Hv. rewrite CadvisorClient_init_eq, Hp, Hv. by rewrite format_endpoint_str. Qed.

Lemma init_objs_old n ep (objs : gmap loc Obj) l :
  (l < n)%positive -> init_objs n ep objs !! l = objs !! l.
Proof. intros Hl. unfold init_objs. rewrite !lookup_insert_ne; [done|lia..]. Qed.

Lemma init_objs_new n ep (objs : gmap loc Obj) :
  init_objs n ep objs !! n = Some (OCadvisorClient ep (Pos.succ n) (Pos.succ (Pos.succ n))
                                                     (Pos.succ (Pos.succ (Pos.succ n)))) /\
  init_objs n ep objs !! Pos.succ n = Some (OSubClient MachineAPIClient n) /\
  init_objs n ep objs !! Pos.succ (Pos.succ n) = Some (OSubClient ContainerSpecAPIClient n) /\
  init_objs n ep objs !! Pos.succ (Pos.succ (Pos.succ n)) = Some (OSubClient ContainerStatsAPIClient n).
Proof.
  unfold init_objs. rewrite lookup_insert_eq.
  split; [done|]. rewrite lookup_insert_ne, lookup_insert_ne, lookup_insert_ne, lookup_insert_eq by lia.
  split; [done|]. rewrite lookup_insert_ne, lookup_insert_ne, lookup_insert_eq by lia.
  split; [done|]. rewrite lookup_insert_ne, lookup_insert_eq by lia. done.
Qed.

(** An object at or above [n] in the new heap is one of the four new ones. *)
Lemma init_objs_ge n ep (objs : gmap loc Obj) l o :
  (forall l', (n <= l')%positive -> objs !! l' = None) ->
  (n <= l)%positive -> init_objs n ep objs !! l = Some o ->
  (l = n /\ o = OCadvisorClient ep (Pos.succ n) (Pos.succ (Pos.succ n)) (Pos.succ (Pos.succ (Pos.succ n)))) \/
  (l = Pos.succ n /\ o = OSubClient MachineAPIClient n) \/
  (l = Pos.succ (Pos.succ n) /\ o = OSubClient ContainerSpecAPIClient n) \/
  (l = Pos.succ (Pos.succ (Pos.succ n)) /\ o = OSubClient ContainerStatsAPIClient n).
Proof.
  intros Hfree Hl. unfold init_objs. rewrite !lookup_insert.
  repeat case_decide; intros; simplify_eq; auto 10.
  by rewrite Hfree in *.
Qed.

(** ** Properties *)

(** [__init__] preserves the heap invariant: in particular the three
    sub-clients of a new facade are of the right classes and refer back
    to it, and every sub-client refers to a facade. *)
(** Adding a facade and its sub-clients at the next free locations
    keeps the heap well formed. *)
Lemma init_objs_wf (h : Heap) (ep : string) :
  wf_heap h ->
  wf_heap (mk_heap (init_objs (heap_next h) ep (heap_objs h))
                   (Pos.succ (Pos.succ (Pos.succ (Pos.succ (heap_next h)))))).
Proof.
  intros (Hb & Hc & Hs).
  set (n := heap_next h) in *. clearbody n.
  assert (Hfree : forall l, (n <= l)%positive -> heap_objs h !! l = None).
  { intros l Hl. destruct (heap_objs h !! l) eqn:E; [|done]. apply Hb in E. lia. }
  pose proof (init_objs_new n ep (heap_objs h)) as (Hn & H1 & H2 & H3).
  split; [|split]; simpl.
  - intros l o Hl. destruct (decide (l < n)%positive); [lia|].
    destruct (init_objs_ge n ep (heap_objs h) l _ Hfree ltac:(lia) Hl) as [[-> _]|[[-> _]|[[-> _]|[-> _]]]]; lia.
  - intros l ep' m s st Hl. destruct (decide (l < n)%positive) as [Hlt|Hge].
    + rewrite init_objs_old in Hl by done.
      destruct (Hc _ _ _ _ _ Hl) as (Hm & Hs' & Hst).
      rewrite !init_objs_old; [done|eapply Hb; eassumption..].
    + destruct (init_objs_ge n ep (heap_objs h) l _ Hfree ltac:(lia) Hl)
        as [[-> [= -> -> -> ->]]|[[_ ?]|[[_ ?]|[_ ?]]]]; done.
  - intros l k cl Hl. destruct (decide (l < n)%positive) as [Hlt|Hge].
    + rewrite init_objs_old in Hl by done.
      destruct (Hs _ _ _ Hl) as (ep' & m & s & st & Hcl).
      exists ep', m, s, st. rewrite init_objs_old; [done|eapply Hb; eassumption].
    + destruct (init_objs_ge n ep (heap_objs h) l _ Hfree ltac:(lia) Hl)
        as [[_ ?]|[[-> [= -> ->]]|[[-> [= -> ->]]|[-> [= -> ->]]]]]; first [done|eauto].
Qed.

Lemma CadvisorClient_init_wf md h u p v h' self :
  wf_heap h -> CadvisorClient_init md h u p v = Ok (h', self) -> wf_heap h'.
Proof. intros Hwf [-> (ep & _ & ->)]%CadvisorClient_init_Ok. by apply init_objs_wf. Qed.

(** After [__init__] the facade is at [self], with the [_endpoint] its
    arguments format to. *)
Lemma CadvisorClient_init_facade md h u p v h' self :
  wf_heap h -> CadvisorClient_init md h u p v = Ok (h', self) ->
  wf_heap h' /\ exists ep ms ss sts,
    format_endpoint u (default (default_port md) p) (default (default_version md) v) = Ok ep /\
    heap_objs h' !! self = Some (OCadvisorClient ep ms ss sts).
Proof.
  intros Hwf Hinit. split; [by eapply CadvisorClient_init_wf|].
  apply CadvisorClient_init_Ok in Hinit as [-> (ep & Hep & ->)].
  pose proof (init_objs_new (heap_next h) ep (heap_objs h)) as (Hn & _). cbn. eauto 10.
Qed.

(** ** The heaps a program can build

    Starting from the empty heap, a program constructs facades; requests
    read the heap and leave it as it is. *)
Inductive reachable : Heap -> Prop :=
| reachable_empty : reachable heap_empty
| reachable_init md h u p v h' self :
    reachable h -> CadvisorClient_init md h u p v = Ok (h', self) -> reachable h'.

Lemma wf_heap_empty : wf_heap heap_empty.
Proof. split; [|split]; simpl; intros * Hl; by rewrite lookup_empty in Hl. Qed.

(** C6: Every reachable heap satisfies the invariant: each facade's
    attributes are sub-clients of the right classes that refer back to it,
    and each sub-client refers to a facade. *)
Theorem reachable_wf (h : Heap) : reachable h -> wf_heap h.
Proof.
  induction 1 as [|md h u p v h' self _ IH Hinit]; [apply wf_heap_empty|].
  by eapply CadvisorClient_init_wf.
Qed.

(** ** Requests through the facade *)

(** The attribute that names the sub-client defining a method. *)
Definition attr_of (m : Method) : Attr :=
  match method_class m with
  | MachineAPIClient => machine
  | ContainerSpecAPIClient => container_spec
  | ContainerStatsAPIClient => container_stats
  end.

Definition attr_class (a : Attr) : SubKind :=
  match a with
  | machine => MachineAPIClient
  | container_spec => ContainerSpecAPIClient
  | container_stats => ContainerStatsAPIClient
  end.

(** In a well-formed heap an attribute of a facade is a sub-client of its
    class that refers back to the facade. *)
Lemma getattr_wf h self ep m s st a :
  wf_heap h -> heap_objs h !! self = Some (OCadvisorClient ep m s st) ->
  exists obj, getattr h self a = Some obj /\ heap_objs h !! obj = Some (OSubClient (attr_class a) self).
Proof.
  intros (_ & Hc & _) Hself. destruct (Hc _ _ _ _ _ Hself) as (Hm & Hs & Hst).
  unfold getattr. rewrite Hself. destruct a; eauto.
Qed.

Lemma call_base_request `{JsonDecoder} h self ep m s st (meth : Method) :
  wf_heap h -> heap_objs h !! self = Some (OCadvisorClient ep m s st) ->
  call h self (attr_of meth) meth =
  base_request (CadvisorClient_request h) self (method_class meth) (method_arg meth).
Proof.
  intros Hwf Hself. destruct (getattr_wf h self ep m s st (attr_of meth) Hwf Hself) as (obj & Hg & Ho).
  unfold call, invoke. rewrite Hg, Ho.
  assert (attr_class (attr_of meth) = method_class meth) as -> by (by destruct meth).
  by rewrite decide_True.
Qed.

Lemma request_str `{JsonDecoder} h self ep m s st (path : string) :
  heap_objs h !! self = Some (OCadvisorClient ep m s st) ->
  CadvisorClient_request h self (VStr path) = _http_request (ep ++ path).
Proof. intros Hself. unfold CadvisorClient_request. by rewrite Hself. Qed.

Lemma call_path `{JsonDecoder} h self ep m s st (meth : Method) (path : string) :
  wf_heap h -> heap_objs h !! self = Some (OCadvisorClient ep m s st) ->
  build_path (method_class meth) (method_arg meth) = Ok (VStr path) ->
  call h self (attr_of meth) meth = _http_request (ep ++ path).
Proof.
  intros Hwf Hself Hp. rewrite (call_base_request _ _ ep m s st) by done.
  unfold base_request. rewrite Hp. by eapply request_str.
Qed.

(** A fixture: a fresh process, a heap holding one facade built with
    [CadvisorClient('http://h')], and a server answering [200 "1"]. *)
Definition example_defaults : ModuleDefaults := mk_defaults (VStr "8080") (VStr "v1.3").

Definition example_heap : Heap :=
  match CadvisorClient_init example_defaults heap_empty (VStr "http://h") None None with
  | Ok (h, _) => h
  | Err _ => heap_empty
  end.

Lemma example_heap_wf : wf_heap example_heap.
Proof.
  unfold example_heap. destruct (CadvisorClient_init _ _ _ _ _) as [[h self]|] eqn:E; [|done].
  eapply CadvisorClient_init_wf; [exact wf_heap_empty|exact E].
Qed.

Lemma example_heap_reachable : reachable example_heap.
Proof.
  unfold example_heap. destruct (CadvisorClient_init _ _ _ _ _) as [[h self]|] eqn:E; [|constructor].
  econstructor; [constructor|exact E].
Qed.

Lemma reachable_wf_witness : reachable example_heap /\ wf_heap example_heap.
Proof. split; [exact example_heap_reachable|]. apply reachable_wf. exact example_heap_reachable. Defined.

(** ** Properties *)

(** C2: In a well-formed heap, calling a public method through the
    facade attribute of its class performs exactly one GET, of
    [_endpoint] followed by the path [_BaseClient.request] built, and its
    outcome is that of [_http_request] on that URL. *)
Theorem call_single_get `{JsonDecoder} (srv : server) h self ep m s st (meth : Method) (path : string) :
  wf_heap h -> heap_objs h !! self = Some (OCadvisorClient ep m s st) ->
  build_path (method_class meth) (method_arg meth) = Ok (VStr path) ->
  io_trace srv (call h self (attr_of meth) meth) = [ep ++ path] /\
  io_run srv (call h self (attr_of meth) meth) = io_run srv (_http_request (ep ++ path)).
Proof.
  intros Hwf Hself Hp. rewrite (call_path h self ep m s st meth path) by done.
  split; [|done]. apply http_request_trace.
Qed.

Lemma call_single_get_witness :
  wf_heap example_heap /\
  heap_objs example_heap !! 1%positive = Some (OCadvisorClient "http://h:8080/v1.3" 2 3 4) /\
  build_path (method_class (get_container_stats (VStr "abc"))) (method_arg (get_container_stats (VStr "abc")))
    = Ok (VStr "/stats/abc") /\
  io_trace (example_server 200 "1")
    (@call example_loads example_heap 1 (attr_of (get_container_stats (VStr "abc"))) (get_container_stats (VStr "abc")))
    = ["http://h:8080/v1.3" ++ "/stats/abc"] /\
  io_run (example_server 200 "1")
    (@call example_loads example_heap 1 (attr_of (get_container_stats (VStr "abc"))) (get_container_stats (VStr "abc")))
    = io_run (example_server 200 "1") (@_http_request example_loads ("http://h:8080/v1.3" ++ "/stats/abc")).
Proof.
  split; [exact example_heap_wf|]. split; [reflexivity|]. split; [reflexivity|].
  apply (call_single_get _ example_heap 1 "http://h:8080/v1.3" 2 3 4);
    [exact example_heap_wf|reflexivity|reflexivity].
Defined.

(** C8: [get_all_stats()] requests [_endpoint + '/stats/%(container_id)s']:
    with no identifier the placeholder is sent as it is, and the URL is
    not [_endpoint + '/stats/']. *)
Theorem get_all_stats_url `{JsonDecoder} (srv : server) h self ep m s st :
  wf_heap h -> heap_objs h !! self = Some (OCadvisorClient ep m s st) ->
  io_trace srv (call h self container_stats get_all_stats) = [ep ++ "/stats/%(container_id)s"] /\
  io_trace srv (call h self container_stats get_all_stats) <> [ep ++ "/stats/"].
Proof.
  intros Hwf Hself.
  rewrite (call_path h self ep m s st get_all_stats "/stats/%(container_id)s") by done.
  rewrite http_request_trace. split; [done|]. intros [= Heq]. apply str_app_inj_l in Heq. discriminate.
Qed.

Lemma get_all_stats_url_witness :
  wf_heap example_heap /\
  heap_objs example_heap !! 1%positive = Some (OCadvisorClient "http://h:8080/v1.3" 2 3 4) /\
  io_trace (example_server 200 "1") (@call example_loads example_heap 1 container_stats get_all_stats)
    = ["http://h:8080/v1.3" ++ "/stats/%(container_id)s"] /\
  io_trace (example_server 200 "1") (@call example_loads example_heap 1 container_stats get_all_stats)
    <> ["http://h:8080/v1.3" ++ "/stats/"].
Proof.
  split; [exact example_heap_wf|]. split; [reflexivity|].
  apply (get_all_stats_url _ example_heap 1 "http://h:8080/v1.3" 2 3 4);
    [exact example_heap_wf|reflexivity].
Defined.

(** C13: Calling a method on a sub-client whose class does not define it
    raises [AttributeError] and performs no GET. *)
Theorem call_wrong_class `{JsonDecoder} (srv : server) h self ep m s st (a : Attr) (meth : Method) :
  wf_heap h -> heap_objs h !! self = Some (OCadvisorClient ep m s st) ->
  attr_class a <> method_class meth ->
  io_run srv (call h self a meth) = Err (no_attribute (class_name (attr_class a)) (method_name meth)) /\
  io_trace srv (call h self a meth) = [].
Proof.
  intros Hwf Hself Hne. destruct (getattr_wf h self ep m s st a Hwf Hself) as (obj & Hg & Ho).
  unfold call, invoke. rewrite Hg, Ho, decide_False by done. done.
Qed.

Lemma call_wrong_class_witness :
  wf_heap example_heap /\
  heap_objs example_heap !! 1%positive = Some (OCadvisorClient "http://h:8080/v1.3" 2 3 4) /\
  attr_class machine <> method_class get_all_stats /\
  io_run (example_server 200 "1") (@call example_loads example_heap 1 machine get_all_stats)
    = Err (no_attribute "MachineAPIClient" "get_all_stats") /\
  io_trace (example_server 200 "1") (@call example_loads example_heap 1 machine get_all_stats) = [].
Proof.
  split; [exact example_heap_wf|]. split; [reflexivity|]. split; [discriminate|].
  apply (call_wrong_class _ example_heap 1 "http://h:8080/v1.3" 2 3 4);
    [exact example_heap_wf|reflexivity|discriminate].
Defined.

(** C10: Constructing a facade from strings always succeeds: it is
    allocated at the next free location, its [_endpoint] is
    [endpoint_url + ':' + port + '/' + version], and its three attributes
    name sub-clients of their classes that refer back to it. *)
Theorem CadvisorClient_init_str md h (u p v : string) :
  exists h' m s st,
    CadvisorClient_init md h (VStr u) (Some (VStr p)) (Some (VStr v)) = Ok (h', heap_next h) /\
    heap_objs h' !! heap_next h = Some (OCadvisorClient (u ++ ":" ++ p ++ "/" ++ v) m s st) /\
    heap_objs h' !! m = Some (OSubClient MachineAPIClient (heap_next h)) /\
    heap_objs h' !! s = Some (OSubClient ContainerSpecAPIClient (heap_next h)) /\
    heap_objs h' !! st = Some (OSubClient ContainerStatsAPIClient (heap_next h)).
Proof.
  pose proof (init_objs_new (heap_next h) (u ++ ":" ++ p ++ "/" ++ v) (heap_objs h)) as (Hn & H1 & H2 & H3).
  exists (mk_heap (init_objs (heap_next h) (u ++ ":" ++ p ++ "/" ++ v) (heap_objs h))
                  (Pos.succ (Pos.succ (Pos.succ (Pos.succ (heap_next h)))))).
  do 3 eexists. split; [|exact (conj Hn (conj H1 (conj H2 H3)))].
  by apply CadvisorClient_init_strs.
Qed.

(** C14: [__init__] changes no object that existed before it: other
    facades and their sub-clients are untouched. *)
Theorem CadvisorClient_init_frame md h u p v h' self l o :
  wf_heap h -> CadvisorClient_init md h u p v = Ok (h', self) ->
  heap_objs h !! l = Some o -> heap_objs h' !! l = Some o.
Proof.
  intros (Hb & _) [-> (ep & _ & ->)]%CadvisorClient_init_Ok Hl. simpl.
  rewrite init_objs_old; [done|]. by eapply Hb.
Qed.

Lemma CadvisorClient_init_frame_witness :
  wf_heap example_heap /\
  CadvisorClient_init example_defaults example_heap (VStr "http://g") None None
    = Ok (mk_heap (init_objs 5 "http://g:8080/v1.3" (heap_objs example_heap)) 9, 5%positive) /\
  heap_objs example_heap !! 2%positive = Some (OSubClient MachineAPIClient 1) /\
  heap_objs (mk_heap (init_objs 5 "http://g:8080/v1.3" (heap_objs example_heap)) 9) !! 2%positive
    = Some (OSubClient MachineAPIClient 1).
Proof.
  split; [exact example_heap_wf|]. split; [reflexivity|]. split; [reflexivity|].
  eapply (CadvisorClient_init_frame example_defaults example_heap (VStr "http://g") None None);
    [exact example_heap_wf|reflexivity|reflexivity].
Defined.

(** C21: An [int] port is written with [str()]: [CadvisorClient(u,
    port=8080)] has [_endpoint] [u:8080/<version>], for every integer
    within [str()]'s 4300-digit limit. *)
Theorem CadvisorClient_init_int_port md h (u v : string) (z : Z) :
  (Z.abs z < INT_MAX_STR_VALUE)%Z ->
  exists h' m s st,
    CadvisorClient_init md h (VStr u) (Some (VInt z)) (Some (VStr v)) = Ok (h', heap_next h) /\
    heap_objs h' !! heap_next h = Some (OCadvisorClient (u ++ ":" ++ int_repr z ++ "/" ++ v) m s st).
Proof.
  intros Hz. set (ep := u ++ ":" ++ int_repr z ++ "/" ++ v).
  pose proof (init_objs_new (heap_next h) ep (heap_objs h)) as (Hn & _).
  exists (mk_heap (init_objs (heap_next h) ep (heap_objs h))
                  (Pos.succ (Pos.succ (Pos.succ (Pos.succ (heap_next h)))))).
  do 3 eexists. split; [|exact Hn].
  rewrite CadvisorClient_init_eq. cbv [default from_option id].
  rewrite format_endpoint_eq, py_str_int by done. reflexivity.
Qed.

Lemma CadvisorClient_init_int_port_witness :
  (Z.abs 8080 < INT_MAX_STR_VALUE)%Z /\
  exists h' m s st,
    CadvisorClient_init example_defaults heap_empty (VStr "http://h") (Some (VInt 8080)) (Some (VStr "v1.3"))
      = Ok (h', heap_next heap_empty) /\
    heap_objs h' !! heap_next heap_empty = Some (OCadvisorClient ("http://h" ++ ":" ++ int_repr 8080 ++ "/" ++ "v1.3") m s st).
Proof.
  assert (Hz : (Z.abs 8080 < INT_MAX_STR_VALUE)%Z) by (apply Z.ltb_lt; vm_compute; reflexivity).
  split; [exact Hz|]. exact (CadvisorClient_init_int_port example_defaults heap_empty "http://h" "v1.3" 8080 Hz).
Defined.

(** C22: [__init__] fails exactly when [str()] of one of its three
    arguments raises, and then raises the first such exception, reading
    [endpoint_url], [port] and [version] in this order. *)
Theorem CadvisorClient_init_error md h u p v e :
  let p' := default (default_port md) p in
  let v' := default (default_version md) v in
  CadvisorClient_init md h u p v = Err e <->
    py_str u = Err e \/
    (exists su, py_str u = Ok su /\ py_str p' = Err e) \/
    (exists su sp, py_str u = Ok su /\ py_str p' = Ok sp /\ py_str v' = Err e).
Proof.
  cbv zeta. rewrite CadvisorClient_init_eq, format_endpoint_eq.
  destruct (py_str u) as [su|eu]; cbn; [|split; [intros [= ->]; by left|]].
  - destruct (py_str (default _ p)) as [sp|ep]; cbn.
    + destruct (py_str (default _ v)) as [sv|ev]; cbn.
      * split; [discriminate|]. intros [?|[(? & ? & ?)|(? & ? & ? & ? & ?)]]; congruence.
      * split; [intros [= ->]; right; right; eauto|]. intros [?|[(? & ? & ?)|(? & ? & ? & ? & ?)]]; congruence.
    + split; [intros [= ->]; right; left; eauto|]. intros [?|[(? & ? & ?)|(? & ? & ? & ? & ?)]]; congruence.
  - intros [?|[(? & ? & ?)|(? & ? & ? & ? & ?)]]; congruence.
Qed.

Lemma CadvisorClient_init_error_witness :
  CadvisorClient_init example_defaults heap_empty (VStr "http://h") (Some (VInt INT_MAX_STR_VALUE)) None
    = Err (ValueError "Exceeds the limit (4300 digits) for integer string conversion; use sys.set_int_max_str_digits() to increase the limit") /\
  (exists su, py_str (VStr "http://h") = Ok su /\
   py_str (default (default_port example_defaults) (Some (VInt INT_MAX_STR_VALUE)))
     = Err (ValueError "Exceeds the limit (4300 digits) for integer string conversion; use sys.set_int_max_str_digits() to increase the limit")).
Proof.
  assert (He : exists su, py_str (VStr "http://h") = Ok su /\
    py_str (default (default_port example_defaults) (Some (VInt INT_MAX_STR_VALUE)))
      = Err (ValueError "Exceeds the limit (4300 digits) for integer string conversion; use sys.set_int_max_str_digits() to increase the limit"))
    by (exists "http://h"; split; [reflexivity|exact (py_str_int_long _ (INT_MAX_STR_VALUE_abs false))]).
  split; [|exact He]. apply (proj2 (CadvisorClient_init_error _ _ _ _ _ _)). right. left. exact He.
Defined.
