(* ===== verification/ApiSpec.v ===== *)
(** * The client's contract, and how the implementation refines it

    spec.md states what the client promises, independently of Python:
    four API calls (section 6), each one GET of [base + path] with the
    paths [/machine], [/spec/<id>], [/stats/<id>] and [/stats/] for all
    containers; the decoded body on a 2xx response; the typed failure
    [CadvisorAPIFailedException] carrying the reason phrase otherwise
    (section 4.3); a decoding failure on a 2xx body that is not JSON; and
    transport exceptions propagated unchanged (section 7). [spec_run] and
    [spec_urls] state that contract; [impl] runs the same call through the
    model of the code (Client.v).

    The implementation refines the contract for the machine, container
    spec and container stats calls, on every response except a non-2xx one; on
    a non-2xx response the code raises [TypeError] instead (Transport.v),
    and [get_all_stats] requests another URL (Client.v). *)

From stdpp Require Import base strings list gmap.
From Stdlib Require Import String Ascii ZArith Lia.
From S2P Require Import Prelude PyRuntime PyFormat Config Transport SubClients Client.

Local Open Scope string_scope.

Inductive api_call : Type :=
| MachineInfo
| ContainerSpecOf (id : string)
| ContainerStatsOf (id : string)
| AllStats.

Definition spec_path (c : api_call) : string :=
  match c with
  | MachineInfo => "/machine"
  | ContainerSpecOf id => "/spec/" ++ id
  | ContainerStatsOf id => "/stats/" ++ id
  | AllStats => "/stats/"
  end.

Section Contract.
Context `{JsonDecoder}.

(** Section 4.3: the outcome of one GET. *)
Definition spec_transport (o : http_outcome) : PyRes Json :=
  match o with
  | HttpRaised e => Err e
  | HttpResponse r =>
      if status_is_2xx (status_code r) then resp_json r
      else Err (CadvisorAPIFailedException (reason r))
  end.

Definition spec_urls (base : string) (c : api_call) : list string := [base ++ spec_path c].

Definition spec_run (srv : server) (base : string) (c : api_call) : PyRes Json :=
  spec_transport (srv (base ++ spec_path c)).

(** The public method that implements each call. *)
Definition impl_method (c : api_call) : Method :=
  match c with
  | MachineInfo => get_machine_info
  | ContainerSpecOf id => get_container_spec (VStr id)
  | ContainerStatsOf id => get_container_stats (VStr id)
  | AllStats => get_all_stats
  end.

Definition impl (h : Heap) (self : loc) (c : api_call) : io Json :=
  call h self (attr_of (impl_method c)) (impl_method c).

End Contract.

(** ** Lemmas *)

(** A response the contract and the code treat alike: anything but an
    HTTP status outside 2xx. *)
Definition response_ok (o : http_outcome) : Prop :=
  match o with
  | HttpResponse r => 200 <= status_code r <= 299
  | HttpRaised _ => True
  end%Z.

Lemma impl_path (c : api_call) :
  c <> AllStats ->
  build_path (method_class (impl_method c)) (method_arg (impl_method c)) = Ok (VStr (spec_path c)).
Proof. destruct c; intros Hc; [reflexivity|by apply build_path_str..|done]. Qed.

Lemma impl_http_request `{JsonDecoder} h self ep m s st (c : api_call) :
  wf_heap h -> heap_objs h !! self = Some (OCadvisorClient ep m s st) -> c <> AllStats ->
  impl h self c = _http_request (ep ++ spec_path c).
Proof. intros. unfold impl. eapply call_path; [done..|by apply impl_path]. Qed.

(** ** Properties *)

(** C7: For the machine, container-spec and container-stats calls, the
    implementation refines the contract: it requests exactly the URL the
    contract names, and on every answer but a non-2xx response its
    outcome is the contract's (the decoded body, the decoding failure, or
    the transport's exception). *)
Theorem impl_refines_spec `{JsonDecoder} (srv : server) h self ep m s st (c : api_call) :
  wf_heap h -> heap_objs h !! self = Some (OCadvisorClient ep m s st) -> c <> AllStats ->
  io_trace srv (impl h self c) = spec_urls ep c /\
  (response_ok (srv (ep ++ spec_path c)) -> io_run srv (impl h self c) = spec_run srv ep c).
Proof.
  intros Hwf Hself Hc. rewrite (impl_http_request h self ep m s st c) by done.
  split; [apply http_request_trace|]. intros Hok.
  rewrite http_request_run. unfold spec_run, spec_transport.
  destruct (srv (ep ++ spec_path c)) as [r|e]; [|done]. simpl in Hok.
  by rewrite status_is_2xx_range, !bool_decide_eq_true_2.
Qed.

Lemma impl_refines_spec_witness :
  wf_heap example_heap /\
  heap_objs example_heap !! 1%positive = Some (OCadvisorClient "http://h:8080/v1.3" 2 3 4) /\
  ContainerStatsOf "abc" <> AllStats /\
  io_trace (example_server 200 "1") (@impl example_loads example_heap 1 (ContainerStatsOf "abc"))
    = spec_urls "http://h:8080/v1.3" (ContainerStatsOf "abc") /\
  (response_ok (example_server 200 "1" ("http://h:8080/v1.3" ++ spec_path (ContainerStatsOf "abc"))) ->
   io_run (example_server 200 "1") (@impl example_loads example_heap 1 (ContainerStatsOf "abc"))
   = @spec_run example_loads (example_server 200 "1") "http://h:8080/v1.3" (ContainerStatsOf "abc")).
Proof.
  split; [exact example_heap_wf|]. split; [reflexivity|]. split; [discriminate|].
  apply (impl_refines_spec _ example_heap 1 "http://h:8080/v1.3" 2 3 4);
    [exact example_heap_wf|reflexivity|discriminate].
Defined.

