(* ===== verification/Json.v ===== *)
(** * [json.loads], the decoder behind [resp.json()]

    CPython decodes with [json.decoder.JSONDecoder.decode] around the C
    scanner of Modules/_json.c ([scan_once_unicode], [scanstring_unicode],
    [_parse_object_unicode], [_parse_array_unicode],
    [_match_number_unicode]). This file follows that code on 8-bit
    strings: whitespace is [' '], tab, newline and carriage return; a
    string takes the escapes of a quote, a backslash, a slash, [b f n r t]
    and [\uXXXX] (an
    escape above [U+00FF] is [NotModelled]) and rejects control
    characters; a number is [-?(0|[1-9][0-9]* )(\.[0-9]+)?([eE][-+]?[0-9]+)?]
    and is an [int] without fraction and exponent, a float (kept as its
    text) otherwise; [NaN], [Infinity] and [-Infinity] are floats; an
    object keeps the first position and the last value of a repeated key.
    A position where no value starts raises [StopIteration] there, which
    [raw_decode] reports as ["Expecting value"] at that position. Every
    [JSONDecodeError] carries CPython's full message, with the line,
    column and character position of the error (CPython 3.12's messages;
    3.13 reports a trailing comma with its own message).

    The scanner is recursive through arrays and objects, so the functions
    take fuel; [json_fuel] is enough for every input (theorem
    [resp_json_total]). CPython's recursion limit on nesting depth is not
    modelled. *)

From stdpp Require Import base strings list sets.
From Stdlib Require Import String Ascii ZArith Lia.
From S2P Require Import Prelude PyRuntime PyFormat PyInt Transport.

Local Open Scope string_scope.

(** ** Characters *)

Definition quote : ascii := "034"%char.
Definition backslash : ascii := "092"%char.

Definition is_ws (c : ascii) : bool :=
  bool_decide (c = " "%char \/ c = "009"%char \/ c = "010"%char \/ c = "013"%char).

Fixpoint skip_ws (s : string) : string :=
  match s with
  | String c s' => if is_ws c then skip_ws s' else s
  | EmptyString => EmptyString
  end.

Definition hex_val (c : ascii) : option N :=
  let n := N_of_ascii c in
  if (48 <=? n)%N && (n <=? 57)%N then Some (n - 48)%N
  else if (97 <=? n)%N && (n <=? 102)%N then Some (n - 87)%N
  else if (65 <=? n)%N && (n <=? 70)%N then Some (n - 55)%N
  else None.

Definition hex4 (a b c d : ascii) : option N :=
  match hex_val a, hex_val b, hex_val c, hex_val d with
  | Some x, Some y, Some z, Some w => Some (((x * 16 + y) * 16 + z) * 16 + w)%N
  | _, _, _, _ => None
  end.

(** The one-character escapes and the character they stand for. *)
Definition simple_escape (e : ascii) : option ascii :=
  if decide (e = quote) then Some quote
  else if decide (e = backslash) then Some backslash
  else if decide (e = "/"%char) then Some "/"%char
  else if decide (e = "b"%char) then Some "008"%char
  else if decide (e = "f"%char) then Some "012"%char
  else if decide (e = "n"%char) then Some "010"%char
  else if decide (e = "r"%char) then Some "013"%char
  else if decide (e = "t"%char) then Some "009"%char
  else None.

(** ** Errors

    [raise_errmsg(msg, pystr, pos)] builds [JSONDecodeError(msg, doc,
    pos)] (Lib/json/decoder.py), whose message is
    ["msg: line L column C (char pos)"]. The scanner sees the text from
    its current position on, so an error records the text left from the
    error's position; [json_decode] turns it into the position in the
    document. The other exceptions ([ValueError] of [int()], inputs
    outside the model) are kept as they are. *)
Inductive jerr : Type :=
| JErr (msg : string) (at_len : nat)
| JExc (e : PyExc).

(** CPython's message at the position [s] (the rest of the text). *)
Definition json_error (msg : string) (s : string) : jerr := JErr msg (String.length s).

(** [doc.count('\n', 0, pos) + 1] and [pos - doc.rfind('\n', 0, pos)],
    from the first [pos] characters, line and column counted from 1. *)
Fixpoint line_col (s : string) (pos line col : nat) : nat * nat :=
  match pos, s with
  | S pos', String c s' =>
      if decide (c = "010"%char) then line_col s' pos' (S line) 1 else line_col s' pos' line (S col)
  | _, _ => (line, col)
  end.

(** [JSONDecodeError.__init__]'s [errmsg]. *)
Definition decode_errmsg (msg doc : string) (pos : nat) : string :=
  let '(l, c) := line_col doc pos 1 1 in
  msg ++ ": line " ++ int_repr (Z.of_nat l) ++ " column " ++ int_repr (Z.of_nat c) ++
  " (char " ++ int_repr (Z.of_nat pos) ++ ")".

Definition jerr_exc (doc : string) (e : jerr) : PyExc :=
  match e with
  | JErr msg n => JSONDecodeError (decode_errmsg msg doc (String.length doc - n))
  | JExc e => e
  end.

(** ** Strings ([scanstring_unicode], after the opening quote)

    [q] is the text from the opening quote, where an unterminated string
    is reported; an invalid escape is reported at its backslash, a
    [\uXXXX] escape at its [u], a control character where it is. *)

Fixpoint scan_string (q s : string) : result jerr (string * string) :=
  match s with
  | EmptyString => Err (json_error "Unterminated string starting at" q)
  | String c s1 =>
      if decide (c = quote) then Ok ("", s1)
      else if decide (c = backslash) then
        match s1 with
        | EmptyString => Err (json_error "Unterminated string starting at" q)
        | String e s2 =>
            if decide (e = "u"%char) then
              match s2 with
              | String h1 (String h2 (String h3 (String h4 s3))) =>
                  match s3, hex4 h1 h2 h3 h4 with
                  | EmptyString, _ | _, None => Err (json_error "Invalid \uXXXX escape" s1)
                  | _, Some n =>
                      if (n <? 256)%N then
                        res_map (fun '(t, r) => (String (ascii_of_N n) t, r)) (scan_string q s3)
                      else Err (JExc (NotModelled "\u escape above U+00FF"))
                  end
              | _ => Err (json_error "Invalid \uXXXX escape" s1)
              end
            else
              match simple_escape e with
              | Some ch => res_map (fun '(t, r) => (String ch t, r)) (scan_string q s2)
              | None => Err (json_error "Invalid \escape" s)
              end
        end
      else if (nat_of_ascii c <=? 31)%nat then Err (json_error "Invalid control character at" s)
      else res_map (fun '(t, r) => (String c t, r)) (scan_string q s1)
  end.

(** What one call of [scan_once_unicode] gives: a value and the rest of
    the text, [StopIteration] (no value starts here), an exception, or the
    model's fuel exhausted. *)
Inductive scan_res : Type :=
| ScanOk (j : Json) (rest : string)
| ScanStop
| ScanErr (e : jerr)
| ScanFuel.

(** ** Numbers ([_match_number_unicode]) *)

Fixpoint span_digits (s : string) : string * string :=
  match s with
  | String c s' =>
      if is_digit c then let '(d, r) := span_digits s' in (String c d, r) else ("", s)
  | EmptyString => ("", "")
  end.

(** The integer digits: ["0"], or a digit 1-9 and all the digits after it. *)
Definition match_int_part (s : string) : option (string * string) :=
  match s with
  | String c s' =>
      if decide (c = "0"%char) then Some ("0", s')
      else if is_digit c then let '(d, r) := span_digits s' in Some (String c d, r)
      else None
  | EmptyString => None
  end.

(** A fraction is read only when a digit follows the ['.']. *)
Definition match_frac (s : string) : string * string :=
  match s with
  | String p (String d s') =>
      if bool_decide (p = "."%char) && is_digit d then
        let '(ds, r) := span_digits s' in (String p (String d ds), r)
      else ("", s)
  | _ => ("", s)
  end.

(** An exponent is read only when digits follow [e], [E] and the optional
    sign; otherwise the scanner backtracks to the [e]. *)
Definition match_exp (s : string) : string * string :=
  match s with
  | String e s1 =>
      if decide (e = "e"%char \/ e = "E"%char) then
        let '(sg, s2) :=
          match s1 with
          | String c (String d r) =>
              if decide (c = "-"%char \/ c = "+"%char) then (String c "", String d r) else ("", s1)
          | _ => ("", s1)
          end in
        let '(ds, s3) := span_digits s2 in
        if decide (ds = "") then ("", s) else (String e (sg ++ ds), s3)
      else ("", s)
  | EmptyString => ("", s)
  end.

(** [PyLong_FromString]'s error for [n] digits (Objects/longobject.c,
    [_MAX_STR_DIGITS_ERROR_FMT_TO_INT]). *)
Definition int_digits_error (n : nat) : PyExc :=
  ValueError ("Exceeds the limit (4300 digits) for integer string conversion: value has " ++
              int_repr (Z.of_nat n) ++ " digits; use sys.set_int_max_str_digits() to increase the limit").

(** After the optional minus sign. [PyLong_FromString] refuses more
    digits than [INT_MAX_STR_DIGITS]. A text where no number starts is
    [ScanStop], which the caller reports at the number's start. *)
Definition match_number_digits (neg : bool) (s1 : string) : scan_res :=
  match match_int_part s1 with
  | None => ScanStop
  | Some (ip, s2) =>
      let '(fr, s3) := match_frac s2 in
      let '(ex, s4) := match_exp s3 in
      if decide (fr = "" /\ ex = "") then
        if (INT_MAX_STR_DIGITS <? String.length ip)%nat then
          ScanErr (JExc (int_digits_error (String.length ip)))
        else
          let v := digits_value 0 ip in ScanOk (JInt (if neg then (- v)%Z else v)) s4
      else ScanOk (JFloat ((if neg then "-" else "") ++ ip ++ fr ++ ex)) s4
  end.

Definition match_number (s : string) : scan_res :=
  match s with
  | String c s' => if decide (c = "-"%char) then match_number_digits true s' else match_number_digits false s
  | EmptyString => match_number_digits false s
  end.

(** [null], [true], [false] and the constants [NaN], [Infinity],
    [-Infinity]. *)
Definition match_literal (s : string) : option (Json * string) :=
  match strip_prefix "null" s with Some r => Some (JNull, r) | None =>
  match strip_prefix "true" s with Some r => Some (JBool true, r) | None =>
  match strip_prefix "false" s with Some r => Some (JBool false, r) | None =>
  match strip_prefix "NaN" s with Some r => Some (JFloat "NaN", r) | None =>
  match strip_prefix "Infinity" s with Some r => Some (JFloat "Infinity", r) | None =>
  match strip_prefix "-Infinity" s with Some r => Some (JFloat "-Infinity", r) | None => None
  end end end end end end.

(** [PyDict_SetItem] on the object being built. *)
Fixpoint jdict_set (k : string) (v : Json) (d : list (string * Json)) : list (string * Json) :=
  match d with
  | [] => [(k, v)]
  | (k', v') :: d' => if decide (k = k') then (k, v) :: d' else (k', v') :: jdict_set k v d'
  end.

(** A number, or [StopIteration] at its start, reported as
    ["Expecting value"] there. *)
Definition scan_number (s : string) : scan_res :=
  match match_number s with
  | ScanStop => ScanErr (json_error "Expecting value" s)
  | r => r
  end.

(** ** The scanner *)

Fixpoint scan_once (n : nat) (s : string) {struct n} : scan_res :=
  match n with
  | O => ScanFuel
  | S n' =>
      match s with
      | EmptyString => ScanErr (json_error "Expecting value" s)
      | String c s1 =>
          if decide (c = quote) then
            match scan_string s s1 with
            | Ok (t, r) => ScanOk (JStr t) r
            | Err e => ScanErr e
            end
          else if decide (c = "{"%char) then parse_object n' (skip_ws s1)
          else if decide (c = "["%char) then parse_array n' (skip_ws s1)
          else match match_literal s with
               | Some (j, r) => ScanOk j r
               | None => scan_number s
               end
      end
  end
(** After ['['] and whitespace. *)
with parse_array (n : nat) (s : string) {struct n} : scan_res :=
  match n with
  | O => ScanFuel
  | S n' =>
      match s with
      | String c r => if decide (c = "]"%char) then ScanOk (JList []) r else parse_elems n' s []
      | EmptyString => parse_elems n' s []
      end
  end
(** At an element; [acc] holds the elements read, last first. *)
with parse_elems (n : nat) (s : string) (acc : list Json) {struct n} : scan_res :=
  match n with
  | O => ScanFuel
  | S n' =>
      match scan_once n' s with
      | ScanOk v r =>
          match skip_ws r with
          | String c r2 =>
              if decide (c = "]"%char) then ScanOk (JList (rev (v :: acc))) r2
              else if decide (c = ","%char) then parse_elems n' (skip_ws r2) (v :: acc)
              else ScanErr (json_error "Expecting ',' delimiter" (String c r2))
          | EmptyString => ScanErr (json_error "Expecting ',' delimiter" "")
          end
      | other => other
      end
  end
(** After ['{'] and whitespace. *)
with parse_object (n : nat) (s : string) {struct n} : scan_res :=
  match n with
  | O => ScanFuel
  | S n' =>
      match s with
      | String c r => if decide (c = "}"%char) then ScanOk (JDict []) r else parse_members n' s []
      | EmptyString => parse_members n' s []
      end
  end
(** At a key; [acc] is the object read so far. *)
with parse_members (n : nat) (s : string) (acc : list (string * Json)) {struct n} : scan_res :=
  match n with
  | O => ScanFuel
  | S n' =>
      match s with
      | String c s1 =>
          if decide (c = quote) then
            match scan_string s s1 with
            | Err e => ScanErr e
            | Ok (key, r) =>
                match skip_ws r with
                | String c2 r2 =>
                    if decide (c2 = ":"%char) then
                      match scan_once n' (skip_ws r2) with
                      | ScanOk v r3 =>
                          match skip_ws r3 with
                          | String c3 r4 =>
                              if decide (c3 = "}"%char) then ScanOk (JDict (jdict_set key v acc)) r4
                              else if decide (c3 = ","%char) then
                                parse_members n' (skip_ws r4) (jdict_set key v acc)
                              else ScanErr (json_error "Expecting ',' delimiter" (String c3 r4))
                          | EmptyString => ScanErr (json_error "Expecting ',' delimiter" "")
                          end
                      | other => other
                      end
                    else ScanErr (json_error "Expecting ':' delimiter" (String c2 r2))
                | EmptyString => ScanErr (json_error "Expecting ':' delimiter" "")
                end
            end
          else ScanErr (json_error "Expecting property name enclosed in double quotes" s)
      | EmptyString => ScanErr (json_error "Expecting property name enclosed in double quotes" "")
      end
  end.

(** Every object in a value has pairwise distinct keys, as a Python
    [dict] has. *)
Fixpoint json_keys_unique (v : Json) : bool :=
  match v with
  | JList l => forallb json_keys_unique l
  | JDict kvs => bool_decide (NoDup (map fst kvs)) && forallb (fun kv => json_keys_unique kv.2) kvs
  | _ => true
  end.

(** ** [json.loads] *)

Definition json_fuel (s : string) : nat := 3 * String.length s + 1.

(** [JSONDecoder.decode]: skip whitespace, scan one value, skip
    whitespace, and require the end of the text; [n] is the fuel. *)
Definition json_decode_fuel (n : nat) (s : string) : PyRes Json :=
  let s0 := skip_ws s in
  match scan_once n s0 with
  | ScanOk j r =>
      match skip_ws r with
      | EmptyString => Ok j
      | r' => Err (jerr_exc s (json_error "Extra data" r'))
      end
  | ScanStop => Err (jerr_exc s (json_error "Expecting value" s0))
  | ScanErr e => Err (jerr_exc s e)
  | ScanFuel => Err (NotModelled "out of fuel")
  end.

Definition json_decode (s : string) : PyRes Json := json_decode_fuel (json_fuel (skip_ws s)) s.

(** ** Errors are decoding errors *)

(** The exceptions a scan result carries. *)
Definition jerr_ok (e : jerr) : Prop :=
  match e with JErr _ _ => True | JExc e => is_decode_error e end.

Definition scan_errs_ok (r : scan_res) : Prop :=
  match r with ScanErr e => jerr_ok e | _ => True end.

Lemma jerr_exc_ok (doc : string) (e : jerr) : jerr_ok e -> is_decode_error (jerr_exc doc e).
Proof. by destruct e. Qed.

Lemma scan_string_errs (q s : string) : forall e, scan_string q s = Err e -> jerr_ok e.
Proof.
  induction s as [s IH] using (induction_ltof1 _ String.length); intros e.
  destruct s as [|c s1]; cbn [scan_string]; [by intros [= <-]|].
  assert (Hmap : forall (f : string * string -> string * string) t,
            String.length t < String.length (String c s1) ->
            res_map f (scan_string q t) = Err e -> jerr_ok e).
  { intros f t Ht. destruct (scan_string q t) eqn:E; cbn; [done|]. intros [= <-]. by eapply IH. }
  case_decide; [done|]. case_decide; [|case_match; [by intros [= <-]|apply Hmap; cbn; lia]].
  destruct s1 as [|e1 s2]; [by intros [= <-]|]. case_decide.
  - destruct s2 as [|h1 [|h2 [|h3 [|h4 s3]]]]; try by intros [= <-].
    destruct s3; [by intros [= <-]|]. destruct (hex4 _ _ _ _); [|by intros [= <-]].
    case_match; [apply Hmap; cbn; lia|by intros [= <-]].
  - destruct (simple_escape e1); [apply Hmap; cbn; lia|by intros [= <-]].
Qed.

Lemma scan_number_lift (P : scan_res -> Prop) (s : string) :
  P (match_number s) -> (forall e, P (ScanErr e)) -> P (scan_number s).
Proof. unfold scan_number. by destruct (match_number s). Qed.

Lemma match_number_errs (s : string) : scan_errs_ok (match_number s).
Proof.
  unfold match_number, match_number_digits.
  destruct s as [|c s']; [|case_decide]; cbv zeta;
    (destruct (match_int_part _) as [[ip s2]|]; [|done]);
    destruct (match_frac s2) as [fr s3]; destruct (match_exp s3) as [ex s4];
    case_decide; try done; try case_match; done.
Qed.

Lemma scan_errs_all (n : nat) :
  (forall s, scan_errs_ok (scan_once n s)) /\
  (forall s, scan_errs_ok (parse_array n s)) /\
  (forall s acc, scan_errs_ok (parse_elems n s acc)) /\
  (forall s, scan_errs_ok (parse_object n s)) /\
  (forall s acc, scan_errs_ok (parse_members n s acc)).
Proof.
  induction n as [|n (I1 & I2 & I3 & I4 & I5)]; [done|].
  split_and!; intros; simpl.
  - destruct s as [|c s1]; [done|].
    case_decide; [destruct (scan_string _ s1) as [[]|e] eqn:E; [done|by eapply scan_string_errs]|].
    case_decide; [done|]. case_decide; [done|].
    destruct (match_literal _) as [[]|]; [done|].
    unfold scan_number. generalize (match_number_errs (String c s1)). by destruct (match_number _).
  - case_match; [done|]. case_decide; done.
  - generalize (I1 s). destruct (scan_once n s); try done; intros _.
    by repeat (case_match; simpl).
  - case_match; [done|]. case_decide; done.
  - destruct s as [|c s1]; [done|]. case_decide; [|done].
    destruct (scan_string _ s1) as [[key r]|e] eqn:E; [|by eapply scan_string_errs].
    destruct (skip_ws r) as [|c2 r2]; [done|]. case_decide; [|done].
    generalize (I1 (skip_ws r2)). destruct (scan_once n _); try done; intros _.
    by repeat (case_match; simpl).
Qed.

Lemma json_decode_fuel_errs (n : nat) (s : string) (e : PyExc) :
  json_decode_fuel n s = Err e -> is_decode_error e.
Proof.
  unfold json_decode_fuel. generalize (proj1 (scan_errs_all n) (skip_ws s)).
  destruct (scan_once _ _) as [j r| |e'|]; cbn; intros He; try (by intros [= <-]).
  - destruct (skip_ws r); by intros [= <-].
  - intros [= <-]. by apply jerr_exc_ok.
Qed.

Lemma json_decode_errs (s : string) (e : PyExc) : json_decode s = Err e -> is_decode_error e.
Proof. apply json_decode_fuel_errs. Qed.

(** [json.loads] as the transport's decoder. *)
#[global] Instance cpython_json : JsonDecoder :=
  {| json_loads := json_decode; json_loads_errors := json_decode_errs |}.

(** ** Progress: every value read consumes input *)

Lemma skip_ws_le (s : string) : String.length (skip_ws s) <= String.length s.
Proof. induction s as [|c s IH]; cbn; [done|]. case_match; cbn; lia. Qed.

Lemma span_digits_le (s : string) : String.length (span_digits s).2 <= String.length s.
Proof.
  induction s as [|c s IH]; cbn; [done|].
  case_match; [destruct (span_digits s) eqn:E; cbn in *; lia|cbn; lia].
Qed.

Lemma scan_string_progress (q s t r : string) :
  scan_string q s = Ok (t, r) -> String.length r < String.length s.
Proof.
  revert t r. induction s as [s IH] using (induction_ltof1 _ String.length); intros t r.
  destruct s as [|c s1]; cbn [scan_string]; [discriminate|].
  assert (Hmap : forall (f : string -> string) u, String.length u < String.length (String c s1) ->
            res_map (fun '(t', r') => (f t', r')) (scan_string q u) = Ok (t, r) ->
            String.length r < String.length (String c s1)).
  { intros f u Hu. destruct (scan_string q u) as [[t' r']|] eqn:E; cbn; [|discriminate].
    intros [= _ <-]. specialize (IH u Hu t' r' E). cbn in *. lia. }
  case_decide; [intros [= _ <-]; cbn; lia|].
  case_decide; [|case_match; [discriminate|apply (Hmap (String c)); cbn; lia]].
  destruct s1 as [|e1 s2]; [discriminate|]. case_decide.
  - destruct s2 as [|h1 [|h2 [|h3 [|h4 s3]]]]; try discriminate.
    destruct s3; [discriminate|]. destruct (hex4 _ _ _ _); [|discriminate].
    case_match; [apply (Hmap (String _)); cbn; lia|discriminate].
  - destruct (simple_escape e1); [apply (Hmap (String _)); cbn; lia|discriminate].
Qed.

Lemma match_literal_progress (s r : string) (j : Json) :
  match_literal s = Some (j, r) -> String.length r < String.length s.
Proof.
  unfold match_literal.
  repeat match goal with
  | |- context [strip_prefix ?p s] =>
      let E := fresh "E" in destruct (strip_prefix p s) eqn:E;
      [apply strip_prefix_Some in E; subst s; intros [= _ <-];
       rewrite str_length_app; cbn; lia|]
  end; done.
Qed.

Lemma match_int_part_progress (s ip r : string) :
  match_int_part s = Some (ip, r) -> String.length r < String.length s.
Proof.
  destruct s as [|c s']; cbn; [done|]. case_decide; [intros [= _ <-]; cbn; lia|].
  case_match; [|done]. pose proof (span_digits_le s').
  destruct (span_digits s'); cbn in *. intros [= _ <-]. lia.
Qed.

Lemma match_frac_le (s : string) : String.length (match_frac s).2 <= String.length s.
Proof.
  destruct s as [|p [|d s']]; cbn; try lia. case_match; cbn; [|lia].
  pose proof (span_digits_le s'). destruct (span_digits s'); cbn in *. lia.
Qed.

Lemma match_exp_le (s : string) : String.length (match_exp s).2 <= String.length s.
Proof.
  destruct s as [|e s1]; cbn; [lia|]. case_decide; cbn; [|lia].
  destruct s1 as [|c [|d r]]; [| |case_decide]; cbv zeta;
    match goal with
    | |- context [span_digits ?t] =>
        pose proof (span_digits_le t); destruct (span_digits t) as [ds s3]
    end; cbn in *; case_decide; cbn; lia.
Qed.

Lemma match_number_progress (s r : string) (j : Json) :
  match_number s = ScanOk j r -> String.length r < String.length s.
Proof.
  unfold match_number, match_number_digits.
  destruct s as [|c s']; [|case_decide]; cbv zeta;
    (destruct (match_int_part _) as [[ip s2]|] eqn:Hip; [|done]);
    apply match_int_part_progress in Hip;
    pose proof (match_frac_le s2); destruct (match_frac s2) as [fr s3];
    pose proof (match_exp_le s3); destruct (match_exp s3) as [ex s4]; cbn in *;
    (case_decide; [try case_match|]); intros; simplify_eq; cbn in *; lia.
Qed.

(** What a scan at [s] promises: it does not run out of fuel, and a value
    read leaves a shorter rest. *)
Definition scan_progress (s : string) (r : scan_res) : Prop :=
  match r with
  | ScanOk _ rest => String.length rest < String.length s
  | ScanFuel => False
  | _ => True
  end.

Lemma scan_progress_mono (s t : string) (r : scan_res) :
  scan_progress t r -> String.length t <= String.length s -> scan_progress s r.
Proof. destruct r; cbn; lia. Qed.

Lemma match_number_not_fuel (s : string) : match_number s <> ScanFuel.
Proof.
  unfold match_number, match_number_digits.
  destruct s as [|c s']; [|case_decide]; cbv zeta;
    (destruct (match_int_part _) as [[ip s2]|]; [|done]);
    destruct (match_frac s2) as [fr s3]; destruct (match_exp s3) as [ex s4];
    (case_decide; [try case_match|]); done.
Qed.

Lemma match_number_scan_progress (s : string) : scan_progress s (match_number s).
Proof.
  destruct (match_number s) eqn:E; cbn; try done;
    [by eapply match_number_progress|by apply match_number_not_fuel in E].
Qed.

Lemma scan_fuel_enough (n : nat) :
  (forall s, 3 * String.length s + 1 <= n -> scan_progress s (scan_once n s)) /\
  (forall s, 3 * String.length s + 3 <= n -> scan_progress s (parse_array n s)) /\
  (forall s acc, 3 * String.length s + 2 <= n -> scan_progress s (parse_elems n s acc)) /\
  (forall s, 3 * String.length s + 3 <= n -> scan_progress s (parse_object n s)) /\
  (forall s acc, 3 * String.length s + 2 <= n -> scan_progress s (parse_members n s acc)).
Proof.
  induction n as [|n (I1 & I2 & I3 & I4 & I5)]; [split_and!; intros; lia|].
  split_and!; intros s; [intros Hn| intros Hn|intros acc Hn|intros Hn|intros acc Hn]; cbn -[scan_number].
  - destruct s as [|c s1]; [done|]. cbn in Hn. pose proof (skip_ws_le s1).
    case_decide.
    { destruct (scan_string _ s1) as [[t r]|e] eqn:E; [|done].
      apply scan_string_progress in E. cbn. lia. }
    case_decide; [eapply scan_progress_mono; [apply I4|]; cbn; lia|].
    case_decide; [eapply scan_progress_mono; [apply I2|]; cbn; lia|].
    destruct (match_literal _) as [[j r]|] eqn:E; [by apply match_literal_progress in E|].
    apply scan_number_lift; [apply match_number_scan_progress|done].
  - destruct s as [|c r]; [apply I3; cbn in *; lia|].
    case_decide; [cbn; lia|]. apply I3. cbn in *. lia.
  - generalize (I1 s ltac:(lia)). destruct (scan_once n s) as [v r| | |]; cbn; try done.
    intros Hr. destruct (skip_ws r) as [|c r2] eqn:Er; [done|].
    pose proof (skip_ws_le r) as Hwr; rewrite Er in Hwr. cbn in *.
    case_decide; [cbn; lia|]. case_decide; [|done]. pose proof (skip_ws_le r2).
    eapply scan_progress_mono; [apply I3|]; lia.
  - destruct s as [|c r]; [apply I5; cbn in *; lia|].
    case_decide; [cbn; lia|]. apply I5. cbn in *. lia.
  - destruct s as [|c s1]; [done|]. cbn in Hn. case_decide; [|done].
    destruct (scan_string _ s1) as [[key r]|e] eqn:E; [|done].
    apply scan_string_progress in E. destruct (skip_ws r) as [|c2 r2] eqn:Er; [done|].
    pose proof (skip_ws_le r) as Hwr; rewrite Er in Hwr. cbn in *. case_decide; [|done].
    pose proof (skip_ws_le r2).
    generalize (I1 (skip_ws r2) ltac:(lia)). destruct (scan_once n _) as [v r3| | |]; cbn; try done.
    intros Hr3. destruct (skip_ws r3) as [|c3 r4] eqn:Er3; [done|].
    pose proof (skip_ws_le r3) as Hwr3; rewrite Er3 in Hwr3. cbn in *.
    case_decide; [cbn; lia|]. case_decide; [|done]. pose proof (skip_ws_le r4).
    eapply scan_progress_mono; [apply I5|]; cbn; lia.
Qed.

Lemma scan_fuel_mono (n : nat) : forall m, n <= m ->
  (forall s, scan_once n s <> ScanFuel -> scan_once m s = scan_once n s) /\
  (forall s, parse_array n s <> ScanFuel -> parse_array m s = parse_array n s) /\
  (forall s acc, parse_elems n s acc <> ScanFuel -> parse_elems m s acc = parse_elems n s acc) /\
  (forall s, parse_object n s <> ScanFuel -> parse_object m s = parse_object n s) /\
  (forall s acc, parse_members n s acc <> ScanFuel -> parse_members m s acc = parse_members n s acc).
Proof.
  induction n as [|n IH]; intros m Hm; [done|].
  destruct m as [|m]; [lia|]. destruct (IH m ltac:(lia)) as (I1 & I2 & I3 & I4 & I5).
  split_and!; [intros s|intros s|intros s acc|intros s|intros s acc]; cbn -[scan_number].
  - destruct s as [|c s1]; [done|].
    case_decide; [done|]. case_decide; [apply I4|]. case_decide; [apply I2|done].
  - destruct s as [|c r]; [apply I3|]. case_decide; [done|apply I3].
  - destruct (scan_once n s) eqn:E; [|rewrite I1, E by (rewrite E; done); done..|by intros []].
    rewrite I1, E by (rewrite E; done). repeat case_match; try done. apply I3.
  - destruct s as [|c r]; [apply I5|]. case_decide; [done|apply I5].
  - destruct s as [|c s1]; [done|]. case_decide; [|done].
    destruct (scan_string _ s1) as [[key r]|]; [|done].
    destruct (skip_ws r) as [|c2 r2]; [done|]. case_decide; [|done].
    destruct (scan_once n _) eqn:E; [|rewrite I1, E by (rewrite E; done); done..|by intros []].
    rewrite I1, E by (rewrite E; done). repeat case_match; try done. apply I5.
Qed.

Lemma scan_once_not_fuel (s : string) : scan_once (json_fuel s) s <> ScanFuel.
Proof.
  pose proof (proj1 (scan_fuel_enough (json_fuel s)) s ltac:(unfold json_fuel; lia)) as Hp.
  intros E. by rewrite E in Hp.
Qed.

(** ** Decoded objects have distinct keys *)

Lemma jdict_set_keys (k : string) (v : Json) (acc : list (string * Json)) :
  NoDup (map fst acc) -> NoDup (map fst (jdict_set k v acc)).
Proof.
  induction acc as [|[k' v'] acc IH]; cbn; [intros; apply NoDup_singleton|].
  intros Hnd. apply NoDup_cons in Hnd as [Hk' Hnd]. case_decide as Hkk; subst; cbn; [by constructor|].
  constructor; [|by apply IH]. intros Hin. apply Hk'.
  assert (Hsub : forall x, x ∈ map fst (jdict_set k v acc) -> x = k \/ x ∈ map fst acc).
  { clear. induction acc as [|[a b] acc IH]; cbn; intros x; [rewrite list_elem_of_singleton; by left|].
    case_decide as Hka; cbn; rewrite !elem_of_cons.
    { intros [->|Hx]; [by left|by right; right]. }
    intros [->|Hx]; [by right; left|].
    destruct (IH x Hx); [by left|by right; right]. }
  destruct (Hsub k' Hin); [congruence|done].
Qed.

Lemma jdict_set_values (k : string) (v : Json) (acc : list (string * Json)) :
  json_keys_unique v = true -> forallb (fun kv => json_keys_unique kv.2) acc = true ->
  forallb (fun kv => json_keys_unique kv.2) (jdict_set k v acc) = true.
Proof.
  induction acc as [|[k' v'] acc IH]; cbn; intros Hv; [by rewrite Hv|].
  intros (Hv' & Hacc)%andb_prop. case_decide; cbn; rewrite ?Hv, ?Hv', ?Hacc, ?IH; done.
Qed.

(** What a scan result promises of the value it read. *)
Definition scan_unique (r : scan_res) : Prop :=
  match r with ScanOk v _ => json_keys_unique v = true | _ => True end.

Lemma forallb_rev {A} (f : A -> bool) (l : list A) : forallb f (rev l) = forallb f l.
Proof. induction l as [|x l IH]; cbn; [done|]. rewrite forallb_app, IH. cbn. by rewrite andb_true_r, andb_comm. Qed.

Lemma match_number_unique (s : string) : scan_unique (match_number s).
Proof.
  unfold match_number, match_number_digits.
  destruct s as [|c s']; [|case_decide]; cbv zeta;
    (destruct (match_int_part _) as [[ip s2]|]; [|exact I]);
    destruct (match_frac s2) as [fr s3]; destruct (match_exp s3) as [ex s4];
    (case_decide; [try case_match|]); first [exact I|reflexivity].
Qed.

Lemma scan_unique_all (n : nat) :
  (forall s, scan_unique (scan_once n s)) /\
  (forall s, scan_unique (parse_array n s)) /\
  (forall s acc, forallb json_keys_unique acc = true -> scan_unique (parse_elems n s acc)) /\
  (forall s, scan_unique (parse_object n s)) /\
  (forall s acc, NoDup (map fst acc) -> forallb (fun kv => json_keys_unique kv.2) acc = true ->
     scan_unique (parse_members n s acc)).
Proof.
  induction n as [|n (I1 & I2 & I3 & I4 & I5)]; [done|].
  split_and!; [intros s|intros s|intros s acc Hacc|intros s|intros s acc Hnd Hacc]; cbn -[scan_number].
  - destruct s as [|c s1]; [done|].
    case_decide; [by destruct (scan_string _ s1) as [[]|]|].
    case_decide; [apply I4|]. case_decide; [apply I2|].
    destruct (match_literal _) as [[j r]|] eqn:E.
    + revert E. unfold match_literal.
      repeat (destruct (strip_prefix _ _); [intros [= <- _]; reflexivity|]). done.
    + apply scan_number_lift; [apply match_number_unique|done].
  - destruct s as [|c r]; [by apply I3|]. case_decide; [done|by apply I3].
  - generalize (I1 s). destruct (scan_once n s) as [v r| | |]; cbn; try done. intros Hv.
    destruct (skip_ws r) as [|c r2]; [done|].
    case_decide; [cbn; rewrite forallb_app, forallb_rev, Hacc; cbn; by rewrite Hv|].
    case_decide; [|done]. apply I3. cbn. by rewrite Hv, Hacc.
  - destruct s as [|c r]; [by apply I5; [constructor|]|]. case_decide; [reflexivity|by apply I5; [constructor|]].
  - destruct s as [|c s1]; [done|]. case_decide; [|done].
    destruct (scan_string _ s1) as [[key r]|e]; [|done].
    destruct (skip_ws r) as [|c2 r2]; [done|]. case_decide; [|done].
    generalize (I1 (skip_ws r2)). destruct (scan_once n _) as [v r3| | |]; cbn; try done. intros Hv.
    destruct (skip_ws r3) as [|c3 r4]; [done|].
    pose proof (jdict_set_keys key v acc Hnd). pose proof (jdict_set_values key v acc Hv Hacc).
    case_decide; [cbn; apply andb_true_intro; split; [by apply bool_decide_eq_true_2|done]|].
    case_decide; [by apply I5|done].
Qed.

(** Every result the scan reaches with some fuel is the one it reaches
    with [json_fuel]. *)
Lemma scan_once_json_fuel (n : nat) (s : string) :
  scan_once n s <> ScanFuel -> scan_once (json_fuel s) s = scan_once n s.
Proof.
  intros Hn. pose proof (scan_once_not_fuel s) as Hj.
  rewrite <- (proj1 (scan_fuel_mono (json_fuel s) (n `max` json_fuel s) ltac:(lia)) _ Hj).
  by rewrite (proj1 (scan_fuel_mono n (n `max` json_fuel s) ltac:(lia)) _ Hn).
Qed.

(** ** Errors are reported inside the document *)

(** The messages of [JSONDecodeError] the scanner raises (CPython 3.12). *)
Definition json_messages : list string :=
  ["Expecting value"; "Extra data"; "Expecting ',' delimiter"; "Expecting ':' delimiter";
   "Expecting property name enclosed in double quotes"; "Unterminated string starting at";
   "Invalid control character at"; "Invalid \escape"; "Invalid \uXXXX escape"].

(** Where [_json.c] and [json.decoder] report each message: the text
    left from the error's position. A missing value or delimiter is
    reported at the first character that is not white space (or at the
    end), a string error at the opening quote, at the control character,
    at the backslash of an unknown escape or at the [u] of a bad [\uXXXX]. *)
Inductive err_at : string -> string -> Prop :=
| at_value_end : err_at "Expecting value" ""
| at_value c r : is_ws c = false -> c <> quote -> c <> "{"%char -> c <> "["%char ->
    err_at "Expecting value" (String c r)
| at_extra c r : is_ws c = false -> err_at "Extra data" (String c r)
| at_comma_end : err_at "Expecting ',' delimiter" ""
| at_comma c r : is_ws c = false -> c <> ","%char -> err_at "Expecting ',' delimiter" (String c r)
| at_colon_end : err_at "Expecting ':' delimiter" ""
| at_colon c r : is_ws c = false -> c <> ":"%char -> err_at "Expecting ':' delimiter" (String c r)
| at_name_end : err_at "Expecting property name enclosed in double quotes" ""
| at_name c r : is_ws c = false -> c <> quote ->
    err_at "Expecting property name enclosed in double quotes" (String c r)
| at_unterminated r : err_at "Unterminated string starting at" (String quote r)
| at_control c r : (nat_of_ascii c <= 31)%nat -> err_at "Invalid control character at" (String c r)
| at_escape r : err_at "Invalid \escape" (String backslash r)
| at_uescape r : err_at "Invalid \uXXXX escape" (String "u" r).

#[export] Hint Constructors err_at : cadv.

Lemma err_at_message (m rest : string) : err_at m rest -> m ∈ json_messages.
Proof. destruct 1; set_solver. Qed.

(** The text a scanner is called on starts with no white space. *)
Definition ws_head (s : string) : Prop :=
  match s with String c _ => is_ws c = false | EmptyString => True end.

Lemma skip_ws_ws_head (s : string) : ws_head (skip_ws s).
Proof. induction s as [|c s IH]; cbn; [done|]. by destruct (is_ws c) eqn:E. Qed.

(** *** Suffixes: what a scan leaves is the end of its input *)

Lemma str_suffix_nil (s : string) : str_suffix "" s.
Proof. exists s. by rewrite str_app_nil_r. Qed.

Lemma str_suffix_tail (c : ascii) (r s : string) : str_suffix (String c r) s -> str_suffix r s.
Proof. intros [p ->]. exists (p ++ String c ""). by rewrite str_app_assoc, str_app_cons, str_app_nil_l. Qed.

(** A chain of suffix facts from the context: every tail of a suffix is
    one, then a path through the hypotheses. *)
Ltac suffix_saturate :=
  repeat match goal with
  | H : str_suffix (String _ ?x) ?m |- _ =>
      lazymatch goal with
      | _ : str_suffix x m |- _ => fail
      | _ => pose proof (str_suffix_tail _ _ _ H)
      end
  end.

Ltac suffix_path :=
  first
  [ apply str_suffix_refl
  | apply str_suffix_nil
  | match goal with H : str_suffix ?x ?m |- str_suffix ?x _ => apply (str_suffix_trans _ _ _ H); suffix_path end
  | apply str_suffix_cons; suffix_path ].

Ltac suffix_solve := suffix_saturate; suffix_path.

Lemma skip_ws_suffix (s : string) : str_suffix (skip_ws s) s.
Proof. induction s as [|c s IH]; cbn; [apply str_suffix_refl|]. case_match; suffix_solve. Qed.

Lemma span_digits_suffix (s : string) : str_suffix (span_digits s).2 s.
Proof.
  induction s as [|c s IH]; cbn; [apply str_suffix_refl|].
  case_match; [destruct (span_digits s) eqn:E; cbn in *|]; suffix_solve.
Qed.

Lemma match_int_part_suffix (s ip r : string) : match_int_part s = Some (ip, r) -> str_suffix r s.
Proof.
  destruct s as [|c s']; cbn; [done|]. case_decide; [intros [= _ <-]; suffix_solve|].
  case_match; [|done]. pose proof (span_digits_suffix s').
  destruct (span_digits s'); cbn in *. intros [= _ <-]. suffix_solve.
Qed.

Lemma match_frac_suffix (s : string) : str_suffix (match_frac s).2 s.
Proof.
  destruct s as [|p [|d s']]; cbn; try apply str_suffix_refl. case_match; cbn; [|apply str_suffix_refl].
  pose proof (span_digits_suffix s'). destruct (span_digits s'); cbn in *. suffix_solve.
Qed.

Lemma match_exp_suffix (s : string) : str_suffix (match_exp s).2 s.
Proof.
  destruct s as [|e s1]; cbn; [apply str_suffix_refl|]. case_decide; cbn; [|apply str_suffix_refl].
  destruct s1 as [|c [|d r]]; [| |case_decide]; cbv zeta;
    match goal with
    | |- context [span_digits ?t] =>
        pose proof (span_digits_suffix t); destruct (span_digits t) as [ds s3]
    end; cbn in *; case_decide; cbn; suffix_solve.
Qed.

Lemma match_number_suffix (s r : string) (j : Json) : match_number s = ScanOk j r -> str_suffix r s.
Proof.
  unfold match_number, match_number_digits.
  destruct s as [|c s']; [|case_decide]; cbv zeta;
    (destruct (match_int_part _) as [[ip s2]|] eqn:Hip; [|done]);
    apply match_int_part_suffix in Hip;
    pose proof (match_frac_suffix s2); destruct (match_frac s2) as [fr s3];
    pose proof (match_exp_suffix s3); destruct (match_exp s3) as [ex s4]; cbn in *;
    (case_decide; [try case_match|]); intros; simplify_eq; suffix_solve.
Qed.

Lemma match_literal_suffix (s r : string) (j : Json) : match_literal s = Some (j, r) -> str_suffix r s.
Proof.
  unfold match_literal.
  repeat match goal with
  | |- context [strip_prefix ?p s] =>
      let E := fresh "E" in destruct (strip_prefix p s) eqn:E;
      [apply strip_prefix_suffix in E; intros [= _ <-]; exact E|]
  end; done.
Qed.

Lemma scan_string_suffix (q s t r : string) : scan_string q s = Ok (t, r) -> str_suffix r s.
Proof.
  revert t r. induction s as [s IH] using (induction_ltof1 _ String.length); intros t r.
  destruct s as [|c s1]; cbn [scan_string]; [discriminate|].
  assert (Hmap : forall (f : string -> string) u,
            String.length u < String.length (String c s1) -> str_suffix u (String c s1) ->
            res_map (fun '(t', r') => (f t', r')) (scan_string q u) = Ok (t, r) -> str_suffix r (String c s1)).
  { intros f u Hu Hsu. destruct (scan_string q u) as [[t' r']|] eqn:E; cbn; [|discriminate].
    intros [= _ <-]. pose proof (IH u Hu t' r' E). suffix_solve. }
  case_decide; [intros [= _ <-]; suffix_solve|].
  case_decide; [|case_match; [discriminate|apply (Hmap (String c)); [cbn; lia|suffix_solve]]].
  destruct s1 as [|e1 s2]; [discriminate|]. case_decide.
  - destruct s2 as [|h1 [|h2 [|h3 [|h4 s3]]]]; try discriminate.
    destruct s3; [discriminate|]. destruct (hex4 _ _ _ _); [|discriminate].
    case_match; [apply (Hmap (String _)); [cbn; lia|suffix_solve]|discriminate].
  - destruct (simple_escape e1); [apply (Hmap (String _)); [cbn; lia|suffix_solve]|discriminate].
Qed.

(** *** Errors lie within the text scanned *)

(** A position error at a suffix of [s], where its message is reported. *)
Definition err_within (s : string) (e : jerr) : Prop :=
  match e with
  | JErr m n => exists rest, str_suffix rest s /\ String.length rest = n /\ err_at m rest
  | JExc e => match e with JSONDecodeError _ => False | _ => True end
  end.

(** What a scan at [s] promises of positions: a value read leaves a
    suffix of [s], [StopIteration] does not escape it, and an error lies
    within [s]. *)
Definition scan_within (s : string) (r : scan_res) : Prop :=
  match r with
  | ScanOk _ rest => str_suffix rest s
  | ScanStop => False
  | ScanErr e => err_within s e
  | ScanFuel => True
  end.

Lemma err_within_mono (s t : string) (e : jerr) : err_within s e -> str_suffix s t -> err_within t e.
Proof. destruct e; cbn; [|done]. intros (rest & ? & ? & ?) ?. exists rest. split; [suffix_solve|done]. Qed.

Lemma scan_within_mono (s t : string) (r : scan_res) :
  scan_within s r -> str_suffix s t -> scan_within t r.
Proof. destruct r; cbn; try done; [intros; suffix_solve|]. apply err_within_mono. Qed.

Lemma json_error_within (m s t : string) : err_at m t -> str_suffix t s -> err_within s (json_error m t).
Proof. intros. by exists t. Qed.

(** A position error within [doc] is reported at the end of a prefix,
    where its message belongs. *)
Lemma jerr_position (doc : string) (e : jerr) (m : string) :
  err_within doc e -> jerr_exc doc e = JSONDecodeError m ->
  exists msg pre rest, msg ∈ json_messages /\ doc = pre ++ rest /\ err_at msg rest /\
    m = decode_errmsg msg doc (String.length pre).
Proof.
  destruct e as [msg n|e]; cbn; [|by destruct e].
  intros (rest & [pre Hd] & Hn & Hat) [= <-].
  exists msg, pre, rest. split_and!; [by eapply err_at_message|done|done|]. do 2 f_equal.
  rewrite Hd at 1. rewrite str_length_app. lia.
Qed.

Lemma scan_string_within (t s : string) :
  str_suffix s (String quote t) ->
  match scan_string (String quote t) s with
  | Ok (_, r) => str_suffix r s
  | Err e => err_within (String quote t) e
  end.
Proof.
  intros Hq. destruct (scan_string _ s) as [[t' r]|e] eqn:E; [by eapply scan_string_suffix|].
  revert e E Hq. induction s as [s IH] using (induction_ltof1 _ String.length); intros e E Hq.
  assert (Hmap : forall (f : string * string -> string * string) u,
            String.length u < String.length s -> str_suffix u s ->
            res_map f (scan_string (String quote t) u) = Err e -> err_within (String quote t) e).
  { intros f u Hu Hsu. destruct (scan_string _ u) eqn:E'; cbn; [done|]. intros [= <-].
    apply (IH u); [done|done|suffix_solve]. }
  destruct s as [|c s1]; cbn [scan_string] in E, Hmap;
    [injection E as <-; apply json_error_within; [constructor|suffix_solve]|].
  revert E. case_decide; [done|]. case_decide; [subst c|].
  - destruct s1 as [|e1 s2]; [intros [= <-]; apply json_error_within; [constructor|suffix_solve]|].
    case_decide; [subst e1|].
    + destruct s2 as [|h1 [|h2 [|h3 [|h4 s3]]]];
        try (intros [= <-]; apply json_error_within; [constructor|suffix_solve]).
      destruct s3; [intros [= <-]; apply json_error_within; [constructor|suffix_solve]|].
      destruct (hex4 _ _ _ _); [|intros [= <-]; apply json_error_within; [constructor|suffix_solve]].
      case_match; [apply Hmap; [cbn; lia|suffix_solve]|by intros [= <-]].
    + destruct (simple_escape e1);
        [apply Hmap; [cbn; lia|suffix_solve]|intros [= <-]; apply json_error_within; [constructor|suffix_solve]].
  - case_match; [intros [= <-]; apply json_error_within; [constructor; by apply Nat.leb_le|suffix_solve]|].
    apply Hmap; [cbn; lia|suffix_solve].
Qed.

Lemma match_number_within (s : string) :
  match match_number s with
  | ScanOk _ r => str_suffix r s
  | ScanErr e => err_within s e
  | _ => True
  end.
Proof.
  generalize (match_number_suffix s). unfold match_number, match_number_digits.
  destruct s as [|c s']; [|case_decide]; cbv zeta;
    (destruct (match_int_part _) as [[ip s2]|]; [|done]);
    destruct (match_frac s2) as [fr s3]; destruct (match_exp s3) as [ex s4];
    (case_decide; [try case_match|]); cbn; try done; intros Hp; exact (Hp _ _ eq_refl).
Qed.

(** A number where no other value starts: [StopIteration] at a character
    that starts no number is ["Expecting value"] there. *)
Lemma scan_number_within (c : ascii) (s : string) :
  is_ws c = false -> c <> quote -> c <> "{"%char -> c <> "["%char ->
  scan_within (String c s) (scan_number (String c s)).
Proof.
  intros Hw Hq Hb Hk. generalize (match_number_within (String c s)). unfold scan_number.
  destruct (match_number _); cbn; try done. intros _.
  exists (String c s). split_and!; [apply str_suffix_refl|done|by constructor].
Qed.

(** [skip_ws r]: a suffix of [r] that starts with no white space. *)
Ltac ws_case r c r2 E :=
  let Hs := fresh "Hs" in let Hh := fresh "Hh" in
  pose proof (skip_ws_suffix r) as Hs; pose proof (skip_ws_ws_head r) as Hh;
  destruct (skip_ws r) as [|c r2] eqn:E; cbn in Hh.

(** An error raised here, at a suffix of the text. *)
Ltac err_here := apply json_error_within; [constructor; auto|suffix_solve].

Lemma scan_within_all (n : nat) :
  (forall s, ws_head s -> scan_within s (scan_once n s)) /\
  (forall s, ws_head s -> scan_within s (parse_array n s)) /\
  (forall s acc, ws_head s -> scan_within s (parse_elems n s acc)) /\
  (forall s, ws_head s -> scan_within s (parse_object n s)) /\
  (forall s acc, ws_head s -> scan_within s (parse_members n s acc)).
Proof.
  induction n as [|n (I1 & I2 & I3 & I4 & I5)]; [done|].
  split_and!; intros s; [|intros Hh|intros acc Hh|intros Hh|intros acc Hh]; cbn -[scan_number].
  - intros Hh. destruct s as [|c s1]; [err_here|]. cbn in Hh.
    case_decide; [subst c|].
    { generalize (scan_string_within s1 s1 ltac:(suffix_solve)).
      destruct (scan_string _ s1) as [[t r]|e]; cbn; [intros; suffix_solve|done]. }
    pose proof (skip_ws_suffix s1).
    case_decide; [eapply scan_within_mono; [apply I4, skip_ws_ws_head|suffix_solve]|].
    case_decide; [eapply scan_within_mono; [apply I2, skip_ws_ws_head|suffix_solve]|].
    destruct (match_literal _) as [[j r]|] eqn:E; [by apply match_literal_suffix in E|].
    by apply scan_number_within.
  - destruct s as [|c r]; [by apply I3|]. case_decide; [cbn; suffix_solve|by apply I3].
  - generalize (I1 s Hh). destruct (scan_once n s) as [v r| | |]; cbn; try done. intros Hr.
    ws_case r c r2 Er; [err_here|].
    case_decide; [cbn; suffix_solve|]. case_decide; [|err_here].
    eapply scan_within_mono; [apply I3, skip_ws_ws_head|]. pose proof (skip_ws_suffix r2). suffix_solve.
  - destruct s as [|c r]; [by apply I5|]. case_decide; [cbn; suffix_solve|by apply I5].
  - destruct s as [|c s1]; [err_here|]. cbn in Hh. case_decide; [subst c|err_here].
    generalize (scan_string_within s1 s1 ltac:(suffix_solve)).
    destruct (scan_string _ s1) as [[key r]|e]; cbn; [intros Hr|done].
    ws_case r c2 r2 Er; [err_here|].
    case_decide; [|err_here].
    pose proof (skip_ws_suffix r2). generalize (I1 (skip_ws r2) (skip_ws_ws_head r2)).
    destruct (scan_once n _) as [v r3| |e|]; cbn; try done;
      [|intros; eapply err_within_mono; [done|suffix_solve]].
    intros Hr3. ws_case r3 c3 r4 Er3; [err_here|].
    case_decide; [cbn; suffix_solve|]. case_decide; [|err_here].
    eapply scan_within_mono; [apply I5, skip_ws_ws_head|]. pose proof (skip_ws_suffix r4). suffix_solve.
Qed.

(** Type of the decoded value: every object [resp.json()] returns has
    pairwise distinct keys, as a Python [dict]. *)
Lemma resp_json_keys_unique (r : Response) (v : Json) :
  @resp_json cpython_json r = Ok v -> json_keys_unique v = true.
Proof.
  cbn [resp_json json_loads cpython_json]. unfold json_decode, json_decode_fuel.
  generalize (proj1 (scan_unique_all (json_fuel (skip_ws (body r)))) (skip_ws (body r))).
  destruct (scan_once _ _) as [j rest| | |]; cbn; try discriminate. intros Hu.
  destruct (skip_ws rest); [by intros [= <-]|discriminate].
Qed.


(** ** Properties *)

(** C16: [resp.json()] with CPython's decoder is total: the fuel the
    model's scanner is given is never exhausted on any body, and any larger
    fuel gives the same result. *)
Theorem resp_json_total (r : Response) :
  scan_once (json_fuel (skip_ws (body r))) (skip_ws (body r)) <> ScanFuel /\
  forall m, json_fuel (skip_ws (body r)) <= m -> json_decode_fuel m (body r) = @resp_json cpython_json r.
Proof.
  pose proof (scan_once_not_fuel (skip_ws (body r))) as Hnf. split; [exact Hnf|].
  intros m Hm. cbn [resp_json json_loads cpython_json]. unfold json_decode, json_decode_fuel.
  by rewrite (proj1 (scan_fuel_mono _ m Hm) _ Hnf).
Qed.

Lemma resp_json_total_witness :
  json_fuel (skip_ws (body (mk_response 200 "OK" "[1, 2]"))) <= 100 /\
  json_decode_fuel 100 (body (mk_response 200 "OK" "[1, 2]")) = @resp_json cpython_json (mk_response 200 "OK" "[1, 2]").
Proof.
  split; [vm_compute; lia|]. apply (proj2 (resp_json_total (mk_response 200 "OK" "[1, 2]"))). vm_compute. lia.
Defined.

(** C12: Every [JSONDecodeError] [resp.json()] raises carries one of
    CPython's nine scanner messages at the position CPython reports it:
    its message is ["msg: line L column C (char P)"] where [P] is the
    length of a prefix of the body, [L] and [C] are the line and column of
    that position, and the rest of the body from [P] is where that message
    belongs ([err_at]): a missing value or delimiter at the first
    character that is not white space or at the end, an unterminated
    string at its opening quote, a control character where it is, a bad
    escape at its backslash or at the [u] of [\uXXXX]. *)
Theorem resp_json_error_position (r : Response) (m : string) :
  @resp_json cpython_json r = Err (JSONDecodeError m) ->
  exists msg pre rest, msg ∈ json_messages /\ body r = pre ++ rest /\ err_at msg rest /\
    m = decode_errmsg msg (body r) (String.length pre).
Proof.
  cbn [resp_json json_loads cpython_json]. unfold json_decode, json_decode_fuel.
  pose proof (skip_ws_suffix (body r)) as Hs0.
  generalize (proj1 (scan_within_all (json_fuel (skip_ws (body r)))) (skip_ws (body r)) (skip_ws_ws_head _)).
  destruct (scan_once _ _) as [j rest| |e|]; cbn; [intros Hr|intros []|intros He|discriminate].
  - ws_case rest c t Er; [discriminate|].
    intros [= <-]. apply (jerr_position (body r) (json_error "Extra data" (String c t))); [err_here|reflexivity].
  - intros Hm. apply (jerr_position (body r) e); [by eapply err_within_mono|]. by injection Hm.
Qed.

Lemma resp_json_error_position_witness :
  @resp_json cpython_json (mk_response 200 "OK" (String "010" "{" ++ String quote "a" ++ String quote " 1}"))
    = Err (JSONDecodeError "Expecting ':' delimiter: line 2 column 6 (char 6)") /\
  exists msg pre rest, msg ∈ json_messages /\
    body (mk_response 200 "OK" (String "010" "{" ++ String quote "a" ++ String quote " 1}")) = pre ++ rest /\
    err_at msg rest /\
    "Expecting ':' delimiter: line 2 column 6 (char 6)" =
      decode_errmsg msg (body (mk_response 200 "OK" (String "010" "{" ++ String quote "a" ++ String quote " 1}")))
        (String.length pre).
Proof.
  assert (E : @resp_json cpython_json (mk_response 200 "OK" (String "010" "{" ++ String quote "a" ++ String quote " 1}"))
    = Err (JSONDecodeError "Expecting ':' delimiter: line 2 column 6 (char 6)")) by (vm_compute; reflexivity).
  split; [exact E|]. exact (resp_json_error_position _ _ E).
Defined.
