(* ===== verification/JsonDump.v ===== *)
(** * [json.dumps], and decoding what it prints

    The client never encodes JSON; the printer here is CPython's
    [json.dumps] with its defaults (separators [', '] and [': '],
    [ensure_ascii=True], the C routine [encode_basestring_ascii] of
    Modules/_json.c for strings, [int.__repr__] for integers), written to
    state what [json.loads] (Json.v) promises of a body: decoding the
    printing of a value gives the value back. The values covered are those
    [json_wf] accepts: no float (a float is kept as text, and [float.__repr__]
    is not modelled), object keys pairwise distinct (a repeated key keeps
    only its last value), and integers of at most 4300 digits (beyond
    that [int()] raises [ValueError]). *)

From stdpp Require Import base strings list gmap.
From Stdlib Require Import String Ascii ZArith Lia.
From S2P Require Import Prelude PyRuntime PyFormat PyInt Transport Json.

Local Open Scope string_scope.

(** ** Strings ([encode_basestring_ascii]) *)

Definition escape_char (c : ascii) : string :=
  let n := N_of_ascii c in
  if decide (c = quote) then String backslash (String quote "")
  else if decide (c = backslash) then String backslash (String backslash "")
  else if (32 <=? n)%N && (n <=? 126)%N then String c ""
  else if decide (c = "008"%char) then String backslash "b"
  else if decide (c = "012"%char) then String backslash "f"
  else if decide (c = "010"%char) then String backslash "n"
  else if decide (c = "013"%char) then String backslash "r"
  else if decide (c = "009"%char) then String backslash "t"
  else String backslash (String "u" (String "0" (String "0"
         (String (hex_char (n / 16)) (String (hex_char (n mod 16)) ""))))).

Fixpoint escape_str (s : string) : string :=
  match s with
  | EmptyString => ""
  | String c s' => escape_char c ++ escape_str s'
  end.

Definition dumps_str (s : string) : string :=
  String quote (escape_str s ++ String quote "").

(** ** Values *)

Fixpoint json_dumps (v : Json) : string :=
  match v with
  | JNull => "null"
  | JBool b => if b then "true" else "false"
  | JInt z => int_repr z
  | JFloat t => t
  | JStr s => dumps_str s
  | JList l => "[" ++ String.concat ", " (map json_dumps l) ++ "]"
  | JDict kvs =>
      "{" ++ String.concat ", " (map (fun kv => dumps_str kv.1 ++ ": " ++ json_dumps kv.2) kvs) ++ "}"
  end.

(** The values whose printing decodes back to them. *)
Fixpoint json_wf (v : Json) : bool :=
  match v with
  | JNull | JBool _ | JStr _ => true
  | JInt z => (Z.abs z <? INT_MAX_STR_VALUE)%Z
  | JFloat _ => false
  | JList l => forallb json_wf l
  | JDict kvs => bool_decide (NoDup kvs.*1) && forallb (fun kv => json_wf kv.2) kvs
  end.

(** ** Integers: the digits decode back *)

(** The text after a value: the end, or a delimiter. *)
Definition val_delim (rest : string) : Prop :=
  match rest with
  | EmptyString => True
  | String c _ => c = ","%char \/ c = "]"%char \/ c = "}"%char
  end.











(** The text after a number: no digit next. *)
Definition no_digit_head (t : string) : Prop :=
  match t with EmptyString => True | String c _ => is_digit c = false end.

Lemma val_delim_no_digit (t : string) : val_delim t -> no_digit_head t.
Proof. destruct t as [|c t]; cbn; [done|]. by intros [->|[->| ->]]. Qed.

Lemma span_digits_app (s t : string) :
  all_digits s = true -> no_digit_head t -> span_digits (s ++ t) = (s, t).
Proof.
  induction s as [|c s IH]; intros Hs Ht.
  - rewrite str_app_nil_l. destruct t as [|c t]; cbn [span_digits no_digit_head] in *; [done|]. by rewrite Ht.
  - rewrite str_app_cons. cbn [all_digits span_digits] in *. apply andb_prop in Hs as [-> Hs]. by rewrite IH.
Qed.


Lemma match_int_part_dec (n : Z) (t : string) :
  (0 <= n)%Z -> no_digit_head t -> match_int_part (z_dec n ++ t) = Some (z_dec n, t).
Proof.
  intros Hn Ht. destruct (Z.eq_dec n 0) as [->|Hn0]; [done|].
  destruct (z_dec_aux_shape (dec_fuel n) n) as (c & r & Hz & Hc & Hc0 & Hr).
  { split; [lia|]. by apply dec_fuel_enough. }
  unfold z_dec. rewrite Hz, str_app_cons. cbn. rewrite decide_False by done.
  by rewrite Hc, span_digits_app.
Qed.

Lemma match_frac_delim (t : string) : val_delim t -> match_frac t = ("", t).
Proof. destruct t as [|c [|d t]]; cbn; [done..|]. by intros [->|[->| ->]]. Qed.

Lemma match_exp_delim (t : string) : val_delim t -> match_exp t = ("", t).
Proof. destruct t as [|c t]; cbn; [done|]. by intros [->|[->| ->]]. Qed.


Lemma strip_prefix_ne (a b : ascii) (p s : string) :
  a <> b -> strip_prefix (String a p) (String b s) = None.
Proof. intros Hab. cbn. by rewrite decide_False. Qed.

Lemma strip_prefix_eq (a : ascii) (p s : string) :
  strip_prefix (String a p) (String a s) = strip_prefix p s.
Proof. cbn. by rewrite decide_True. Qed.

Lemma match_literal_digit (c : ascii) (s : string) :
  is_digit c = true -> match_literal (String c s) = None.
Proof. intros Hc. unfold match_literal. by rewrite !strip_prefix_ne by not_digit Hc. Qed.

Lemma match_literal_minus (c : ascii) (s : string) :
  is_digit c = true -> match_literal (String "-" (String c s)) = None.
Proof.
  intros Hc. unfold match_literal.
  rewrite !(strip_prefix_ne _ "-") by done. rewrite strip_prefix_eq.
  by rewrite strip_prefix_ne by not_digit Hc.
Qed.



Lemma match_number_digits_z_dec (neg : bool) (n : Z) (t : string) :
  (0 <= n)%Z -> val_delim t ->
  match_number_digits neg (z_dec n ++ t) =
    if (INT_MAX_STR_DIGITS <? String.length (z_dec n))%nat then
      ScanErr (JExc (int_digits_error (String.length (z_dec n))))
    else ScanOk (JInt (if neg then - n else n)%Z) t.
Proof.
  intros Hn Ht. unfold match_number_digits.
  rewrite match_int_part_dec, match_frac_delim, match_exp_delim by (done || lia || by apply val_delim_no_digit).
  cbv zeta. rewrite decide_True by done. by rewrite z_dec_value by lia.
Qed.

Lemma match_number_digits_dec (neg : bool) (n : Z) (t : string) :
  (0 <= n < INT_MAX_STR_VALUE)%Z -> val_delim t ->
  match_number_digits neg (z_dec n ++ t) = ScanOk (JInt (if neg then - n else n)%Z) t.
Proof.
  intros Hn Ht. rewrite match_number_digits_z_dec by (done || lia).
  destruct (INT_MAX_STR_DIGITS <? _)%nat eqn:E; [|done].
  apply Nat.ltb_lt in E. pose proof (z_dec_length n Hn). unfold INT_MAX_STR_DIGITS in E. lia.
Qed.

(** ** Strings: the escapes decode back *)

(** Each character's escape decodes to it; checked on all 256
    characters. The text after an escape is never empty inside a printed
    string (the closing quote follows). *)
Lemma escape_char_scan (q : string) (c : ascii) (t : string) :
  t <> "" -> scan_string q (escape_char c ++ t) = res_map (fun '(u, r) => (String c u, r)) (scan_string q t).
Proof.
  destruct t as [|c' t']; [done|]. intros _.
  destruct c as [[] [] [] [] [] [] [] []]; reflexivity.
Qed.

Lemma str_app_String_ne (s r : string) (c : ascii) : s ++ String c r <> "".
Proof. destruct s; rewrite ?str_app_nil_l, ?str_app_cons; discriminate. Qed.

Lemma escape_str_scan (q s rest : string) :
  scan_string q (escape_str s ++ String quote rest) = Ok (s, rest).
Proof.
  induction s as [|c s IH]; cbn [escape_str].
  - rewrite str_app_nil_l. cbn. by rewrite decide_True.
  - rewrite str_app_assoc, escape_char_scan, IH by apply str_app_String_ne. done.
Qed.

Lemma dumps_str_app (s rest : string) :
  dumps_str s ++ rest = String quote (escape_str s ++ String quote rest).
Proof. unfold dumps_str. by rewrite str_app_cons, str_app_assoc, str_app_cons, str_app_nil_l. Qed.

Lemma skip_ws_head (c : ascii) (r : string) : is_ws c = false -> skip_ws (String c r) = String c r.
Proof. intros Hc. cbn. by rewrite Hc. Qed.

(** ** Induction on values, through lists and objects *)

Section JsonInd.
Variable P : Json -> Prop.
Hypothesis HNull : P JNull.
Hypothesis HBool : forall b, P (JBool b).
Hypothesis HInt : forall z, P (JInt z).
Hypothesis HFloat : forall t, P (JFloat t).
Hypothesis HStr : forall s, P (JStr s).
Hypothesis HList : forall l, Forall P l -> P (JList l).
Hypothesis HDict : forall kvs, Forall (fun kv => P kv.2) kvs -> P (JDict kvs).

Fixpoint Json_ind_deep (v : Json) : P v :=
  match v with
  | JNull => HNull
  | JBool b => HBool b
  | JInt z => HInt z
  | JFloat t => HFloat t
  | JStr s => HStr s
  | JList l =>
      HList l ((fix go (l : list Json) : Forall P l :=
                  match l with
                  | [] => @List.Forall_nil _ P
                  | x :: l' => @List.Forall_cons _ P x l' (Json_ind_deep x) (go l')
                  end) l)
  | JDict kvs =>
      HDict kvs ((fix go (kvs : list (string * Json)) : Forall (fun kv => P kv.2) kvs :=
                    match kvs with
                    | [] => @List.Forall_nil _ _
                    | kv :: kvs' => @List.Forall_cons _ (fun kv => P kv.2) kv kvs' (Json_ind_deep kv.2) (go kvs')
                    end) kvs)
  end.
End JsonInd.

(** ** The printing of a value *)

(** A printed value starts with a character that is not whitespace and
    closes no array or object. *)
Definition value_head (s : string) : Prop :=
  match s with
  | String c _ => is_ws c = false /\ c <> "]"%char /\ c <> "}"%char
  | EmptyString => False
  end.

Lemma int_repr_head (z : Z) : value_head (int_repr z).
Proof.
  unfold int_repr. destruct (z <? 0)%Z eqn:Hz; [rewrite str_app_cons, str_app_nil_l; by cbn|].
  apply Z.ltb_ge in Hz. destruct (z_dec_head z Hz) as (c & r & -> & Hc). cbn.
  split_and!; [|not_digit Hc..].
  destruct (is_ws c) eqn:Hw; [|done]. unfold is_ws in Hw. apply bool_decide_eq_true in Hw.
  destruct Hw as [->|[->|[->| ->]]]; vm_compute in Hc; discriminate Hc.
Qed.

Lemma json_dumps_head (v : Json) : json_wf v = true -> value_head (json_dumps v).
Proof.
  destruct v as [| [] | z | t | s | l | kvs]; cbn [json_wf json_dumps]; intros Hwf; try done;
    [apply int_repr_head|by rewrite str_app_cons, str_app_nil_l..].
Qed.

Lemma value_head_app (s t : string) : value_head s -> value_head (s ++ t).
Proof. destruct s; [done|]. by rewrite str_app_cons. Qed.

Lemma skip_ws_value (s : string) : value_head s -> skip_ws s = s.
Proof. destruct s as [|c r]; [done|]. intros [Hc _]. by apply skip_ws_head. Qed.

(** [s] scans to [v], leaving [rest], with any fuel from some bound on. *)
Definition scans_to (s : string) (v : Json) (rest : string) : Prop :=
  exists N, forall n, N <= n -> scan_once n s = ScanOk v rest.

Lemma scan_once_other (n : nat) (c : ascii) (r : string) :
  c <> quote -> c <> "{"%char -> c <> "["%char ->
  scan_once (S n) (String c r) =
    match match_literal (String c r) with Some (j, r') => ScanOk j r' | None => scan_number (String c r) end.
Proof. intros H1 H2 H3. cbn -[match_literal scan_number]. by rewrite !decide_False. Qed.

Lemma scans_to_literal (p : string) (v : Json) (rest : string) :
  match_literal (p ++ rest) = Some (v, rest) ->
  (exists c r, p = String c r /\ c <> quote /\ c <> "{"%char /\ c <> "["%char) ->
  scans_to (p ++ rest) v rest.
Proof.
  intros Hl (c & r & -> & H1 & H2 & H3). exists 1. intros [|n] Hn; [lia|].
  rewrite str_app_cons, scan_once_other by done. rewrite <- str_app_cons. by rewrite Hl.
Qed.

Lemma match_number_digits_digit (neg : bool) (c : ascii) (r : string) :
  is_digit c = true -> match_number_digits neg (String c r) <> ScanStop.
Proof.
  intros Hc. unfold match_number_digits. cbn [match_int_part]. rewrite Hc.
  case_decide; [|destruct (span_digits r)]; cbv zeta;
    destruct (match_frac _) as [fr s3]; destruct (match_exp s3) as [ex s4];
    case_decide; try case_match; discriminate.
Qed.

Lemma stop_elim (x e : scan_res) :
  x <> ScanStop ->
  match x with ScanOk j r => ScanOk j r | ScanStop => e | ScanErr e' => ScanErr e' | ScanFuel => ScanFuel end = x.
Proof. by destruct x. Qed.

Lemma scan_once_int_repr (n : nat) (z : Z) (rest : string) :
  scan_once (S n) (int_repr z ++ rest) = match_number_digits (z <? 0)%Z (z_dec (Z.abs z) ++ rest).
Proof.
  unfold int_repr. destruct (z <? 0)%Z eqn:Hneg.
  - apply Z.ltb_lt in Hneg. rewrite Z.abs_neq by lia.
    destruct (z_dec_head (- z)) as (c & r & Hd & Hc); [lia|].
    rewrite str_app_assoc, str_app_cons, str_app_nil_l, scan_once_other by done.
    rewrite Hd, str_app_cons, match_literal_minus by done.
    unfold scan_number. cbn -[match_number_digits]. rewrite decide_True by done.
    rewrite stop_elim by (by apply match_number_digits_digit). by rewrite ?str_app_cons.
  - apply Z.ltb_ge in Hneg. rewrite Z.abs_eq by lia.
    destruct (z_dec_head z) as (c & r & Hd & Hc); [lia|].
    rewrite Hd, str_app_cons, scan_once_other by not_digit Hc.
    rewrite match_literal_digit by done. unfold scan_number. cbn -[match_number_digits].
    rewrite decide_False by not_digit Hc.
    rewrite stop_elim by (by apply match_number_digits_digit). by rewrite ?str_app_cons.
Qed.

Lemma scans_to_int (z : Z) (rest : string) :
  (Z.abs z < INT_MAX_STR_VALUE)%Z -> val_delim rest -> scans_to (int_repr z ++ rest) (JInt z) rest.
Proof.
  intros Hz Ht. exists 1. intros [|n] Hn; [lia|].
  rewrite scan_once_int_repr, match_number_digits_dec by (done || lia).
  destruct (z <? 0)%Z eqn:Hneg; do 2 f_equal; [apply Z.ltb_lt in Hneg|apply Z.ltb_ge in Hneg]; lia.
Qed.

Lemma scans_to_str (s rest : string) : scans_to (dumps_str s ++ rest) (JStr s) rest.
Proof.
  exists 1. intros [|n] Hn; [lia|]. rewrite dumps_str_app. cbn -[scan_string].
  by rewrite decide_True, escape_str_scan.
Qed.

(** What the round trip needs of one value. *)
Definition dumps_ok (v : Json) : Prop :=
  json_wf v = true -> forall rest, val_delim rest -> scans_to (json_dumps v ++ rest) v rest.

Lemma str_cons_app (c : ascii) (s : string) : String c "" ++ s = String c s.
Proof. by rewrite str_app_cons, str_app_nil_l. Qed.

Lemma concat_cons2 (sep x y : string) (l : list string) :
  String.concat sep (x :: y :: l) = x ++ sep ++ String.concat sep (y :: l).
Proof. reflexivity. Qed.

Lemma concat_head (sep x : string) (l : list string) (t : string) :
  value_head x -> value_head (String.concat sep (x :: l) ++ t).
Proof.
  intros Hx. destruct l as [|y l].
  - by apply value_head_app.
  - rewrite concat_cons2, str_app_assoc. by apply value_head_app.
Qed.

Lemma elems_scan (l : list Json) :
  Forall dumps_ok l -> forallb json_wf l = true -> l <> [] ->
  forall acc rest, exists N, forall n, N <= n ->
    parse_elems n (String.concat ", " (map json_dumps l) ++ "]" ++ rest) acc = ScanOk (JList (rev acc ++ l)) rest.
Proof.
  induction l as [|v l IH]; [done|]. intros Hall Hwf _ acc rest.
  apply Forall_cons in Hall as [Hv Hl]. apply andb_prop in Hwf as [Hwv Hwl].
  destruct l as [|w l'].
  - destruct (Hv Hwv ("]" ++ rest)) as [N HN]; [by rewrite str_cons_app; cbn; auto|].
    exists (S N). intros [|n] Hn; [lia|]. cbn [parse_elems map].
    change (String.concat ", " [json_dumps v]) with (json_dumps v).
    rewrite HN by lia. rewrite str_cons_app, skip_ws_head by done. by rewrite decide_True.
  - set (X := String.concat ", " (map json_dumps (w :: l')) ++ "]" ++ rest).
    destruct (Hv Hwv (", " ++ X)) as [N1 HN1]; [by rewrite str_app_cons; cbn; auto|].
    destruct (IH Hl Hwl ltac:(done) (v :: acc) rest) as [N2 HN2].
    exists (S (N1 `max` N2)). intros [|n] Hn; [lia|]. cbn [parse_elems map].
    rewrite concat_cons2, !str_app_assoc. fold (map json_dumps l').
    change (String.concat ", " (json_dumps w :: map json_dumps l') ++ "]" ++ rest) with X.
    rewrite HN1 by lia. rewrite str_app_cons, skip_ws_head by done.
    rewrite decide_False, decide_True by done. rewrite str_cons_app.
    change (skip_ws (String " " X)) with (skip_ws X). rewrite skip_ws_value.
    + rewrite HN2 by lia. cbn. by rewrite <- app_assoc.
    + apply concat_head. rewrite Forall_cons in Hl. apply andb_prop in Hwl as [Hww _].
      by apply json_dumps_head.
Qed.

Definition dumps_item (kv : string * Json) : string := dumps_str kv.1 ++ ": " ++ json_dumps kv.2.

Lemma jdict_set_fresh (k : string) (v : Json) (acc : list (string * Json)) :
  k ∉ map fst acc -> jdict_set k v acc = (acc ++ [(k, v)])%list.
Proof.
  induction acc as [|[k' v'] acc IH]; [done|]. cbn. rewrite not_elem_of_cons.
  intros [Hk Hacc]. rewrite decide_False by done. by rewrite IH.
Qed.

Lemma parse_members_item (n : nat) (k : string) (v : Json) (T : string) (acc : list (string * Json)) :
  scan_once n (json_dumps v ++ T) = ScanOk v T ->
  value_head (json_dumps v) ->
  parse_members (S n) (dumps_item (k, v) ++ T) acc =
    match skip_ws T with
    | String c3 r4 =>
        if decide (c3 = "}"%char) then ScanOk (JDict (jdict_set k v acc)) r4
        else if decide (c3 = ","%char) then parse_members n (skip_ws r4) (jdict_set k v acc)
        else ScanErr (json_error "Expecting ',' delimiter" (String c3 r4))
    | EmptyString => ScanErr (json_error "Expecting ',' delimiter" "")
    end.
Proof.
  intros Hv Hh. unfold dumps_item. cbn [fst snd].
  rewrite !str_app_assoc, dumps_str_app. cbn [parse_members].
  rewrite decide_True, escape_str_scan by done.
  rewrite !str_app_cons, skip_ws_head, decide_True, str_app_nil_l by done.
  change (skip_ws (String " " (json_dumps v ++ T))) with (skip_ws (json_dumps v ++ T)).
  rewrite skip_ws_value by (by apply value_head_app). by rewrite Hv.
Qed.

(** The object [_parse_object_unicode] builds: [PyDict_SetItem] of each
    member in turn. *)
Local Abbreviation jdict_fold kvs acc := (fold_left (fun d kv => jdict_set kv.1 kv.2 d) kvs acc).

Lemma members_scan (kvs : list (string * Json)) :
  Forall (fun kv => dumps_ok kv.2) kvs -> forallb (fun kv => json_wf kv.2) kvs = true -> kvs <> [] ->
  forall acc rest, exists N, forall n, N <= n ->
    parse_members n (String.concat ", " (map dumps_item kvs) ++ "}" ++ rest) acc =
      ScanOk (JDict (jdict_fold kvs acc)) rest.
Proof.
  induction kvs as [|[k v] kvs IH]; [done|]. intros Hall Hwf _ acc rest.
  apply Forall_cons in Hall as [Hv Hl]. apply andb_prop in Hwf as [Hwv Hwl]. cbn [snd] in Hv, Hwv.
  pose proof (json_dumps_head v Hwv) as Hh.
  destruct kvs as [|kv' kvs'].
  - destruct (Hv Hwv ("}" ++ rest)) as [N HN]; [by rewrite str_cons_app; cbn; auto|].
    exists (S N). intros [|n] Hn; [lia|]. cbn [map].
    change (String.concat ", " [dumps_item (k, v)]) with (dumps_item (k, v)).
    rewrite parse_members_item by (done || apply HN; lia).
    by rewrite str_cons_app, skip_ws_head, decide_True by done.
  - set (X := String.concat ", " (map dumps_item (kv' :: kvs')) ++ "}" ++ rest).
    destruct (Hv Hwv (", " ++ X)) as [N1 HN1]; [by rewrite str_app_cons; cbn; auto|].
    destruct (IH Hl Hwl ltac:(done) (jdict_set k v acc) rest) as [N2 HN2].
    exists (S (N1 `max` N2)). intros [|n] Hn; [lia|]. cbn [map].
    rewrite concat_cons2, !str_app_assoc. fold (map dumps_item kvs').
    change (String.concat ", " (dumps_item kv' :: map dumps_item kvs') ++ "}" ++ rest) with X.
    rewrite parse_members_item by (done || apply HN1; lia).
    rewrite str_app_cons, skip_ws_head, decide_False, decide_True by done.
    rewrite str_cons_app.
    change (skip_ws (String " " X)) with (skip_ws X). rewrite skip_ws_value.
    + by rewrite HN2 by lia.
    + apply concat_head. destruct kv' as [k' v']. apply Forall_cons in Hl as [_ _].
      apply andb_prop in Hwl as [Hwv' _]. unfold dumps_item. cbn [fst snd].
      rewrite dumps_str_app. cbn. auto.
Qed.

(** Members with distinct keys are kept in order. *)
Lemma jdict_fold_fresh (kvs acc : list (string * Json)) :
  NoDup (map fst (acc ++ kvs)) -> jdict_fold kvs acc = (acc ++ kvs)%list.
Proof.
  revert acc. induction kvs as [|[k v] kvs IH]; intros acc Hnd; cbn; [by rewrite app_nil_r|].
  rewrite jdict_set_fresh.
  - rewrite IH; by rewrite <-app_assoc.
  - rewrite map_app in Hnd. apply NoDup_app in Hnd as (_ & Hdis & _). intros Hin.
    apply (Hdis k Hin). cbn. by left.
Qed.

Lemma parse_array_value (n : nat) (s : string) :
  value_head s -> parse_array (S n) s = parse_elems n s [].
Proof. destruct s as [|c r]; [done|]. intros (_ & Hc & _). cbn. by rewrite decide_False. Qed.

Lemma parse_object_value (n : nat) (s : string) :
  value_head s -> parse_object (S n) s = parse_members n s [].
Proof. destruct s as [|c r]; [done|]. intros (_ & _ & Hc). cbn. by rewrite decide_False. Qed.

Lemma scan_once_array (n : nat) (s : string) : scan_once (S n) (String "[" s) = parse_array n (skip_ws s).
Proof. reflexivity. Qed.

Lemma scan_once_object (n : nat) (s : string) : scan_once (S n) (String "{" s) = parse_object n (skip_ws s).
Proof. reflexivity. Qed.

(** An object's printing, keys repeated or not, scans to the object
    [_parse_object_unicode] builds. *)
Lemma object_scan (kvs : list (string * Json)) (rest : string) :
  Forall (fun kv => dumps_ok kv.2) kvs -> forallb (fun kv => json_wf kv.2) kvs = true ->
  scans_to ("{" ++ String.concat ", " (map dumps_item kvs) ++ "}" ++ rest) (JDict (jdict_fold kvs [])) rest.
Proof.
  intros Hall Hwf. rewrite str_app_cons, str_app_nil_l.
  destruct kvs as [|[k v] kvs'].
  - exists 2. intros [|[|n]] Hn; [lia..|]. rewrite scan_once_object.
    rewrite str_app_nil_l, str_cons_app. reflexivity.
  - destruct (members_scan ((k, v) :: kvs') Hall Hwf ltac:(done) [] rest) as [N HN].
    exists (S (S N)). intros [|[|n]] Hn; [lia..|]. rewrite scan_once_object.
    assert (Hv : value_head (String.concat ", " (map dumps_item ((k, v) :: kvs')) ++ "}" ++ rest)).
    { apply concat_head. unfold dumps_item. rewrite dumps_str_app. cbn. auto. }
    rewrite skip_ws_value, parse_object_value by done. by rewrite HN by lia.
Qed.

Lemma json_dumps_scans (v : Json) : dumps_ok v.
Proof.
  induction v as [| [] | z | t | s | l IH | kvs IH] using Json_ind_deep;
    intros Hwf rest Hrest; cbn [json_wf] in Hwf; cbn [json_dumps].
  - apply scans_to_literal; [reflexivity|eexists _, _; split_and!; [reflexivity|unfold quote; discriminate..]].
  - apply scans_to_literal; [reflexivity|eexists _, _; split_and!; [reflexivity|unfold quote; discriminate..]].
  - apply scans_to_literal; [reflexivity|eexists _, _; split_and!; [reflexivity|unfold quote; discriminate..]].
  - apply scans_to_int; [by apply Z.ltb_lt|done].
  - done.
  - apply scans_to_str.
  - rewrite !str_app_assoc, str_app_cons, str_app_nil_l.
    destruct l as [|v l'].
    + exists 2. intros [|[|n]] Hn; [lia..|]. rewrite scan_once_array.
      rewrite str_app_nil_l, str_cons_app. reflexivity.
    + destruct (elems_scan (v :: l') IH Hwf ltac:(done) [] rest) as [N HN].
      exists (S (S N)). intros [|[|n]] Hn; [lia..|]. rewrite scan_once_array.
      pose proof (json_dumps_head v (proj1 (andb_prop _ _ Hwf))) as Hh.
      assert (Hv : value_head (String.concat ", " (map json_dumps (v :: l')) ++ "]" ++ rest))
        by (apply concat_head, Hh).
      rewrite skip_ws_value, parse_array_value by done. rewrite HN by lia. done.
  - apply andb_prop in Hwf as [Hnd Hwf]. apply bool_decide_eq_true in Hnd.
    rewrite !str_app_assoc. destruct (object_scan kvs rest IH Hwf) as [N HN].
    exists N. intros n Hn. rewrite HN by done. by rewrite jdict_fold_fresh.
Qed.

(** A text that scans to a value with nothing left decodes to it. *)
Lemma json_decode_scans (s : string) (v : Json) : value_head s -> scans_to s v "" -> json_decode s = Ok v.
Proof.
  intros Hh [N HN]. specialize (HN N ltac:(lia)). unfold json_decode, json_decode_fuel.
  rewrite skip_ws_value by done. by rewrite (scan_once_json_fuel N), HN by (by rewrite HN).
Qed.

Lemma json_decode_dumps (v : Json) : json_wf v = true -> json_decode (json_dumps v) = Ok v.
Proof.
  intros Hwf. apply json_decode_scans; [by apply json_dumps_head|].
  rewrite <-(str_app_nil_r (json_dumps v)). by apply json_dumps_scans.
Qed.

(** *** Repeated keys: [PyDict_SetItem] keeps the first position and the
    last value *)

Lemma jdict_set_fst (k : string) (v : Json) (d : list (string * Json)) :
  map fst (jdict_set k v d) = if decide (k ∈ map fst d) then map fst d else (map fst d ++ [k])%list.
Proof.
  induction d as [|[k' v'] d IH]; cbn; [done|].
  destruct (decide (k = k')) as [<-|Hk]; cbn; [by rewrite decide_True by (by left)|].
  rewrite IH. repeat case_decide; first [done | set_solver].
Qed.

Lemma list_to_map_jdict_set (k : string) (v : Json) (d : list (string * Json)) :
  (list_to_map (jdict_set k v d) : gmap string Json) = <[k:=v]> (list_to_map d).
Proof.
  induction d as [|[k' v'] d IH]; cbn; [done|].
  destruct (decide (k = k')) as [<-|Hk]; [by rewrite !list_to_map_cons, insert_insert_eq|].
  rewrite !list_to_map_cons, IH. apply insert_insert_ne. congruence.
Qed.

Lemma jdict_fold_snoc (kvs acc : list (string * Json)) (k : string) (v : Json) :
  jdict_fold (kvs ++ [(k, v)]) acc = jdict_set k v (jdict_fold kvs acc).
Proof. by rewrite fold_left_app. Qed.

Lemma reverse_remove_dups_elem (k : string) (l : list string) :
  k ∈ reverse (remove_dups (reverse l)) <-> k ∈ l.
Proof. by rewrite elem_of_reverse, elem_of_remove_dups, elem_of_reverse. Qed.

(** The keys, in the order of their first occurrence. *)
Lemma jdict_fold_keys (kvs : list (string * Json)) :
  map fst (jdict_fold kvs []) = reverse (remove_dups (reverse (map fst kvs))).
Proof.
  induction kvs as [|[k v] kvs IH] using rev_ind; [done|].
  rewrite jdict_fold_snoc, jdict_set_fst, IH, map_app. cbn [map fst]. rewrite reverse_snoc. cbn [remove_dups].
  pose proof (reverse_remove_dups_elem k (map fst kvs)). pose proof (elem_of_reverse k (map fst kvs)).
  case_decide; case_match; first [done | by rewrite reverse_cons | exfalso; naive_solver].
Qed.

(** The values: those of a map the members are inserted into in order. *)
Lemma jdict_fold_map (kvs : list (string * Json)) :
  (list_to_map (jdict_fold kvs []) : gmap string Json) = list_to_map (reverse kvs).
Proof.
  induction kvs as [|[k v] kvs IH] using rev_ind; [done|].
  rewrite jdict_fold_snoc, list_to_map_jdict_set, IH, reverse_snoc. by rewrite list_to_map_cons.
Qed.

(** ** Properties *)

(** C17: Round trip: [resp.json()] on a body that is [json.dumps] of a
    value without floats, with distinct keys in each object and integers
    of at most 4300 digits, returns the value. *)
Theorem resp_json_roundtrip (r : Response) (v : Json) :
  json_wf v = true -> body r = json_dumps v -> @resp_json cpython_json r = Ok v.
Proof. intros Hwf Hb. cbn [resp_json json_loads cpython_json]. rewrite Hb. by apply json_decode_dumps. Qed.

Lemma resp_json_roundtrip_witness :
  json_wf (JDict [("a", JList [JInt (-12); JNull]); ("b", JStr "x")]) = true /\
  @resp_json cpython_json (mk_response 200 "OK" (json_dumps (JDict [("a", JList [JInt (-12); JNull]); ("b", JStr "x")])))
    = Ok (JDict [("a", JList [JInt (-12); JNull]); ("b", JStr "x")]).
Proof. split; [vm_compute; reflexivity|]. apply resp_json_roundtrip; [vm_compute; reflexivity|reflexivity]. Defined.

(** C18: With CPython's decoder, a 2xx response whose body, after
    leading whitespace, starts with a character where no JSON value
    starts (not a quote, brace, bracket, minus sign or digit, and no
    [null], [true], [false], [NaN] or [Infinity]) makes [_http_request]
    raise [JSONDecodeError('Expecting value: line L column C (char P)')]
    with [P] the position of that character and [L], [C] its line and
    column, not the API failure (spec section 8). *)
Theorem http_request_not_json (srv : server) (url : string) (r : Response) (c : ascii) (t : string) :
  srv url = HttpResponse r -> (200 <= status_code r <= 299)%Z ->
  skip_ws (body r) = String c t ->
  c <> quote -> c <> "{"%char -> c <> "["%char -> c <> "-"%char -> is_digit c = false ->
  match_literal (String c t) = None ->
  io_run srv (@_http_request cpython_json url) =
    Err (JSONDecodeError (decode_errmsg "Expecting value" (body r)
                            (String.length (body r) - String.length (String c t)))).
Proof.
  intros Hs Hc Hb H1 H2 H3 H4 H5 Hl. rewrite http_request_run, Hs, bool_decide_eq_true_2 by done.
  cbn [resp_json json_loads cpython_json]. unfold json_decode, json_decode_fuel. rewrite Hb.
  assert (Hn : scan_once (json_fuel (String c t)) (String c t) = ScanErr (json_error "Expecting value" (String c t))).
  { unfold json_fuel. cbn [String.length]. rewrite Nat.add_1_r, scan_once_other, Hl by done.
    unfold scan_number, match_number. rewrite decide_False by done.
    unfold match_number_digits, match_int_part. rewrite decide_False by (intros ->; discriminate).
    by rewrite H5. }
  by rewrite Hn.
Qed.

Lemma http_request_not_json_witness :
  skip_ws (body (mk_response 204 "Not Found" (String "010" "  x"))) = String "x" "" /\
  io_run (example_server 204 (String "010" "  x")) (@_http_request cpython_json "http://h:8080/v1.3/machine")
    = Err (JSONDecodeError "Expecting value: line 2 column 3 (char 3)") /\
  io_run (example_server 204 "not json") (@_http_request cpython_json "http://h:8080/v1.3/machine")
    = Err (JSONDecodeError "Expecting value: line 1 column 1 (char 0)").
Proof.
  split; [reflexivity|]. split.
  - rewrite (http_request_not_json _ _ (mk_response 204 "Not Found" (String "010" "  x")) "x" "");
      [vm_compute; reflexivity|reflexivity|cbn; lia|reflexivity|discriminate..|reflexivity|reflexivity].
  - rewrite (http_request_not_json _ _ (mk_response 204 "Not Found" "not json") "n" "ot json");
      [vm_compute; reflexivity|reflexivity|cbn; lia|reflexivity|discriminate..|reflexivity|reflexivity].
Defined.

(** C19: Bounds: [resp.json()] on a body holding an integer of more
    than 4300 digits raises [ValueError] (the [int()] digit limit of
    CPython 3.11 on), not [JSONDecodeError]. *)
Theorem resp_json_int_too_long (r : Response) (z : Z) :
  (INT_MAX_STR_VALUE <= Z.abs z)%Z -> body r = int_repr z ->
  @resp_json cpython_json r = Err (int_digits_error (String.length (z_dec (Z.abs z)))).
Proof.
  intros Hz Hb. cbn [resp_json json_loads cpython_json]. rewrite Hb.
  unfold json_decode, json_decode_fuel.
  rewrite skip_ws_value by apply int_repr_head.
  assert (Hs : scan_once 1 (int_repr z) = ScanErr (JExc (int_digits_error (String.length (z_dec (Z.abs z)))))).
  { rewrite <- (str_app_nil_r (int_repr z)), scan_once_int_repr, match_number_digits_z_dec by (done || lia).
    apply z_dec_long, Nat.ltb_lt in Hz. by rewrite Hz. }
  by rewrite (scan_once_json_fuel 1), Hs by (by rewrite Hs).
Qed.

Lemma resp_json_int_too_long_witness :
  (INT_MAX_STR_VALUE <= Z.abs (- INT_MAX_STR_VALUE))%Z /\
  @resp_json cpython_json (mk_response 200 "OK" (int_repr (- INT_MAX_STR_VALUE)))
    = Err (int_digits_error (String.length (z_dec (Z.abs (- INT_MAX_STR_VALUE))))).
Proof.
  split; [exact (INT_MAX_STR_VALUE_abs true)|].
  apply (resp_json_int_too_long _ (- INT_MAX_STR_VALUE)); [exact (INT_MAX_STR_VALUE_abs true)|reflexivity].
Defined.

(** C24: A repeated key in an object keeps its first position and its
    last value, as a Python [dict]: for a body printing an object's
    members in order (keys possibly repeated, values without floats,
    with distinct keys inside and integers of at most 4300 digits),
    [resp.json()] returns a dict whose keys are the members' keys, each
    once, in the order of their first occurrence, and which maps each key
    to the value of its last occurrence (the map built by inserting the
    members in order). *)
Theorem resp_json_last_value_wins (r : Response) (kvs : list (string * Json)) :
  forallb (fun kv => json_wf kv.2) kvs = true ->
  body r = "{" ++ String.concat ", " (map dumps_item kvs) ++ "}" ->
  exists d, @resp_json cpython_json r = Ok (JDict d) /\
    map fst d = reverse (remove_dups (reverse (map fst kvs))) /\
    (list_to_map d : gmap string Json) = list_to_map (reverse kvs).
Proof.
  intros Hwf Hb. exists (jdict_fold kvs []). split_and!; [|apply jdict_fold_keys|apply jdict_fold_map].
  cbn [resp_json json_loads cpython_json]. rewrite Hb.
  apply json_decode_scans; [rewrite str_app_cons; cbn; auto|].
  rewrite <-(str_app_nil_r "}"). apply object_scan; [|done].
  apply Forall_forall. intros kv _. apply json_dumps_scans.
Qed.

Lemma resp_json_last_value_wins_witness :
  forallb (fun kv => json_wf kv.2) [("a", JInt 1); ("b", JNull); ("a", JInt 2)] = true /\
  @resp_json cpython_json
    (mk_response 200 "OK" ("{" ++ String.concat ", " (map dumps_item [("a", JInt 1); ("b", JNull); ("a", JInt 2)]) ++ "}"))
    = Ok (JDict [("a", JInt 2); ("b", JNull)]) /\
  exists d, @resp_json cpython_json
    (mk_response 200 "OK" ("{" ++ String.concat ", " (map dumps_item [("a", JInt 1); ("b", JNull); ("a", JInt 2)]) ++ "}"))
    = Ok (JDict d) /\
    map fst d = reverse (remove_dups (reverse (map fst [("a", JInt 1); ("b", JNull); ("a", JInt 2)]))) /\
    (list_to_map d : gmap string Json) = list_to_map (reverse [("a", JInt 1); ("b", JNull); ("a", JInt 2)]).
Proof.
  split; [reflexivity|]. split; [vm_compute; reflexivity|].
  apply resp_json_last_value_wins; reflexivity.
Defined.
