(* ===== verification/Session.v ===== *)
(** * Scripts that use the client: constructions and calls in sequence

    A caller builds facades ([x = CadvisorClient(u, port, version)]) and
    calls their accessors ([x.<attr>.<method>(...)]) in a sequence of
    statements; the first exception stops the script, as in Python. The
    state is the heap of objects and the variables naming facades. The
    statements compose the components of the client: [__init__]
    (Client.v, with its class checks), attribute access, the sub-clients'
    [request] and the transport, against one server.

    The results: the heap invariant and the variables' typing hold after
    every script (an invariant of all interleavings of constructions and
    calls), and building another facade does not change what a call on an
    existing one does (non-interference). *)

From stdpp Require Import base strings list gmap.
From Stdlib Require Import String Ascii ZArith Lia.
From S2P Require Import Prelude PyRuntime PyFormat Config Transport SubClients Classes Client.

Local Open Scope string_scope.

Record session := mk_session {
  ses_heap : Heap;
  ses_vars : gmap string loc
}.

Inductive stmt : Type :=
| SNew (x : string) (endpoint_url : PyVal) (port version : option PyVal)
| SCall (x : string) (a : Attr) (m : Method).

Definition name_error (x : string) : PyExc := NameError ("name '" ++ x ++ "' is not defined").

Section Scripts.
Context `{JsonDecoder} (md : ModuleDefaults) (srv : server).

(** One statement: its outcome (a call's value), the URLs it requested
    and the session after it. A failed construction binds nothing. *)
Definition exec_stmt (st : session) (s : stmt) : PyRes (option Json) * list string * session :=
  match s with
  | SNew x u p v =>
      match CadvisorClient_init md (ses_heap st) u p v with
      | Ok (h', self) => (Ok None, [], mk_session h' (<[x := self]> (ses_vars st)))
      | Err e => (Err e, [], st)
      end
  | SCall x a m =>
      match ses_vars st !! x with
      | Some self =>
          let prog := call (ses_heap st) self a m in
          (Some <$$> io_run srv prog, io_trace srv prog, st)
      | None => (Err (name_error x), [], st)
      end
  end.

Fixpoint exec_script (st : session) (ss : list stmt) : PyRes (list (option Json)) * list string * session :=
  match ss with
  | [] => (Ok [], [], st)
  | s :: ss' =>
      let '(r, tr, st1) := exec_stmt st s in
      match r with
      | Err e => (Err e, tr, st1)
      | Ok o =>
          let '(rs, tr', st2) := exec_script st1 ss' in
          (cons o <$$> rs, (tr ++ tr')%list, st2)
      end
  end.

End Scripts.

(** The session invariant: a well-formed heap, and every variable names a
    facade. *)
Definition session_wf (st : session) : Prop :=
  wf_heap (ses_heap st) /\
  forall x l, ses_vars st !! x = Some l -> exists ep m s st', heap_objs (ses_heap st) !! l = Some (OCadvisorClient ep m s st').

Definition session_empty : session := mk_session heap_empty ∅.

(** ** Lemmas *)

(** Every object of [h] is in [h'], unchanged. *)
Definition heap_incl (h h' : Heap) : Prop :=
  forall l o, heap_objs h !! l = Some o -> heap_objs h' !! l = Some o.

Lemma CadvisorClient_init_incl md h u p v h' self :
  wf_heap h -> CadvisorClient_init md h u p v = Ok (h', self) ->
  heap_incl h h' /\ exists ep m s st, heap_objs h' !! self = Some (OCadvisorClient ep m s st).
Proof.
  intros (Hb & _) [-> (ep & _ & ->)]%CadvisorClient_init_Ok. split.
  - intros l o Hl. cbn. rewrite init_objs_old; [done|]. by eapply Hb.
  - pose proof (init_objs_new (heap_next h) ep (heap_objs h)) as (Hn & _). cbn. eauto.
Qed.

(** A call on a facade reads only the facade, its sub-client and the
    sub-client's back reference, which a larger heap keeps. *)
Lemma call_frame `{JsonDecoder} (h h' : Heap) (self : loc) ep m s st (a : Attr) (meth : Method) :
  wf_heap h -> heap_incl h h' -> heap_objs h !! self = Some (OCadvisorClient ep m s st) ->
  call h' self a meth = call h self a meth.
Proof.
  intros (_ & Hc & _) Hincl Hself.
  destruct (Hc _ _ _ _ _ Hself) as (Hm & Hs & Hst).
  unfold call, getattr. rewrite (Hincl _ _ Hself), Hself.
  assert (Hreq : forall path, CadvisorClient_request h' self path = CadvisorClient_request h self path).
  { intros path. unfold CadvisorClient_request. by rewrite (Hincl _ _ Hself), Hself. }
  unfold invoke. destruct a; [rewrite (Hincl _ _ Hm), Hm|rewrite (Hincl _ _ Hs), Hs|rewrite (Hincl _ _ Hst), Hst];
    (case_decide; [|done]); unfold base_request; (destruct (build_path _ _); [apply Hreq|done]).
Qed.

Lemma exec_stmt_wf `{JsonDecoder} md srv (st : session) (s : stmt) :
  session_wf st -> session_wf (exec_stmt md srv st s).2.
Proof.
  intros [Hwf Hv]. destruct s as [x u p v|x a m]; unfold exec_stmt.
  - destruct (CadvisorClient_init md (ses_heap st) u p v) as [[h' self]|e] eqn:E; cbn [snd]; [|by split].
    destruct (CadvisorClient_init_incl md (ses_heap st) u p v h' self Hwf E) as [Hincl Hself].
    split; [by eapply CadvisorClient_init_wf|].
    intros y l. cbn [ses_vars ses_heap]. rewrite lookup_insert_Some. intros [[<- <-]|[_ Hy]]; [done|].
    destruct (Hv _ _ Hy) as (ep & m & s & st' & Hl). exists ep, m, s, st'. by apply Hincl.
  - by destruct (ses_vars st !! x); split.
Qed.

Lemma session_empty_wf : session_wf session_empty.
Proof. split; [exact wf_heap_empty|]. intros x l. unfold session_empty. cbn [ses_vars]. by rewrite lookup_empty. Qed.

(** ** Properties *)

(** C25: Invariant of every script: whatever sequence of constructions
    and calls a caller runs, stopped or not by an exception, the heap stays
    well formed and every variable still names a facade. *)
Theorem exec_script_wf `{JsonDecoder} md srv (ss : list stmt) (st : session) :
  session_wf st -> session_wf (exec_script md srv st ss).2.
Proof.
  revert st. induction ss as [|s ss IH]; intros st Hst; cbn; [done|].
  pose proof (exec_stmt_wf md srv st s Hst) as Hst1.
  destruct (exec_stmt md srv st s) as [[r tr] st1]; cbn in Hst1.
  destruct r as [o|e]; [|done].
  specialize (IH st1 Hst1). destruct (exec_script md srv st1 ss) as [[rs tr'] st2]. exact IH.
Qed.

Definition example_script : list stmt :=
  [SNew "c" (VStr "http://h") None None; SCall "c" container_stats (get_container_stats (VStr "abc"));
   SNew "d" (VStr "http://g") (Some (VInt 4194)) None; SCall "d" machine get_machine_info].

Lemma exec_script_wf_witness :
  session_wf session_empty /\
  session_wf (@exec_script example_loads example_defaults (example_server 200 "1") session_empty example_script).2.
Proof.
  split; [exact session_empty_wf|]. apply exec_script_wf. exact session_empty_wf.
Defined.

(** C26: Non-interference: building another facade (bound to another
    name) does not change what a call on an existing facade does, neither
    its outcome nor the URLs it requests. *)
Theorem call_independent_of_new `{JsonDecoder} md srv (st : session) (x y : string)
    (u : PyVal) (p v : option PyVal) (a : Attr) (m : Method) :
  session_wf st -> x <> y ->
  (exec_stmt md srv (exec_stmt md srv st (SNew y u p v)).2 (SCall x a m)).1 =
  (exec_stmt md srv st (SCall x a m)).1.
Proof.
  intros [Hwf Hv] Hxy. unfold exec_stmt at 2.
  destruct (CadvisorClient_init md (ses_heap st) u p v) as [[h' self]|e] eqn:E; cbn [fst snd]; [|done].
  destruct (CadvisorClient_init_incl md (ses_heap st) u p v h' self Hwf E) as [Hincl _].
  unfold exec_stmt. cbn [ses_vars ses_heap]. rewrite lookup_insert_ne by done.
  destruct (ses_vars st !! x) as [l|] eqn:Hx; [|done].
  destruct (Hv _ _ Hx) as (ep & ms & ss & sts & Hl).
  by rewrite (call_frame _ _ _ ep ms ss sts a m Hwf Hincl Hl).
Qed.

Lemma call_independent_of_new_witness :
  let st := (@exec_stmt example_loads example_defaults (example_server 200 "1") session_empty
               (SNew "c" (VStr "http://h") None None)).2 in
  session_wf st /\ "c" <> "d" /\
  (@exec_stmt example_loads example_defaults (example_server 200 "1")
     (@exec_stmt example_loads example_defaults (example_server 200 "1") st (SNew "d" (VStr "http://g") None None)).2
     (SCall "c" machine get_machine_info)).1 =
  (@exec_stmt example_loads example_defaults (example_server 200 "1") st (SCall "c" machine get_machine_info)).1.
Proof.
  assert (Hst : session_wf (@exec_stmt example_loads example_defaults (example_server 200 "1") session_empty
                              (SNew "c" (VStr "http://h") None None)).2)
    by (apply exec_stmt_wf, session_empty_wf).
  split; [exact Hst|]. split; [discriminate|].
  apply call_independent_of_new; [exact Hst|discriminate].
Defined.
