(* ===== verification/IoStep.v ===== *)
(** * Small-step semantics of [io] programs on a network that may not
      answer: progress, determinism, adequacy, liveness and blocking

    Transport.v runs a program with [io_run] and lists its requests with
    [io_trace], against a [server] that answers every GET. Here a program
    runs step by step against a [network] that may never answer a URL
    ([None]): [requests.get(url)] (line 83) is called without a
    [timeout], so it waits for the answer, and the step that performs it
    exists only once the answer is there. A configuration is the program
    still to run and the URLs requested so far; it is final when the
    program has returned or raised, and blocked when it waits on a URL the
    network does not answer.

    The step relation is deterministic; a configuration is final, blocked,
    or steps. When the network answers every URL a program requests as a
    server [srv] would, the program reaches the final configuration that
    [io_run srv] and [io_trace srv] describe, after exactly as many steps as
    it makes requests; when it does not answer the URL a program waits on,
    the program never moves again, and never ends (no timeout). For the
    client's calls, at most one step is ever taken (one GET). *)

From stdpp Require Import base relations list strings.
From Stdlib Require Import String Lia.
From S2P Require Import Prelude PyRuntime Transport SubClients Client.

(** What the network answers to a GET of a URL, if it ever does. *)
Definition network : Type := string -> option http_outcome.

Section Steps.
Context {A : Type} (net : network).

(** A configuration: the program still to run and the URLs requested. *)
Definition config : Type := io A * list string.

(** [requests.get(url)] returns once the network has answered. *)
Inductive io_step : config -> config -> Prop :=
| step_get url (k : http_outcome -> io A) tr o :
    net url = Some o -> io_step (IoGet url k, tr) (k o, tr ++ [url]).

(** The outcome of a final configuration. *)
Definition io_final (p : io A) : option (PyRes A) :=
  match p with
  | IoRet a => Some (Ok a)
  | IoRaise e => Some (Err e)
  | IoGet _ _ => None
  end.

(** A program waiting on a URL the network never answers. *)
Definition io_blocked (p : io A) : Prop :=
  match p with IoGet url _ => net url = None | _ => False end.

(** [P] holds after finitely many steps (coqutil's [eventually], for a
    deterministic relation). *)
Inductive eventually (P : config -> Prop) : config -> Prop :=
| eventually_done c : P c -> eventually P c
| eventually_step c c' : io_step c c' -> eventually P c' -> eventually P c.

End Steps.

(** The configuration a program ends in against a server. *)
Definition io_end {A} (srv : server) (p : io A) (tr : list string) : config (A:=A) :=
  (io_of_res (io_run srv p), tr ++ io_trace srv p).

(** The network answers every URL of [urls] as [srv] does. *)
Definition answers (net : network) (srv : server) (urls : list string) : Prop :=
  Forall (fun url => net url = Some (srv url)) urls.

(** [srv] agrees with whatever the network answers. *)
Definition agrees (net : network) (srv : server) : Prop :=
  forall url o, net url = Some o -> srv url = o.

Arguments io_step {A} net _ _.
Arguments io_blocked {A} net _.
Arguments eventually {A} net P _.

#[export] Hint Constructors io_step eventually : cadv.

(** ** Lemmas *)

Lemma app_cons_assoc {B} (l1 l2 : list B) (x : B) : l1 ++ x :: l2 = (l1 ++ [x]) ++ l2.
Proof. by rewrite <-app_assoc. Qed.

(** A network that answers some URLs is agreed with by the server that
    answers the others with [d]. *)
Lemma agrees_default (net : network) (d : http_outcome) : agrees net (fun url => default d (net url)).
Proof. intros url o Hn. by rewrite Hn. Qed.

Section StepLemmas.
Context {A : Type} (net : network).

Lemma io_step_det (c c1 c2 : config (A:=A)) :
  io_step net c c1 -> io_step net c c2 -> c1 = c2.
Proof. intros [url k tr o Ho] Hs; inversion Hs; subst. congruence. Qed.

(** A final or blocked configuration does not step; any other one does. *)
Lemma io_final_stuck (p : io A) tr r c :
  io_final p = Some r -> ~ io_step net (p, tr) c.
Proof. intros Hf Hs. inversion Hs; subst. done. Qed.

Lemma io_blocked_stuck (p : io A) tr c :
  io_blocked net p -> ~ io_step net (p, tr) c.
Proof. intros Hb Hs. inversion Hs; subst. cbn in Hb. congruence. Qed.

Lemma io_final_of_res (r : PyRes A) : io_final (io_of_res r) = Some r.
Proof. by destruct r. Qed.

Lemma io_progress (p : io A) tr :
  io_final p = None -> io_blocked net p \/ exists c, io_step net (p, tr) c.
Proof.
  destruct p as [| |url k]; [done|done|]. intros _. cbn.
  destruct (net url) eqn:E; [right; eauto with cadv|by left].
Qed.

(** Against a network that answers every request as [srv], a program
    makes as many steps as it requests URLs, and ends where [io_run] and
    [io_trace] say. *)
Lemma io_nsteps_end (srv : server) (p : io A) tr :
  answers net srv (io_trace srv p) ->
  nsteps (io_step net) (List.length (io_trace srv p)) (p, tr) (io_end srv p tr).
Proof.
  unfold io_end, answers. revert tr. induction p as [a|e|url k IH]; intros tr; cbn.
  - rewrite app_nil_r. constructor.
  - rewrite app_nil_r. constructor.
  - intros [Hu Hrest]%Forall_cons. eapply nsteps_l; [by constructor|].
    rewrite (app_cons_assoc tr (io_trace srv _)). by apply IH.
Qed.

Lemma eventually_nsteps (P : config -> Prop) n (c c' : config (A:=A)) :
  nsteps (io_step net) n c c' -> P c' -> eventually net P c.
Proof. induction 1; eauto with cadv. Qed.

(** Every step sequence from [(p, tr)] is a prefix of the run of any
    server that agrees with the network: it has at most as many steps, and
    a final configuration it reaches is [io_end]. *)
Lemma io_nsteps_prefix (srv : server) (p : io A) tr n c :
  agrees net srv -> nsteps (io_step net) n (p, tr) c ->
  n <= List.length (io_trace srv p) /\ (forall r, io_final c.1 = Some r -> c = io_end srv p tr).
Proof.
  intros Hag. unfold io_end. revert tr n. induction p as [a|e|url k IH]; intros tr n Hn; cbn.
  - inversion Hn as [|? ? ? ? Hs]; subst; [|inversion Hs]. rewrite app_nil_r. split; [lia|done].
  - inversion Hn as [|? ? ? ? Hs]; subst; [|inversion Hs]. rewrite app_nil_r. split; [lia|done].
  - inversion Hn as [|n' ? c1 ? Hs Hrest]; subst; [split; [lia|done]|].
    inversion Hs as [? ? ? o Ho]; subst. rewrite <-(Hag _ _ Ho) in Hrest.
    destruct (IH _ _ _ Hrest) as [Hle Hend].
    rewrite (app_cons_assoc tr (io_trace srv _)). split; [lia|done].
Qed.

(** Adequacy: a final configuration reached by any number of steps has
    the outcome of [io_run] and the requests of [io_trace]. *)
Lemma io_rtc_final (srv : server) (p : io A) tr c r :
  agrees net srv -> rtc (io_step net) (p, tr) c -> io_final c.1 = Some r ->
  r = io_run srv p /\ c.2 = tr ++ io_trace srv p.
Proof.
  intros Hag [n Hn]%rtc_nsteps Hf. destruct (io_nsteps_prefix srv p tr n c Hag Hn) as [_ Hend].
  rewrite (Hend r Hf) in Hf |- *. cbn in *. rewrite io_final_of_res in Hf. by simplify_eq.
Qed.

(** Liveness: a program whose requests the network answers eventually
    ends, with the outcome of [io_run] and the requests of [io_trace]. *)
Lemma io_eventually_end (srv : server) (p : io A) tr :
  answers net srv (io_trace srv p) ->
  eventually net (fun c => io_final c.1 = Some (io_run srv p) /\ c.2 = tr ++ io_trace srv p) (p, tr).
Proof.
  intros Ha. eapply eventually_nsteps; [by apply io_nsteps_end|].
  split; [apply io_final_of_res|done].
Qed.

(** No timeout: a program waiting on a URL the network never answers
    stays where it is, and never ends. *)
Lemma io_blocked_forever (p : io A) tr c :
  io_blocked net p -> rtc (io_step net) (p, tr) c -> c = (p, tr) /\ io_final c.1 = None.
Proof.
  intros Hb Hr. inversion Hr as [|? c1 ? Hs]; subst.
  - split; [done|]. by destruct p.
  - by apply io_blocked_stuck in Hs.
Qed.

(** The program that requests [url] first waits on it. *)
Lemma io_trace_first (srv : server) (p : io A) (url : string) (urls : list string) :
  io_trace srv p = url :: urls -> exists k, p = IoGet url k.
Proof. destruct p as [| |u k]; cbn; [done|done|]. intros [= -> _]. eauto. Qed.

End StepLemmas.

(** A call of the facade requests at most one URL, on any heap. *)
Lemma call_gets `{JsonDecoder} (srv : server) h self a m :
  List.length (io_trace srv (call h self a m)) <= 1.
Proof.
  unfold call, invoke, base_request, CadvisorClient_request.
  destruct (getattr h self a) as [obj|]; [|cbn; lia].
  destruct (heap_objs h !! obj) as [[|k cl]|]; [cbn; lia| |cbn; lia].
  case_decide; [|cbn; lia]. destruct (build_path _ _) as [path|]; [|cbn; lia].
  destruct (heap_objs h !! cl) as [[ep ? ? ?|]|]; [|cbn; lia..].
  destruct (py_add_str ep path) as [url|]; [|cbn; lia].
  rewrite http_request_trace. cbn. lia.
Qed.

(** ** Properties *)


