(* ===== verification/Requests.v ===== *)
(** * [requests.get] before the network: the connection adapters

    [_http_request] (src/cadvisor_client.py:83) calls [requests.get(url)].
    Before any network access, requests prepares the URL and picks a
    connection adapter: [PreparedRequest.prepare_url] (requests/models.py)
    strips leading white space and keeps a URL that contains [:] and does
    not start with [http] (ignoring case) as it is, leaving it to
    [Session.get_adapter] (requests/sessions.py), which finds no adapter
    among the mounted [https://] and [http://] and raises
    [InvalidSchema(f"No connection adapters were found for {url!r}")].
    Every other URL goes on to [urllib3]'s parser and the network, which
    the [server] function stands for. Since the client writes
    [endpoint_url + ':' + port + ...], every URL it requests has a [:],
    so an [endpoint_url] without a scheme makes every call raise
    [InvalidSchema] whatever the network does. *)

From stdpp Require Import base strings list.
From Stdlib Require Import String Ascii.
From S2P Require Import Prelude PyRuntime Transport SubClients Client.

Local Open Scope string_scope.

(** [s.startswith(p)] *)
Definition starts_with (p s : string) : bool :=
  match strip_prefix p s with Some _ => true | None => false end.

(** [requests.get(url)] on the network [net]. *)
Definition requests_get (net : server) (url : string) : http_outcome :=
  let u := py_lstrip url in
  if contains_char ":"%char u && negb (starts_with "http" (py_lower u)) then
    HttpRaised (InvalidSchema ("No connection adapters were found for " ++ py_repr_str u))
  else net url.

(** ** Lemmas *)

Lemma py_lstrip_app (u w : string) (c : ascii) :
  py_isspace c = false -> py_lstrip (u ++ String c w) = py_lstrip u ++ String c w.
Proof.
  intros Hc. induction u as [|d u IH]; rewrite ?str_app_cons, ?str_app_nil_l; cbn.
  - by rewrite Hc.
  - destruct (py_isspace d); [done|]. by rewrite str_app_cons.
Qed.

Lemma py_lower_app (a b : string) : py_lower (a ++ b) = py_lower a ++ py_lower b.
Proof.
  induction a as [|c a IH]; rewrite ?str_app_cons, ?str_app_nil_l; [done|]. cbn.
  by rewrite IH, str_app_cons.
Qed.

(** A [:] after a text decides the [http] prefix: it is the text's. *)
Lemma starts_http_colon (x r : string) :
  starts_with "http" (x ++ String ":" r) = starts_with "http" x.
Proof.
  unfold starts_with.
  destruct x as [|c1 [|c2 [|c3 [|c4 x]]]]; rewrite ?str_app_cons, ?str_app_nil_l; cbn;
    repeat (case_decide; simplify_eq/=; try done).
Qed.

Lemma contains_colon (x r : string) : contains_char ":"%char (x ++ String ":" r) = true.
Proof. rewrite contains_char_app. cbn. rewrite bool_decide_true by done. by destruct (contains_char _ x). Qed.

(** A URL [u + ':' + r] whose [u] does not start with [http] has no
    connection adapter. *)
Lemma requests_get_no_scheme (net : server) (u r : string) :
  starts_with "http" (py_lower (py_lstrip u)) = false ->
  requests_get net (u ++ String ":" r) =
    HttpRaised (InvalidSchema ("No connection adapters were found for " ++
                               py_repr_str (py_lstrip u ++ String ":" r))).
Proof.
  intros Hu. unfold requests_get. rewrite py_lstrip_app by reflexivity.
  rewrite contains_colon, py_lower_app. cbn [py_lower py_lower_char].
  by rewrite starts_http_colon, Hu.
Qed.

Lemma requests_get_http (net : server) (url : string) :
  starts_with "http" (py_lower (py_lstrip url)) = true -> requests_get net url = net url.
Proof. intros Hu. unfold requests_get. rewrite Hu. by destruct (contains_char _ _). Qed.

(** ** Properties *)

(** C28: An [endpoint_url] without a scheme: for a facade built from
    strings whose [endpoint_url] does not start with [http] (after leading
    white space, ignoring case), every call whose path is built raises
    [requests]' [InvalidSchema] naming the whole URL, whatever the network
    would answer: no request leaves the process. *)
Theorem call_no_scheme `{JsonDecoder} (net : server) md h (u p v : string) h' self (meth : Method) (path : string) :
  wf_heap h ->
  CadvisorClient_init md h (VStr u) (Some (VStr p)) (Some (VStr v)) = Ok (h', self) ->
  starts_with "http" (py_lower (py_lstrip u)) = false ->
  build_path (method_class meth) (method_arg meth) = Ok (VStr path) ->
  io_run (requests_get net) (call h' self (attr_of meth) meth) =
    Err (InvalidSchema ("No connection adapters were found for " ++
                        py_repr_str (py_lstrip u ++ ":" ++ p ++ "/" ++ v ++ path))).
Proof.
  intros Hwf Hinit Hu Hp.
  destruct (CadvisorClient_init_facade md h _ _ _ h' self Hwf Hinit) as [Hwf' (ep & ms & ss & sts & Hep & Hself)].
  cbv [default from_option id] in Hep. rewrite format_endpoint_str in Hep. injection Hep as <-.
  rewrite (call_path h' self _ ms ss sts meth path Hwf' Hself Hp), http_request_run.
  rewrite !str_app_assoc, (str_app_cons ":"%char "" (p ++ _)), str_app_nil_l.
  by rewrite requests_get_no_scheme.
Qed.

Lemma call_no_scheme_witness :
  wf_heap heap_empty /\
  CadvisorClient_init example_defaults heap_empty (VStr "localhost") (Some (VStr "8080")) (Some (VStr "v1.3")) =
    Ok (mk_heap (init_objs 1 "localhost:8080/v1.3" ∅) 5, 1%positive) /\
  starts_with "http" (py_lower (py_lstrip "localhost")) = false /\
  build_path (method_class get_machine_info) (method_arg get_machine_info) = Ok (VStr "/machine") /\
  io_run (requests_get (example_server 200 "1"))
    (@call example_loads (mk_heap (init_objs 1 "localhost:8080/v1.3" ∅) 5) 1 (attr_of get_machine_info) get_machine_info) =
    Err (InvalidSchema ("No connection adapters were found for " ++
                        py_repr_str (py_lstrip "localhost" ++ ":" ++ "8080" ++ "/" ++ "v1.3" ++ "/machine"))).
Proof.
  split; [exact wf_heap_empty|]. split; [vm_compute; reflexivity|].
  split; [vm_compute; reflexivity|]. split; [vm_compute; reflexivity|].
  apply (call_no_scheme _ example_defaults heap_empty); [exact wf_heap_empty|vm_compute; reflexivity..].
Defined.
