(* ===== verification/Module.v ===== *)
(** * Importing the module: the module body (lines 1-95) and the import
      system

    Importing src/cadvisor_client.py runs its top level in order: the
    imports of lines 1-6, [LOG = logging.getLogger(__name__)] (line 9),
    [OPTS] and [CONF.register_opts(OPTS)] (11-21), the class statements
    (24-91), whose only effect that can fail is the evaluation of
    [__init__]'s default parameters [cfg.CONF.cAdvisor_port] and
    [cfg.CONF.cAdvisor_version] (73-74), and [if __name__ == '__main__':
    pass] (94-95), which does nothing.

    The state is the interpreter's: the modules its finders can import
    (with their [__file__]), [sys.modules], [oslo_config.cfg.CONF] (created
    by the body of [oslo_config.cfg] when it is first imported) and
    [oslo_log.log]'s cache of loggers. An exception stops the body; what
    ran before it stays done ([sys.modules] entries, options registered,
    loggers), as in Python. The library modules' own bodies are
    not modelled beyond their effect on this state: an installed module
    imports. *)

From stdpp Require Import base strings list gmap.
From Stdlib Require Import String.
From S2P Require Import Prelude PyRuntime Config Transport SubClients Client.

Local Open Scope string_scope.

(** ** The module's statements *)

(** An import statement: [import m] or [from pkg import name as asname]. *)
Inductive ImportStmt : Type :=
| Import (m : string)
| ImportFrom (pkg name asname : string).

(** Lines 1-6. *)
Definition module_imports : list ImportStmt :=
  [Import "abc"; Import "requests"; Import "six";
   ImportFrom "oslo_config" "cfg" "cfg"; ImportFrom "oslo_log" "log" "logging"].

(** oslo_log's logger: [KeywordArgumentAdapter(logging.getLogger(name),
    {'project': project, 'version': version})]. *)
Record Logger := mk_logger {
  lg_name : string;
  lg_project : string;
  lg_version : string
}.

(** The module's globals that carry state: [LOG] (line 9), [OPTS]
    (11-18) and the defaults [def __init__] captured (73-74). [CONF] is
    the library's object, held by the interpreter. *)
Record Globals := mk_globals {
  g_LOG : Logger;
  g_OPTS : list StrOpt;
  g_defaults : ModuleDefaults
}.

(** An entry of [sys.modules]: a library module, or this module with its
    globals. *)
Inductive ModObj : Type :=
| MLib
| MClient (g : Globals).

Record Interp := mk_interp {
  it_installed : gmap string string;   (** importable modules, with their [__file__] *)
  it_modules : gmap string ModObj;     (** [sys.modules] *)
  it_conf : ConfigOpts;                (** [oslo_config.cfg.CONF] *)
  it_loggers : gmap string Logger      (** [oslo_log.log._loggers] *)
}.

Definition set_modules (it : Interp) (ms : gmap string ModObj) : Interp :=
  mk_interp (it_installed it) ms (it_conf it) (it_loggers it).
Definition set_conf (it : Interp) (c : ConfigOpts) : Interp :=
  mk_interp (it_installed it) (it_modules it) c (it_loggers it).
Definition set_loggers (it : Interp) (ls : gmap string Logger) : Interp :=
  mk_interp (it_installed it) (it_modules it) (it_conf it) ls.

(** ** The import system (importlib._bootstrap) *)

(** Running an installed library module's body: it enters
    [sys.modules]; [oslo_config/cfg.py] creates [CONF = ConfigOpts()]. *)
Definition load_lib (it : Interp) (m : string) : Interp :=
  let it' := set_modules it (<[m := MLib]> (it_modules it)) in
  if decide (m = "oslo_config.cfg") then set_conf it' conf_empty else it'.

(** [_find_and_load]: a module already in [sys.modules] is not run again. *)
Definition find_and_load (it : Interp) (m : string) : Interp * PyRes unit :=
  match it_modules it !! m with
  | Some _ => (it, Ok tt)
  | None =>
      match it_installed it !! m with
      | Some _ => (load_lib it m, Ok tt)
      | None => (it, Err (ModuleNotFoundError ("No module named " ++ py_repr_str m)))
      end
  end.

(** [IMPORT_FROM]'s error when [pkg] has no attribute [name]
    (Python/ceval.c, [import_from]). *)
Definition import_from_error (pkg name file : string) : PyExc :=
  ImportError ("cannot import name " ++ py_repr_str name ++ " from " ++ py_repr_str pkg ++ " (" ++
               (if decide (file = "") then "unknown location" else file) ++ ")").

(** One import statement. [from pkg import name] imports [pkg], then
    [_handle_fromlist] imports the submodule [pkg.name], whose
    [ModuleNotFoundError] it swallows, so that the missing attribute is
    reported by [IMPORT_FROM]. *)
Definition exec_import (it : Interp) (s : ImportStmt) : Interp * PyRes unit :=
  match s with
  | Import m => find_and_load it m
  | ImportFrom pkg name _ =>
      match find_and_load it pkg with
      | (it1, Err e) => (it1, Err e)
      | (it1, Ok _) =>
          match find_and_load it1 (pkg ++ "." ++ name) with
          | (it2, Ok _) => (it2, Ok tt)
          | (it2, Err _) => (it2, Err (import_from_error pkg name (default "" (it_installed it2 !! pkg))))
          end
      end
  end.

Fixpoint exec_imports (it : Interp) (ss : list ImportStmt) : Interp * PyRes unit :=
  match ss with
  | [] => (it, Ok tt)
  | s :: ss' =>
      match exec_import it s with
      | (it1, Ok _) => exec_imports it1 ss'
      | (it1, Err e) => (it1, Err e)
      end
  end.

(** [oslo_log.log.getLogger(name)], with its defaults [project='unknown']
    and [version='unknown']: a name [oslo_x] is renamed [oslo.x], and the
    adapter is cached per name. *)
Definition logger_name (name : string) : string :=
  match strip_prefix "oslo_" name with Some r => "oslo." ++ r | None => name end.

Definition get_logger (it : Interp) (name : string) : Interp * Logger :=
  let name := logger_name name in
  match it_loggers it !! name with
  | Some lg => (it, lg)
  | None =>
      let lg := mk_logger name "unknown" "unknown" in
      (set_loggers it (<[name := lg]> (it_loggers it)), lg)
  end.

(** ** The module body *)

(** The top level of src/cadvisor_client.py run with [__name__ = name]. *)
Definition exec_module (it : Interp) (name : string) : Interp * PyRes Globals :=
  match exec_imports it module_imports with
  | (it1, Err e) => (it1, Err e)
  | (it1, Ok _) =>
      let '(it2, log) := get_logger it1 name in
      let '(c, r) := register_opts_st (it_conf it2) OPTS in
      let it3 := set_conf it2 c in
      match r with
      | Err e => (it3, Err e)
      | Ok _ =>
          (* The class statements; the [def] of [__init__] evaluates its defaults. *)
          match conf_get c "cAdvisor_port", conf_get c "cAdvisor_version" with
          | Ok port, Ok version =>
              (* [if __name__ == '__main__': pass] *)
              (it3, Ok (mk_globals log OPTS (mk_defaults (VStr port) (VStr version))))
          | Err e, _ | _, Err e => (it3, Err e)
          end
      end
  end.

(** [import name]: the module's entry in [sys.modules], or its body run
    and its module object entered there. A failed import leaves no entry. *)
Definition import_client (it : Interp) (name : string) : Interp * PyRes Globals :=
  match it_modules it !! name with
  | Some (MClient g) => (it, Ok g)
  | Some MLib => (it, Err (NotModelled "another module under the same name"))
  | None =>
      match exec_module it name with
      | (it', Ok g) => (set_modules it' (<[name := MClient g]> (it_modules it')), Ok g)
      | (it', Err e) => (it', Err e)
      end
  end.

(** ** A process that uses the module *)

(** [cfg.CONF.set_override(name, value)] (oslo.config): the option must
    be registered, or [NoSuchOptError] is raised. *)
Definition set_override (it : Interp) (name value : string) : PyRes Interp :=
  match conf_opts (it_conf it) !! name with
  | Some _ => Ok (set_conf it (conf_set (it_conf it) name value))
  | None => Err (NoSuchOptError name)
  end.

(** [name.CadvisorClient(u)]: the class of the module object in
    [sys.modules], whose [__init__] has the defaults its [def] (lines
    73-74) evaluated when the module body ran. *)
Definition new_client (it : Interp) (name : string) (h : Heap) (u : PyVal) : PyRes (Heap * loc) :=
  match it_modules it !! name with
  | Some (MClient g) => CadvisorClient_init (g_defaults g) h u None None
  | Some MLib => Err (NotModelled "another module under the same name")
  | None => Err (NameError ("name '" ++ name ++ "' is not defined"))
  end.

(** ** Lemmas *)

(** A module the import system can provide: already in [sys.modules], or
    installed. *)
Definition available (it : Interp) (m : string) : Prop :=
  is_Some (it_modules it !! m) \/ is_Some (it_installed it !! m).

(** The modules an import statement loads. *)
Definition import_names (s : ImportStmt) : list string :=
  match s with
  | Import m => [m]
  | ImportFrom pkg name _ => [pkg; pkg ++ "." ++ name]
  end.

Definition module_deps : list string := List.concat (map import_names module_imports).

Lemma module_deps_eq :
  module_deps = ["abc"; "requests"; "six"; "oslo_config"; "oslo_config.cfg"; "oslo_log"; "oslo_log.log"].
Proof. reflexivity. Qed.

(** The [CONF] the module body will see: the existing one once
    [oslo_config.cfg] is imported, a fresh one otherwise. *)
Definition cfg_conf (it : Interp) : ConfigOpts :=
  if decide (is_Some (it_modules it !! "oslo_config.cfg")) then it_conf it else conf_empty.

(** What an import step preserves. *)
Definition import_inv (it it' : Interp) : Prop :=
  it_installed it' = it_installed it /\
  (forall x, available it' x <-> available it x) /\
  (forall x, is_Some (it_modules it !! x) -> is_Some (it_modules it' !! x)) /\
  cfg_conf it' = cfg_conf it /\
  it_loggers it' = it_loggers it.

Lemma import_inv_refl it : import_inv it it.
Proof. repeat split; auto. Qed.

Lemma import_inv_trans it1 it2 it3 : import_inv it1 it2 -> import_inv it2 it3 -> import_inv it1 it3.
Proof.
  intros (Hi1 & Ha1 & Hm1 & Hc1 & Hl1) (Hi2 & Ha2 & Hm2 & Hc2 & Hl2).
  repeat split; try congruence; [intros Hx; by apply Ha1, Ha2|intros Hx; by apply Ha2, Ha1|auto].
Qed.

Lemma find_and_load_inv it m : import_inv it (find_and_load it m).1.
Proof.
  unfold find_and_load. destruct (it_modules it !! m) as [o|] eqn:Hm; [apply import_inv_refl|].
  destruct (it_installed it !! m) as [f|] eqn:Hi; [|apply import_inv_refl]. cbn.
  unfold load_lib. destruct (decide (m = "oslo_config.cfg")) as [->|Hne]; cbn;
    (split; [done|split; [|split; [|split]]]); cbn; try done; unfold available, cfg_conf; cbn.
  - intros x. rewrite lookup_insert_is_Some'. naive_solver.
  - intros x ?. rewrite lookup_insert_is_Some'. by right.
  - rewrite lookup_insert_eq, Hm. by rewrite decide_True, decide_False by (by intros [? ?] || eauto).
  - intros x. rewrite lookup_insert_is_Some'. naive_solver.
  - intros x ?. rewrite lookup_insert_is_Some'. by right.
  - by rewrite lookup_insert_ne by done.
Qed.

Lemma find_and_load_ok it m : (find_and_load it m).2 = Ok tt <-> available it m.
Proof.
  unfold find_and_load, available. destruct (it_modules it !! m); [naive_solver|].
  destruct (it_installed it !! m); cbn; split; naive_solver.
Qed.

Lemma find_and_load_loaded it m :
  (find_and_load it m).2 = Ok tt -> is_Some (it_modules (find_and_load it m).1 !! m).
Proof.
  unfold find_and_load. destruct (it_modules it !! m) eqn:Hm; [cbn; by rewrite Hm|].
  destruct (it_installed it !! m); [|done]. intros _. unfold load_lib. case_decide; cbn; by rewrite lookup_insert_eq.
Qed.

Lemma exec_import_inv it s : import_inv it (exec_import it s).1.
Proof.
  destruct s as [m|pkg name asn]; [apply find_and_load_inv|]. cbn.
  pose proof (find_and_load_inv it pkg) as Hi1.
  destruct (find_and_load it pkg) as [it1 [[]|e]]; [|done].
  pose proof (find_and_load_inv it1 (pkg ++ "." ++ name)) as Hi2.
  destruct (find_and_load it1 _) as [it2 [[]|e']]; cbn in *; by eapply import_inv_trans.
Qed.

Lemma exec_import_ok it s : (exec_import it s).2 = Ok tt <-> Forall (available it) (import_names s).
Proof.
  destruct s as [m|pkg name asn]; cbn [exec_import import_names].
  { rewrite Forall_singleton. apply find_and_load_ok. }
  pose proof (find_and_load_ok it pkg) as Hp. pose proof (find_and_load_inv it pkg) as (_ & Ha & _).
  destruct (find_and_load it pkg) as [it1 [[]|e]]; cbn in *; rewrite Forall_cons, Forall_singleton.
  - pose proof (find_and_load_ok it1 (pkg ++ "." ++ name)) as Hs.
    destruct (find_and_load it1 _) as [it2 [[]|e']]; cbn in *; rewrite <-Ha; naive_solver.
  - naive_solver.
Qed.

Lemma exec_import_loaded it s :
  (exec_import it s).2 = Ok tt -> Forall (fun x => is_Some (it_modules (exec_import it s).1 !! x)) (import_names s).
Proof.
  destruct s as [m|pkg name asn]; cbn [exec_import import_names].
  { rewrite Forall_singleton. apply find_and_load_loaded. }
  pose proof (find_and_load_loaded it pkg) as Hp.
  destruct (find_and_load it pkg) as [it1 [[]|e]]; cbn in *; [|done].
  pose proof (find_and_load_loaded it1 (pkg ++ "." ++ name)) as Hs.
  pose proof (find_and_load_inv it1 (pkg ++ "." ++ name)) as (_ & _ & Hm & _).
  destruct (find_and_load it1 _) as [it2 [[]|e']]; cbn in *; [|done].
  intros _. rewrite Forall_cons, Forall_singleton. auto.
Qed.

Lemma exec_imports_inv it ss : import_inv it (exec_imports it ss).1.
Proof.
  revert it; induction ss as [|s ss IH]; intros it; cbn; [apply import_inv_refl|].
  pose proof (exec_import_inv it s) as Hi.
  destruct (exec_import it s) as [it1 [[]|e]]; [|done]. by eapply import_inv_trans.
Qed.

Lemma exec_imports_ok it ss :
  (exec_imports it ss).2 = Ok tt <-> Forall (available it) (List.concat (map import_names ss)).
Proof.
  revert it; induction ss as [|s ss IH]; intros it; cbn; [split; auto|].
  rewrite Forall_app. pose proof (exec_import_ok it s) as Hok. pose proof (exec_import_inv it s) as (_ & Ha & _).
  destruct (exec_import it s) as [it1 [[]|e]]; cbn in *.
  - rewrite IH, (Forall_iff _ _ _ Ha). naive_solver.
  - naive_solver.
Qed.

Lemma exec_imports_loaded it ss :
  (exec_imports it ss).2 = Ok tt ->
  Forall (fun x => is_Some (it_modules (exec_imports it ss).1 !! x)) (List.concat (map import_names ss)).
Proof.
  revert it; induction ss as [|s ss IH]; intros it; cbn; [auto|].
  pose proof (exec_import_loaded it s) as Hl.
  destruct (exec_import it s) as [it1 [[]|e]]; cbn in *; [|done].
  intros Hok. rewrite Forall_app. split; [|by apply IH].
  pose proof (exec_imports_inv it1 ss) as (_ & _ & Hm & _).
  eapply Forall_impl; [by apply Hl|]. eauto.
Qed.

(** After lines 1-6, [CONF] is the one [cfg_conf] predicts. *)
Lemma exec_imports_conf it it1 :
  exec_imports it module_imports = (it1, Ok tt) -> it_conf it1 = cfg_conf it.
Proof.
  intros E. pose proof (exec_imports_loaded it module_imports) as Hl.
  pose proof (exec_imports_inv it module_imports) as (_ & _ & _ & Hc & _).
  rewrite E in Hl, Hc. cbn in *. specialize (Hl eq_refl).
  rewrite <-Hc. unfold cfg_conf. rewrite decide_True; [done|].
  rewrite Forall_forall in Hl. apply Hl. set_solver.
Qed.

Lemma get_logger_fields it n :
  it_installed (get_logger it n).1 = it_installed it /\ it_modules (get_logger it n).1 = it_modules it /\
  it_conf (get_logger it n).1 = it_conf it /\
  it_loggers (get_logger it n).1 !! logger_name n = Some (get_logger it n).2.
Proof.
  unfold get_logger. destruct (it_loggers it !! logger_name n) eqn:E; cbn; [done|].
  by rewrite lookup_insert_eq.
Qed.

Lemma OPTS_NoDup : NoDup (map opt_name OPTS).
Proof. cbn. apply NoDup_cons. split; [set_solver|apply NoDup_singleton]. Qed.

(** The defaults [def __init__] reads from [CONF] after line 21. *)
Definition conf_defaults (c : ConfigOpts) : ModuleDefaults :=
  mk_defaults (VStr (default "8080" (conf_values c !! "cAdvisor_port")))
              (VStr (default "v1.3" (conf_values c !! "cAdvisor_version"))).

(** The module body once its imports succeeded. *)
Lemma exec_module_eq it name it1 :
  exec_imports it module_imports = (it1, Ok tt) ->
  exec_module it name =
    match register_opts (cfg_conf it) OPTS with
    | Ok c => (set_conf (get_logger it1 name).1 c,
               Ok (mk_globals (get_logger it1 name).2 OPTS (conf_defaults (cfg_conf it))))
    | Err e => (set_conf (get_logger it1 name).1 (register_opts_st (cfg_conf it) OPTS).1, Err e)
    end.
Proof.
  intros E. unfold exec_module. rewrite E.
  destruct (get_logger_fields it1 name) as (_ & _ & Hc & _).
  destruct (get_logger it1 name) as [it2 lg]; cbn [fst snd] in Hc |- *. rewrite Hc, (exec_imports_conf _ _ E).
  destruct (register_opts_st (cfg_conf it) OPTS) as [c [[]|e]] eqn:ER.
  - apply register_opts_st_Ok in ER as ER'. rewrite ER'. by destruct (OPTS_conf_get _ _ ER') as [-> ->].
  - assert (register_opts (cfg_conf it) OPTS = Err e) as -> by (apply register_opts_st_Err; by rewrite ER).
    done.
Qed.

(** The body runs to its end exactly when its dependencies can be
    imported and [CONF] accepts [OPTS]. *)
Lemma exec_module_ok it name :
  (exists g, (exec_module it name).2 = Ok g) <->
  Forall (available it) module_deps /\ Forall (opt_compatible (cfg_conf it)) OPTS.
Proof.
  rewrite <-(register_opts_ok _ _ OPTS_NoDup).
  pose proof (exec_imports_ok it module_imports) as Hok. fold module_deps in Hok.
  destruct (exec_imports it module_imports) as [it1 [[]|e]] eqn:E.
  - rewrite (exec_module_eq _ _ _ E). destruct (register_opts (cfg_conf it) OPTS) eqn:ER; cbn in *; naive_solver.
  - unfold exec_module. rewrite E. cbn in *. naive_solver.
Qed.

Lemma exec_module_Ok_inv it name it' g :
  exec_module it name = (it', Ok g) ->
  Forall (fun x => is_Some (it_modules it' !! x)) module_deps /\
  register_opts (cfg_conf it) OPTS = Ok (it_conf it') /\
  g = mk_globals (g_LOG g) OPTS (conf_defaults (cfg_conf it)) /\
  it_loggers it' !! logger_name name = Some (g_LOG g).
Proof.
  pose proof (exec_imports_loaded it module_imports) as Hl.
  destruct (exec_imports it module_imports) as [it1 [[]|e]] eqn:E; [|unfold exec_module; by rewrite E].
  rewrite (exec_module_eq _ _ _ E). destruct (register_opts (cfg_conf it) OPTS) as [c|e] eqn:ER; [|done].
  intros [= <- <-]. destruct (get_logger_fields it1 name) as (_ & Hm & _ & Hlg). cbn.
  rewrite Hm. split; [by apply Hl|done].
Qed.

(** Importing the module in a process where [oslo_config.cfg] is not yet
    imported: the module enters [sys.modules], [CONF] holds [OPTS] and
    no value, and [__init__]'s defaults are [8080] and [v1.3]. *)
Lemma import_fresh it name it' g :
  it_modules it !! "oslo_config.cfg" = None -> it_modules it !! name = None ->
  import_client it name = (it', Ok g) ->
  it_modules it' !! name = Some (MClient g) /\ register_opts conf_empty OPTS = Ok (it_conf it') /\
  g_defaults g = mk_defaults (VStr "8080") (VStr "v1.3").
Proof.
  intros Hcfg Hn Himp. unfold import_client in Himp. rewrite Hn in Himp.
  destruct (exec_module it name) as [it0 [g0|e]] eqn:E; [|done]. injection Himp as <- <-.
  destruct (exec_module_Ok_inv _ _ _ _ E) as (_ & Hreg & Hg & _).
  assert (Hc : cfg_conf it = conf_empty).
  { unfold cfg_conf. rewrite decide_False by (rewrite Hcfg; by intros [? ?]). done. }
  rewrite Hc in Hreg, Hg. cbn. split_and!; [by rewrite lookup_insert_eq|done|by rewrite Hg].
Qed.

(** A facade with the defaults [8080] and [v1.3] requests
    [u:8080/v1.3/machine] and [u:8080/v1.3/stats/<cid>]. *)
Lemma init_default_urls `{JsonDecoder} (srv : server) h (u cid : string) h' self :
  wf_heap h -> CadvisorClient_init (mk_defaults (VStr "8080") (VStr "v1.3")) h (VStr u) None None = Ok (h', self) ->
  io_trace srv (call h' self machine get_machine_info) = [u ++ ":8080/v1.3/machine"] /\
  io_trace srv (call h' self container_stats (get_container_stats (VStr cid))) = [u ++ ":8080/v1.3/stats/" ++ cid].
Proof.
  intros Hwf Hinit.
  destruct (CadvisorClient_init_facade _ h _ _ _ h' self Hwf Hinit) as [Hwf' (ep & ms & ss & sts & Hep & Hself)].
  cbv [default from_option id] in Hep. cbn [default_port default_version] in Hep.
  rewrite format_endpoint_str in Hep. injection Hep as <-.
  rewrite (call_path h' self _ ms ss sts get_machine_info "/machine" Hwf' Hself) by reflexivity.
  rewrite (call_path h' self _ ms ss sts (get_container_stats (VStr cid)) ("/stats/" ++ cid) Hwf' Hself)
    by (apply build_path_str; discriminate).
  rewrite !http_request_trace. by rewrite !str_app_assoc.
Qed.

(** ** Properties *)

(** C29: Importing the module (not yet in [sys.modules]) succeeds exactly
    when the seven modules of lines 1-6 can be imported and
    [oslo_config]'s [CONF] (a fresh one if [oslo_config.cfg] is not yet
    imported) accepts [OPTS]: each option's name is free or bound to an
    equal option. Otherwise the import raises, and nothing else can make
    it fail. *)
Theorem import_client_ok it name :
  it_modules it !! name = None ->
  (exists g, (import_client it name).2 = Ok g) <->
  Forall (available it) ["abc"; "requests"; "six"; "oslo_config"; "oslo_config.cfg"; "oslo_log"; "oslo_log.log"] /\
  Forall (opt_compatible (cfg_conf it)) OPTS.
Proof.
  intros Hn. rewrite <-module_deps_eq, <-(exec_module_ok it name). unfold import_client. rewrite Hn.
  destruct (exec_module it name) as [it' [g|e]]; cbn; split; intros [g0 Hg]; eauto.
Qed.

(** A process where the dependencies are installed and nothing is
    imported yet. *)
Definition example_interp : Interp :=
  mk_interp (list_to_map [("abc", "/usr/lib/python3/abc.py"); ("requests", "/usr/lib/python3/requests/__init__.py");
                          ("six", "/usr/lib/python3/six.py"); ("oslo_config", "/usr/lib/python3/oslo_config/__init__.py");
                          ("oslo_config.cfg", "/usr/lib/python3/oslo_config/cfg.py");
                          ("oslo_log", "/usr/lib/python3/oslo_log/__init__.py");
                          ("oslo_log.log", "/usr/lib/python3/oslo_log/log.py")])
            ∅ conf_empty ∅.

Lemma import_client_ok_witness :
  it_modules example_interp !! "cadvisor_client" = None /\
  exists g, (import_client example_interp "cadvisor_client").2 = Ok g.
Proof.
  split; [reflexivity|]. apply (import_client_ok example_interp "cadvisor_client"); [reflexivity|]. split.
  - repeat (apply List.Forall_cons; [right; vm_compute; eexists; reflexivity|]). apply List.Forall_nil.
  - repeat (apply List.Forall_cons; [left; reflexivity|]). apply List.Forall_nil.
Defined.

(** C30: The module as deployed, end to end: in a process where
    [oslo_config.cfg] is not yet imported, importing the module, building
    [CadvisorClient(u)] with the default [port] and [version], and calling
    [client.machine.get_machine_info()] or
    [client.container_stats.get_container_stats(cid)] requests exactly
    [u + ':8080/v1.3/machine'] or [u + ':8080/v1.3/stats/' + cid], once. *)
Theorem import_then_request `{JsonDecoder} it name it' g h (u cid : string) h' self (srv : server) :
  it_modules it !! "oslo_config.cfg" = None -> it_modules it !! name = None ->
  import_client it name = (it', Ok g) ->
  wf_heap h -> CadvisorClient_init (g_defaults g) h (VStr u) None None = Ok (h', self) ->
  io_trace srv (call h' self machine get_machine_info) = [u ++ ":8080/v1.3/machine"] /\
  io_trace srv (call h' self container_stats (get_container_stats (VStr cid))) = [u ++ ":8080/v1.3/stats/" ++ cid].
Proof.
  intros Hcfg Hn Himp Hwf Hinit. destruct (import_fresh _ _ _ _ Hcfg Hn Himp) as (_ & _ & Hd).
  rewrite Hd in Hinit. by apply (init_default_urls srv h).
Qed.

Lemma import_then_request_witness :
  exists it' g, @import_client example_interp "cadvisor_client" = (it', Ok g) /\
  exists h' self, CadvisorClient_init (g_defaults g) heap_empty (VStr "http://h") None None = Ok (h', self) /\
  io_trace (example_server 200 "1") (@call example_loads h' self machine get_machine_info) = ["http://h" ++ ":8080/v1.3/machine"] /\
  io_trace (example_server 200 "1") (@call example_loads h' self container_stats (get_container_stats (VStr "abc"))) =
    ["http://h" ++ ":8080/v1.3/stats/" ++ "abc"].
Proof.
  destruct (import_client example_interp "cadvisor_client") as [it' [g|e]] eqn:E; [|vm_compute in E; discriminate].
  exists it', g. split; [reflexivity|].
  destruct (CadvisorClient_init (g_defaults g) heap_empty (VStr "http://h") None None) as [[h' self]|e] eqn:Ei;
    [|vm_compute in E; injection E as _ <-; vm_compute in Ei; discriminate].
  exists h', self. split; [reflexivity|].
  exact (@import_then_request example_loads example_interp "cadvisor_client" it' g heap_empty "http://h" "abc" h' self
           (example_server 200 "1") eq_refl eq_refl E wf_heap_empty Ei).
Defined.

(** C11: The defaults of [port] and [version] are those of import time,
    not of construction time (spec section 6 says construction): in a
    process where [oslo_config.cfg] is not yet imported, after
    [import name], [CONF.set_override('cAdvisor_port', p)] succeeds for
    every [p] and [CONF] then holds [p], yet [name.CadvisorClient(u)],
    built in that process on any well-formed heap, succeeds and requests
    [u:8080/v1.3/machine], the value [def __init__] read at import. *)
Theorem init_defaults_import_time `{JsonDecoder} it name it1 g (p u : string) (srv : server) :
  it_modules it !! "oslo_config.cfg" = None -> it_modules it !! name = None ->
  import_client it name = (it1, Ok g) ->
  exists it2, set_override it1 "cAdvisor_port" p = Ok it2 /\
    conf_get (it_conf it2) "cAdvisor_port" = Ok p /\
    forall h, wf_heap h -> exists h' self,
      new_client it2 name h (VStr u) = Ok (h', self) /\
      io_trace srv (call h' self machine get_machine_info) = [u ++ ":8080/v1.3/machine"].
Proof.
  intros Hcfg Hn Himp. destruct (import_fresh _ _ _ _ Hcfg Hn Himp) as (Hm & Hreg & Hd).
  pose proof (register_opts_registered _ _ _ _ Hreg (list_elem_of_here _ _)) as Ho. cbn [opt_name] in Ho.
  exists (set_conf it1 (conf_set (it_conf it1) "cAdvisor_port" p)).
  split; [unfold set_override; by rewrite Ho|].
  split; [unfold conf_get, conf_set; cbn [it_conf set_conf conf_opts conf_values]; by rewrite Ho, lookup_insert_eq|].
  intros h Hwf.
  assert (Hinit : CadvisorClient_init (g_defaults g) h (VStr u) None None =
                    Ok (mk_heap (init_objs (heap_next h) (u ++ ":" ++ "8080" ++ "/" ++ "v1.3") (heap_objs h))
                                (Pos.succ (Pos.succ (Pos.succ (Pos.succ (heap_next h))))), heap_next h))
    by (rewrite Hd; by apply CadvisorClient_init_strs).
  eexists _, _. split; [unfold new_client; cbn [it_modules set_conf]; rewrite Hm; exact Hinit|].
  rewrite Hd in Hinit. exact (proj1 (init_default_urls srv h u "" _ _ Hwf Hinit)).
Qed.

Lemma init_defaults_import_time_witness :
  it_modules example_interp !! "oslo_config.cfg" = None /\ it_modules example_interp !! "cadvisor_client" = None /\
  exists it1 g, import_client example_interp "cadvisor_client" = (it1, Ok g) /\
  exists it2, set_override it1 "cAdvisor_port" "9090" = Ok it2 /\
    conf_get (it_conf it2) "cAdvisor_port" = Ok "9090" /\
    forall h, wf_heap h -> exists h' self,
      new_client it2 "cadvisor_client" h (VStr "http://h") = Ok (h', self) /\
      io_trace (example_server 200 "1") (@call example_loads h' self machine get_machine_info) =
        ["http://h" ++ ":8080/v1.3/machine"].
Proof.
  split; [reflexivity|]. split; [reflexivity|].
  destruct (import_client example_interp "cadvisor_client") as [it1 [g|e]] eqn:E; [|vm_compute in E; discriminate].
  exists it1, g. split; [reflexivity|].
  exact (@init_defaults_import_time example_loads example_interp "cadvisor_client" it1 g "9090" "http://h"
           (example_server 200 "1") eq_refl eq_refl E).
Defined.
